(** * Omni Gratum time tracking: the relational store, the timer/timesheet
      engine and the login form.

    - [Schema] embeds [supabase_schema.sql]: the seven tables with their
      column types, NOT NULL / CHECK / UNIQUE / PRIMARY KEY / FOREIGN KEY
      constraints and the ON DELETE actions, as an executable interpreter
      of INSERT, UPDATE and DELETE statements over finite maps.
    - [Core] is the timer-session and timesheet engine that runs on top of
      that store.
    - [LoginPage] embeds the [handleSubmit] handler and the submit button
      of [LoginPage.js] as a small event-driven state machine.
    - [SchemaProps], [CoreProps] and [LoginProps] hold the predicates the
      statements are made of, [Samples] and [LoginSamples] concrete data;
      the lemmas follow in [SchemaFacts], [StoreFacts], [CoreFacts] and
      [LoginFacts], and the statements about the system in [Claims] and
      [LoginClaims]. *)

From stdpp Require Import gmap strings list fin_maps.
From Stdlib Require Import ZArith Ascii.

Local Open Scope string_scope.
Local Open Scope Z_scope.

(** ** Results of fallible operations *)

Inductive result (E A : Type) : Type :=
| Ok (a : A)
| Err (e : E).
Arguments Ok {E A} a.
Arguments Err {E A} e.

Definition is_ok {E A} (r : result E A) : bool :=
  match r with Ok _ => true | Err _ => false end.

Definition bind {E A B} (r : result E A) (k : A → result E B) : result E B :=
  match r with Ok a => k a | Err e => Err e end.

Notation "'let*' x := r 'in' k" := (bind r (λ x, k))
  (at level 10, x name, r at level 100, k at level 200, only parsing).

(** [require b e] is a constraint check: it passes when [b] holds and
    raises [e] otherwise. *)
Definition require {E} (b : bool) (e : E) : result E unit :=
  if b then Ok tt else Err e.

Notation "'check' b 'or' e ;; k" := (bind (require b e) (λ _, k))
  (at level 10, b at level 99, e at level 99, k at level 200, only parsing).

Module Schema.

(** ** Column types *)

(** UUID keys, TIMESTAMPTZ as seconds since the epoch, DATE as days since
    the epoch, DECIMAL(10, 2) as a count of hundredths. *)
Definition uuid := N.
Definition timestamptz := Z.
Definition date := Z.
Definition decimal_10_2 := Z.

(** INTEGER is a signed 32-bit column. *)
Definition integer_ok (z : Z) : bool :=
  bool_decide (-2147483648 ≤ z ≤ 2147483647).

(** DECIMAL(10, 2): at most eight digits before the point. *)
Definition decimal_10_2_ok (h : decimal_10_2) : bool :=
  bool_decide (-10000000000 < h < 10000000000).

(** ** Rows, one record per table; a nullable column is an [option] *)

Record user_row := {
  u_email : string;
  u_name : string;
  u_password : string;
  u_role : string;
  u_status : string;
  u_default_project : option uuid;
  u_default_task : option uuid;
  u_created_at : timestamptz
}.

Record project_row := {
  p_name : string;
  p_description : option string;
  p_created_by : uuid;
  p_status : string;
  p_created_at : timestamptz
}.

Record task_row := {
  k_name : string;
  k_description : option string;
  k_project_id : uuid;
  k_status : string;
  k_created_at : timestamptz
}.

Record time_entry_row := {
  te_user_id : uuid;
  te_project_id : uuid;
  te_task_id : uuid;
  te_start_time : timestamptz;
  te_end_time : option timestamptz;
  te_duration : Z;
  te_entry_type : string;
  te_date : date;
  te_notes : option string;
  te_created_at : timestamptz
}.

Record timer_session_row := {
  ts_user_id : uuid;
  ts_project_id : uuid;
  ts_task_id : uuid;
  ts_start_time : timestamptz;
  ts_last_heartbeat : timestamptz;
  ts_is_active : bool;
  ts_date : date
}.

Record timesheet_row := {
  sh_user_id : uuid;
  sh_week_start : date;
  sh_week_end : date;
  sh_total_hours : decimal_10_2;
  sh_status : string;
  sh_submitted_at : option timestamptz;
  sh_reviewed_at : option timestamptz;
  sh_reviewed_by : option uuid;
  sh_admin_comment : option string;
  sh_created_at : timestamptz
}.

Record notification_row := {
  n_user_id : uuid;
  n_type : string;
  n_title : string;
  n_message : string;
  n_read : bool;
  n_related_timesheet_id : option uuid;
  n_created_at : timestamptz
}.

#[export] Instance user_row_eq_dec : EqDecision user_row.
Proof. solve_decision. Defined.
#[export] Instance project_row_eq_dec : EqDecision project_row.
Proof. solve_decision. Defined.
#[export] Instance task_row_eq_dec : EqDecision task_row.
Proof. solve_decision. Defined.
#[export] Instance time_entry_row_eq_dec : EqDecision time_entry_row.
Proof. solve_decision. Defined.
#[export] Instance timer_session_row_eq_dec : EqDecision timer_session_row.
Proof. solve_decision. Defined.
#[export] Instance timesheet_row_eq_dec : EqDecision timesheet_row.
Proof. solve_decision. Defined.
#[export] Instance notification_row_eq_dec : EqDecision notification_row.
Proof. solve_decision. Defined.

(** ** The database: each table is a finite map from its primary key *)

Record db := {
  users : gmap uuid user_row;
  projects : gmap uuid project_row;
  tasks : gmap uuid task_row;
  time_entries : gmap uuid time_entry_row;
  timer_sessions : gmap uuid timer_session_row;
  timesheets : gmap uuid timesheet_row;
  notifications : gmap uuid notification_row
}.

Definition empty_db : db :=
  {| users := ∅; projects := ∅; tasks := ∅; time_entries := ∅;
     timer_sessions := ∅; timesheets := ∅; notifications := ∅ |}.

(** ** Errors the store raises *)

Inductive sql_error :=
| unique_violation (constraint : string)
| check_violation (constraint : string)
| foreign_key_violation (constraint : string)
| string_data_right_truncation (column : string)
| numeric_value_out_of_range (column : string).

Definition sql_result := result sql_error db.

(** ** VARCHAR(n)

    The limit [n] of a VARCHAR(n) column counts characters, not bytes.
    The database keeps text in UTF-8 (the encoding of a Supabase
    project), so a character starts at every byte that is not a
    continuation byte (10xxxxxx). *)
Definition is_continuation (a : ascii) : bool :=
  match a with Ascii _ _ _ _ _ _ b6 b7 => b7 && negb b6 end.

Fixpoint char_length (s : string) : nat :=
  match s with
  | EmptyString => O
  | String a s => ((if is_continuation a then 0 else 1) + char_length s)%nat
  end.

Fixpoint all_spaces (s : string) : bool :=
  match s with
  | EmptyString => true
  | String a s => bool_decide (a = " "%char) && all_spaces s
  end.

Fixpoint first_bytes (k : nat) (s : string) : string :=
  match k, s with
  | S k, String a s => String a (first_bytes k s)
  | _, _ => EmptyString
  end.

Fixpoint skip_bytes (k : nat) (s : string) : string :=
  match k, s with
  | S k, String _ s => skip_bytes k s
  | _, _ => s
  end.

(** Storing [s] into a VARCHAR(n) column. A value of at most [n]
    characters is stored as it is. Of a longer value the characters after
    the [n]-th must all be spaces: they are cut off and the first [n]
    characters are stored; any other longer value is an error. A space
    is one byte, so the characters after the [n]-th are spaces exactly
    when the last [surplus] bytes are. *)
Definition varchar (n : nat) (column : string) (s : string)
  : result sql_error string :=
  let surplus := (char_length s - n)%nat in
  let kept := (String.length s - surplus)%nat in
  if all_spaces (skip_bytes kept s) then Ok (first_bytes kept s)
  else Err (string_data_right_truncation column).

(** ** CHECK constraints, as written in the schema *)

Definition users_role_check (role : string) : bool :=
  bool_decide (role ∈ ["admin"; "employee"]).

Definition users_status_check (status : string) : bool :=
  bool_decide (status ∈ ["active"; "inactive"]).

Definition time_entries_entry_type_check (entry_type : string) : bool :=
  bool_decide (entry_type ∈ ["timer"; "manual"]).

Definition timesheets_status_check (status : string) : bool :=
  bool_decide (status ∈ ["draft"; "submitted"; "approved"; "denied"]).

Definition notifications_type_check (type : string) : bool :=
  bool_decide (type ∈ ["timesheet_submitted"; "timesheet_approved";
                       "timesheet_denied"]).

(** Column defaults. *)
Definition users_status_default : string := "active".
Definition projects_status_default : string := "active".
Definition tasks_status_default : string := "active".
Definition time_entries_duration_default : Z := 0.
Definition timer_sessions_is_active_default : bool := true.
Definition notifications_read_default : bool := false.

(** ** Key lookups used by the constraints *)

Definition has_key {A} (m : gmap uuid A) (k : uuid) : bool :=
  bool_decide (is_Some (m !! k)).

(** A nullable foreign key is satisfied by NULL. *)
Definition has_key_opt {A} (m : gmap uuid A) (k : option uuid) : bool :=
  match k with None => true | Some k => has_key m k end.

(** UNIQUE (email): no row other than [self] carries [email]. *)
Definition email_taken (d : db) (self : uuid) (email : string) : bool :=
  bool_decide (map_Exists (λ id r, id ≠ self ∧ u_email r = email) (users d)).

(** ** Assignment of a row to the columns of its table

    Each VARCHAR(n) value goes through [varchar]; the other columns take
    their value as it is. *)

Definition users_assign (r : user_row) : result sql_error user_row :=
  let* email := varchar 255 "email" (u_email r) in
  let* name := varchar 255 "name" (u_name r) in
  let* password := varchar 255 "password" (u_password r) in
  let* role := varchar 50 "role" (u_role r) in
  let* status := varchar 50 "status" (u_status r) in
  Ok {| u_email := email; u_name := name; u_password := password;
        u_role := role; u_status := status;
        u_default_project := u_default_project r;
        u_default_task := u_default_task r;
        u_created_at := u_created_at r |}.

Definition projects_assign (r : project_row) : result sql_error project_row :=
  let* name := varchar 255 "name" (p_name r) in
  let* status := varchar 50 "status" (p_status r) in
  Ok {| p_name := name; p_description := p_description r;
        p_created_by := p_created_by r; p_status := status;
        p_created_at := p_created_at r |}.

Definition tasks_assign (r : task_row) : result sql_error task_row :=
  let* name := varchar 255 "name" (k_name r) in
  let* status := varchar 50 "status" (k_status r) in
  Ok {| k_name := name; k_description := k_description r;
        k_project_id := k_project_id r; k_status := status;
        k_created_at := k_created_at r |}.

Definition time_entries_assign (r : time_entry_row)
  : result sql_error time_entry_row :=
  let* entry_type := varchar 50 "entry_type" (te_entry_type r) in
  Ok {| te_user_id := te_user_id r; te_project_id := te_project_id r;
        te_task_id := te_task_id r; te_start_time := te_start_time r;
        te_end_time := te_end_time r; te_duration := te_duration r;
        te_entry_type := entry_type; te_date := te_date r;
        te_notes := te_notes r; te_created_at := te_created_at r |}.

Definition timesheets_assign (r : timesheet_row)
  : result sql_error timesheet_row :=
  let* status := varchar 50 "status" (sh_status r) in
  Ok {| sh_user_id := sh_user_id r; sh_week_start := sh_week_start r;
        sh_week_end := sh_week_end r; sh_total_hours := sh_total_hours r;
        sh_status := status; sh_submitted_at := sh_submitted_at r;
        sh_reviewed_at := sh_reviewed_at r;
        sh_reviewed_by := sh_reviewed_by r;
        sh_admin_comment := sh_admin_comment r;
        sh_created_at := sh_created_at r |}.

Definition notifications_assign (r : notification_row)
  : result sql_error notification_row :=
  let* type := varchar 50 "type" (n_type r) in
  let* title := varchar 255 "title" (n_title r) in
  Ok {| n_user_id := n_user_id r; n_type := type; n_title := title;
        n_message := n_message r; n_read := n_read r;
        n_related_timesheet_id := n_related_timesheet_id r;
        n_created_at := n_created_at r |}.

(** ** Row constraints per table (everything but the primary key), on
    the row as assigned *)

Definition users_constraints (d : db) (id : uuid) (r : user_row)
  : result sql_error unit :=
  check users_role_check (u_role r) or check_violation "users_role_check" ;;
  check users_status_check (u_status r) or check_violation "users_status_check" ;;
  check negb (email_taken d id (u_email r)) or unique_violation "users_email_key" ;;
  Ok tt.

Definition projects_constraints (d : db) (r : project_row)
  : result sql_error unit :=
  check has_key (users d) (p_created_by r)
    or foreign_key_violation "projects_created_by_fkey" ;;
  Ok tt.

Definition tasks_constraints (d : db) (r : task_row)
  : result sql_error unit :=
  check has_key (projects d) (k_project_id r)
    or foreign_key_violation "tasks_project_id_fkey" ;;
  Ok tt.

Definition time_entries_constraints (d : db) (r : time_entry_row)
  : result sql_error unit :=
  check integer_ok (te_duration r) or numeric_value_out_of_range "duration" ;;
  check time_entries_entry_type_check (te_entry_type r)
    or check_violation "time_entries_entry_type_check" ;;
  check has_key (users d) (te_user_id r)
    or foreign_key_violation "time_entries_user_id_fkey" ;;
  check has_key (projects d) (te_project_id r)
    or foreign_key_violation "time_entries_project_id_fkey" ;;
  check has_key (tasks d) (te_task_id r)
    or foreign_key_violation "time_entries_task_id_fkey" ;;
  Ok tt.

Definition timer_sessions_constraints (d : db) (r : timer_session_row)
  : result sql_error unit :=
  check has_key (users d) (ts_user_id r)
    or foreign_key_violation "timer_sessions_user_id_fkey" ;;
  check has_key (projects d) (ts_project_id r)
    or foreign_key_violation "timer_sessions_project_id_fkey" ;;
  check has_key (tasks d) (ts_task_id r)
    or foreign_key_violation "timer_sessions_task_id_fkey" ;;
  Ok tt.

Definition timesheets_constraints (d : db) (r : timesheet_row)
  : result sql_error unit :=
  check decimal_10_2_ok (sh_total_hours r)
    or numeric_value_out_of_range "total_hours" ;;
  check timesheets_status_check (sh_status r)
    or check_violation "timesheets_status_check" ;;
  check has_key (users d) (sh_user_id r)
    or foreign_key_violation "timesheets_user_id_fkey" ;;
  check has_key_opt (users d) (sh_reviewed_by r)
    or foreign_key_violation "timesheets_reviewed_by_fkey" ;;
  Ok tt.

Definition notifications_constraints (d : db) (r : notification_row)
  : result sql_error unit :=
  check notifications_type_check (n_type r)
    or check_violation "notifications_type_check" ;;
  check has_key (users d) (n_user_id r)
    or foreign_key_violation "notifications_user_id_fkey" ;;
  check has_key_opt (timesheets d) (n_related_timesheet_id r)
    or foreign_key_violation "notifications_related_timesheet_id_fkey" ;;
  Ok tt.

(** ** Replacing one table of the database *)

Definition set_users (d : db) (m : gmap uuid user_row) : db :=
  {| users := m; projects := projects d; tasks := tasks d;
     time_entries := time_entries d; timer_sessions := timer_sessions d;
     timesheets := timesheets d; notifications := notifications d |}.

Definition set_projects (d : db) (m : gmap uuid project_row) : db :=
  {| users := users d; projects := m; tasks := tasks d;
     time_entries := time_entries d; timer_sessions := timer_sessions d;
     timesheets := timesheets d; notifications := notifications d |}.

Definition set_tasks (d : db) (m : gmap uuid task_row) : db :=
  {| users := users d; projects := projects d; tasks := m;
     time_entries := time_entries d; timer_sessions := timer_sessions d;
     timesheets := timesheets d; notifications := notifications d |}.

Definition set_time_entries (d : db) (m : gmap uuid time_entry_row) : db :=
  {| users := users d; projects := projects d; tasks := tasks d;
     time_entries := m; timer_sessions := timer_sessions d;
     timesheets := timesheets d; notifications := notifications d |}.

Definition set_timer_sessions (d : db) (m : gmap uuid timer_session_row) : db :=
  {| users := users d; projects := projects d; tasks := tasks d;
     time_entries := time_entries d; timer_sessions := m;
     timesheets := timesheets d; notifications := notifications d |}.

Definition set_timesheets (d : db) (m : gmap uuid timesheet_row) : db :=
  {| users := users d; projects := projects d; tasks := tasks d;
     time_entries := time_entries d; timer_sessions := timer_sessions d;
     timesheets := m; notifications := notifications d |}.

Definition set_notifications (d : db) (m : gmap uuid notification_row) : db :=
  {| users := users d; projects := projects d; tasks := tasks d;
     time_entries := time_entries d; timer_sessions := timer_sessions d;
     timesheets := timesheets d; notifications := m |}.

(** ** INSERT: the values are assigned to the columns, the primary key
    must be new, then the row constraints *)

Definition insert_user (d : db) (id : uuid) (r : user_row) : sql_result :=
  let* r := users_assign r in
  check negb (has_key (users d) id) or unique_violation "users_pkey" ;;
  let* _ := users_constraints d id r in
  Ok (set_users d (<[id := r]> (users d))).

Definition insert_project (d : db) (id : uuid) (r : project_row) : sql_result :=
  let* r := projects_assign r in
  check negb (has_key (projects d) id) or unique_violation "projects_pkey" ;;
  let* _ := projects_constraints d r in
  Ok (set_projects d (<[id := r]> (projects d))).

Definition insert_task (d : db) (id : uuid) (r : task_row) : sql_result :=
  let* r := tasks_assign r in
  check negb (has_key (tasks d) id) or unique_violation "tasks_pkey" ;;
  let* _ := tasks_constraints d r in
  Ok (set_tasks d (<[id := r]> (tasks d))).

Definition insert_time_entry (d : db) (id : uuid) (r : time_entry_row)
  : sql_result :=
  let* r := time_entries_assign r in
  check negb (has_key (time_entries d) id)
    or unique_violation "time_entries_pkey" ;;
  let* _ := time_entries_constraints d r in
  Ok (set_time_entries d (<[id := r]> (time_entries d))).

Definition insert_timer_session (d : db) (id : uuid) (r : timer_session_row)
  : sql_result :=
  check negb (has_key (timer_sessions d) id)
    or unique_violation "timer_sessions_pkey" ;;
  let* _ := timer_sessions_constraints d r in
  Ok (set_timer_sessions d (<[id := r]> (timer_sessions d))).

Definition insert_timesheet (d : db) (id : uuid) (r : timesheet_row)
  : sql_result :=
  let* r := timesheets_assign r in
  check negb (has_key (timesheets d) id) or unique_violation "timesheets_pkey" ;;
  let* _ := timesheets_constraints d r in
  Ok (set_timesheets d (<[id := r]> (timesheets d))).

Definition insert_notification (d : db) (id : uuid) (r : notification_row)
  : sql_result :=
  let* r := notifications_assign r in
  check negb (has_key (notifications d) id)
    or unique_violation "notifications_pkey" ;;
  let* _ := notifications_constraints d r in
  Ok (set_notifications d (<[id := r]> (notifications d))).

(** ** UPDATE ... WHERE id = ...: the row keeps its key, the new column
    values are assigned and meet the row constraints; no matching row
    updates nothing *)

Definition update_user (d : db) (id : uuid) (r : user_row) : sql_result :=
  if has_key (users d) id then
    let* r := users_assign r in
    let* _ := users_constraints d id r in
    Ok (set_users d (<[id := r]> (users d)))
  else Ok d.

Definition update_project (d : db) (id : uuid) (r : project_row) : sql_result :=
  if has_key (projects d) id then
    let* r := projects_assign r in
    let* _ := projects_constraints d r in
    Ok (set_projects d (<[id := r]> (projects d)))
  else Ok d.

Definition update_task (d : db) (id : uuid) (r : task_row) : sql_result :=
  if has_key (tasks d) id then
    let* r := tasks_assign r in
    let* _ := tasks_constraints d r in
    Ok (set_tasks d (<[id := r]> (tasks d)))
  else Ok d.

Definition update_time_entry (d : db) (id : uuid) (r : time_entry_row)
  : sql_result :=
  if has_key (time_entries d) id then
    let* r := time_entries_assign r in
    let* _ := time_entries_constraints d r in
    Ok (set_time_entries d (<[id := r]> (time_entries d)))
  else Ok d.

Definition update_timer_session (d : db) (id : uuid) (r : timer_session_row)
  : sql_result :=
  if has_key (timer_sessions d) id then
    let* _ := timer_sessions_constraints d r in
    Ok (set_timer_sessions d (<[id := r]> (timer_sessions d)))
  else Ok d.

Definition update_timesheet (d : db) (id : uuid) (r : timesheet_row)
  : sql_result :=
  if has_key (timesheets d) id then
    let* r := timesheets_assign r in
    let* _ := timesheets_constraints d r in
    Ok (set_timesheets d (<[id := r]> (timesheets d)))
  else Ok d.

Definition update_notification (d : db) (id : uuid) (r : notification_row)
  : sql_result :=
  if has_key (notifications d) id then
    let* r := notifications_assign r in
    let* _ := notifications_constraints d r in
    Ok (set_notifications d (<[id := r]> (notifications d)))
  else Ok d.

(** ** DELETE ... WHERE id = ... and the ON DELETE actions

    A foreign key declared ON DELETE CASCADE removes the referencing rows,
    ON DELETE SET NULL clears the referencing column, and a foreign key
    with no ON DELETE clause (NO ACTION) makes the statement fail when a
    referencing row is still there once the cascades have run. *)

(** ON DELETE SET NULL of [notifications.related_timesheet_id], for the
    timesheets that [gone] says are being deleted. *)
Definition related_timesheet_set_null (gone : uuid → bool)
    (n : notification_row) : notification_row :=
  match n_related_timesheet_id n with
  | Some t =>
      if gone t then
        {| n_user_id := n_user_id n; n_type := n_type n;
           n_title := n_title n; n_message := n_message n;
           n_read := n_read n; n_related_timesheet_id := None;
           n_created_at := n_created_at n |}
      else n
  | None => n
  end.

(** The timesheet [t] belongs to [user]: it goes away with that user. *)
Definition timesheet_of_user (d : db) (user : uuid) (t : uuid) : bool :=
  match timesheets d !! t with
  | Some s => bool_decide (sh_user_id s = user)
  | None => false
  end.

(** The task [t] belongs to [project]: it goes away with that project. *)
Definition task_of_project (d : db) (project : uuid) (t : uuid) : bool :=
  match tasks d !! t with
  | Some k => bool_decide (k_project_id k = project)
  | None => false
  end.

Definition delete_user (d : db) (id : uuid) : sql_result :=
  if has_key (users d) id then
    let d' :=
      {| users := delete id (users d);
         projects := projects d;
         tasks := tasks d;
         time_entries :=
           filter (λ kv, te_user_id kv.2 ≠ id) (time_entries d);
         timer_sessions :=
           filter (λ kv, ts_user_id kv.2 ≠ id) (timer_sessions d);
         timesheets :=
           filter (λ kv, sh_user_id kv.2 ≠ id) (timesheets d);
         notifications :=
           related_timesheet_set_null (timesheet_of_user d id) <$>
             filter (λ kv, n_user_id kv.2 ≠ id) (notifications d) |} in
    check bool_decide (map_Forall (λ _ p, p_created_by p ≠ id) (projects d'))
      or foreign_key_violation "projects_created_by_fkey" ;;
    check bool_decide
            (map_Forall (λ _ s, sh_reviewed_by s ≠ Some id) (timesheets d'))
      or foreign_key_violation "timesheets_reviewed_by_fkey" ;;
    Ok d'
  else Ok d.

Definition delete_project (d : db) (id : uuid) : sql_result :=
  if has_key (projects d) id then
    let d' :=
      set_tasks (set_projects d (delete id (projects d)))
        (filter (λ kv, k_project_id kv.2 ≠ id) (tasks d)) in
    check bool_decide
            (map_Forall (λ _ e, te_project_id e ≠ id) (time_entries d'))
      or foreign_key_violation "time_entries_project_id_fkey" ;;
    check bool_decide
            (map_Forall (λ _ s, ts_project_id s ≠ id) (timer_sessions d'))
      or foreign_key_violation "timer_sessions_project_id_fkey" ;;
    check bool_decide
            (map_Forall (λ _ e, task_of_project d id (te_task_id e) = false)
               (time_entries d'))
      or foreign_key_violation "time_entries_task_id_fkey" ;;
    check bool_decide
            (map_Forall (λ _ s, task_of_project d id (ts_task_id s) = false)
               (timer_sessions d'))
      or foreign_key_violation "timer_sessions_task_id_fkey" ;;
    Ok d'
  else Ok d.

Definition delete_task (d : db) (id : uuid) : sql_result :=
  if has_key (tasks d) id then
    check bool_decide (map_Forall (λ _ e, te_task_id e ≠ id) (time_entries d))
      or foreign_key_violation "time_entries_task_id_fkey" ;;
    check bool_decide
            (map_Forall (λ _ s, ts_task_id s ≠ id) (timer_sessions d))
      or foreign_key_violation "timer_sessions_task_id_fkey" ;;
    Ok (set_tasks d (delete id (tasks d)))
  else Ok d.

Definition delete_time_entry (d : db) (id : uuid) : sql_result :=
  Ok (set_time_entries d (delete id (time_entries d))).

Definition delete_timer_session (d : db) (id : uuid) : sql_result :=
  Ok (set_timer_sessions d (delete id (timer_sessions d))).

Definition delete_timesheet (d : db) (id : uuid) : sql_result :=
  if has_key (timesheets d) id then
    Ok {| users := users d; projects := projects d; tasks := tasks d;
          time_entries := time_entries d;
          timer_sessions := timer_sessions d;
          timesheets := delete id (timesheets d);
          notifications :=
            related_timesheet_set_null (λ t, bool_decide (t = id)) <$>
              notifications d |}
  else Ok d.

Definition delete_notification (d : db) (id : uuid) : sql_result :=
  Ok (set_notifications d (delete id (notifications d))).

(** ** Statements and their execution *)

Inductive stmt :=
| INSERT_users (id : uuid) (r : user_row)
| INSERT_projects (id : uuid) (r : project_row)
| INSERT_tasks (id : uuid) (r : task_row)
| INSERT_time_entries (id : uuid) (r : time_entry_row)
| INSERT_timer_sessions (id : uuid) (r : timer_session_row)
| INSERT_timesheets (id : uuid) (r : timesheet_row)
| INSERT_notifications (id : uuid) (r : notification_row)
| UPDATE_users (id : uuid) (r : user_row)
| UPDATE_projects (id : uuid) (r : project_row)
| UPDATE_tasks (id : uuid) (r : task_row)
| UPDATE_time_entries (id : uuid) (r : time_entry_row)
| UPDATE_timer_sessions (id : uuid) (r : timer_session_row)
| UPDATE_timesheets (id : uuid) (r : timesheet_row)
| UPDATE_notifications (id : uuid) (r : notification_row)
| DELETE_users (id : uuid)
| DELETE_projects (id : uuid)
| DELETE_tasks (id : uuid)
| DELETE_time_entries (id : uuid)
| DELETE_timer_sessions (id : uuid)
| DELETE_timesheets (id : uuid)
| DELETE_notifications (id : uuid).

Definition exec (d : db) (s : stmt) : sql_result :=
  match s with
  | INSERT_users id r => insert_user d id r
  | INSERT_projects id r => insert_project d id r
  | INSERT_tasks id r => insert_task d id r
  | INSERT_time_entries id r => insert_time_entry d id r
  | INSERT_timer_sessions id r => insert_timer_session d id r
  | INSERT_timesheets id r => insert_timesheet d id r
  | INSERT_notifications id r => insert_notification d id r
  | UPDATE_users id r => update_user d id r
  | UPDATE_projects id r => update_project d id r
  | UPDATE_tasks id r => update_task d id r
  | UPDATE_time_entries id r => update_time_entry d id r
  | UPDATE_timer_sessions id r => update_timer_session d id r
  | UPDATE_timesheets id r => update_timesheet d id r
  | UPDATE_notifications id r => update_notification d id r
  | DELETE_users id => delete_user d id
  | DELETE_projects id => delete_project d id
  | DELETE_tasks id => delete_task d id
  | DELETE_time_entries id => delete_time_entry d id
  | DELETE_timer_sessions id => delete_timer_session d id
  | DELETE_timesheets id => delete_timesheet d id
  | DELETE_notifications id => delete_notification d id
  end.

(** A script runs its statements in order and stops at the first error. *)
Fixpoint exec_all (d : db) (ss : list stmt) : sql_result :=
  match ss with
  | [] => Ok d
  | s :: ss => let* d' := exec d s in exec_all d' ss
  end.

(** The databases a sequence of successful statements can build. *)
Inductive reachable : db → Prop :=
| reachable_empty : reachable empty_db
| reachable_exec d s d' : reachable d → exec d s = Ok d' → reachable d'.

(** The two rows the schema script inserts (ids as generated, creation
    time as read from the clock). *)
Definition default_admin (now : timestamptz) : user_row :=
  {| u_email := "admin@omnigratum.com"; u_name := "Admin User";
     u_password :=
       "$2b$12$LQv3c1yqBWVHxkd0LHAkCOYz6TtxMQJqhN8/LewY5oCvJ9J9pU8Kq";
     u_role := "admin"; u_status := "active";
     u_default_project := None; u_default_task := None;
     u_created_at := now |}.

Definition default_employee (now : timestamptz) : user_row :=
  {| u_email := "employee@omnigratum.com"; u_name := "John Employee";
     u_password :=
       "$2b$12$8K1p/FwT/fWqJfMZJKLlZu5h3XQFm9bPjTJQHhJlNyJ1JVKJ1ZFQS";
     u_role := "employee"; u_status := "active";
     u_default_project := None; u_default_task := None;
     u_created_at := now |}.

Definition schema_script (admin_id employee_id : uuid) (now : timestamptz)
  : list stmt :=
  [INSERT_users admin_id (default_admin now);
   INSERT_users employee_id (default_employee now)].

End Schema.

(** * The timer-session and timesheet engine

    The backend server that owns start / heartbeat / stop, the reaper,
    the time-entry recorder, the timesheet aggregator and the approval
    workflow is not among the sources, which hold only the schema it runs
    on. Its operations are modelled here from sections 3 to 5 and 7 of
    the specification, sentence by sentence, on the store of [Schema].
    Each operation is one atomic step: it returns either an error and
    leaves the store as it was, or the new store. *)
Module Core.
Import Schema.

Inductive error :=
| ValidationError
| ConflictError
| NotFoundError
| AuthorizationError
| TransientError
| StoreRejected (e : sql_error).

(** Errors of the store are returned to the caller as they are. *)
Definition store {A} (r : result sql_error A) : result error A :=
  match r with Ok a => Ok a | Err e => Err (StoreRejected e) end.

(** The recipient of a notification handed to the dispatcher. *)
Inductive recipient :=
| to_admins
| to_user (user : uuid).

Record notification_event := {
  ev_recipient : recipient;
  ev_type : string;
  ev_related_timesheet : uuid
}.

(** The first row of a table selection, if there is one. *)
Definition first_row {A} (m : gmap uuid A) : option (uuid * A) :=
  head (map_to_list m).

(** Keys the store generates for new rows ([uuid_generate_v4]). *)
Definition new_id {A} (m : gmap uuid A) : uuid := fresh (dom m).

(** UTC calendar date of a timestamp. *)
Definition date_of (t : timestamptz) : date := t `div` 86400.

(** The selections behind [getActive] and the lookup of a timesheet by
    (user, week_start). *)
Definition active_of (user : uuid) (kv : uuid * timer_session_row) : Prop :=
  ts_user_id kv.2 = user ∧ ts_is_active kv.2 = true.

#[export] Instance active_of_dec user kv : Decision (active_of user kv).
Proof. unfold active_of. apply _. Defined.

Definition sheet_of (user : uuid) (week_start : date)
    (kv : uuid * timesheet_row) : Prop :=
  sh_user_id kv.2 = user ∧ sh_week_start kv.2 = week_start.

#[export] Instance sheet_of_dec user week_start kv
  : Decision (sheet_of user week_start kv).
Proof. unfold sheet_of. apply _. Defined.

Section Engine.

(** The clock read for the [created_at] column of a new row. *)
Variable clock : timestamptz.

(** ** 4.1 TimerSessionManager *)

(** Modelled from the spec: [getActive] of the TimerSessionManager
    (section 4.1): the active session of [user] or null; a pure read. *)
Definition getActive (d : db) (user : uuid)
  : option (uuid * timer_session_row) :=
  first_row (filter (active_of user) (timer_sessions d)).

Definition new_session (user project task : uuid) (now : timestamptz)
  : timer_session_row :=
  {| ts_user_id := user; ts_project_id := project; ts_task_id := task;
     ts_start_time := now; ts_last_heartbeat := now; ts_is_active := true;
     ts_date := date_of now |}.

(** Modelled from the spec: [start] (section 4.1): ConflictError if an
    active session exists for [user], otherwise a session with
    [start_time = last_heartbeat = now], active, dated [now.date()]. The
    check and the create are one step. *)
Definition start (d : db) (user project task : uuid) (now : timestamptz)
  : result error db :=
  match getActive d user with
  | Some _ => Err ConflictError
  | None =>
      store (insert_timer_session d (new_id (timer_sessions d))
               (new_session user project task now))
  end.

Definition with_last_heartbeat (s : timer_session_row) (now : timestamptz)
  : timer_session_row :=
  {| ts_user_id := ts_user_id s; ts_project_id := ts_project_id s;
     ts_task_id := ts_task_id s; ts_start_time := ts_start_time s;
     ts_last_heartbeat := now; ts_is_active := ts_is_active s;
     ts_date := ts_date s |}.

(** Modelled from the spec: [heartbeat] (section 4.1): NotFoundError if
    no active session exists, otherwise [last_heartbeat = now] and
    nothing else. *)
Definition heartbeat (d : db) (user : uuid) (now : timestamptz)
  : result error db :=
  match getActive d user with
  | None => Err NotFoundError
  | Some (sid, s) =>
      store (update_timer_session d sid (with_last_heartbeat s now))
  end.

Definition deactivated (s : timer_session_row) : timer_session_row :=
  {| ts_user_id := ts_user_id s; ts_project_id := ts_project_id s;
     ts_task_id := ts_task_id s; ts_start_time := ts_start_time s;
     ts_last_heartbeat := ts_last_heartbeat s; ts_is_active := false;
     ts_date := ts_date s |}.

(** ** 4.3 TimeEntryRecorder *)

(** Modelled from the spec: the time entry of a finished session
    (sections 3 and 4.3): [duration = end_time - start_time], computed
    here from the two ends and no input of its own. *)
Definition timer_entry (session : timer_session_row) (end_time : timestamptz)
  : time_entry_row :=
  {| te_user_id := ts_user_id session;
     te_project_id := ts_project_id session;
     te_task_id := ts_task_id session;
     te_start_time := ts_start_time session;
     te_end_time := Some end_time;
     te_duration := end_time - ts_start_time session;
     te_entry_type := "timer";
     te_date := ts_date session;
     te_notes := None;
     te_created_at := clock |}.

(** Modelled from the spec: [recordFromSession] of the
    TimeEntryRecorder (section 4.3), the internal entry point used by
    stop and by the reaper. *)
Definition recordFromSession (d : db) (session : timer_session_row)
    (end_time : timestamptz) : result error db :=
  store (insert_time_entry d (new_id (time_entries d))
           (timer_entry session end_time)).

(** Modelled from the spec: the clamp of section 4.1: an end before the
    start (clock skew) becomes the start, a zero-duration entry. *)
Definition clamp_end (s : timer_session_row) (end_time : timestamptz)
  : timestamptz :=
  if bool_decide (end_time < ts_start_time s) then ts_start_time s
  else end_time.

(** Modelled from the spec: the one termination path of a session
    (sections 4.1, 4.2 and 9), shared by [stop] and the reaper, which
    "performs the same termination as stop": the session becomes
    inactive and one time entry is recorded, with the end clamped. *)
Definition terminate (d : db) (sid : uuid) (s : timer_session_row)
    (end_time : timestamptz) : result error db :=
  let* d1 := store (update_timer_session d sid (deactivated s)) in
  recordFromSession d1 s (clamp_end s end_time).

(** Modelled from the spec: [stop] (section 4.1): NotFoundError if no
    active session exists, otherwise termination with [end_time = now]. *)
Definition stop (d : db) (user : uuid) (now : timestamptz)
  : result error db :=
  match getActive d user with
  | None => Err NotFoundError
  | Some (sid, s) => terminate d sid s now
  end.

(** ** 4.2 HeartbeatReaper *)

(** Modelled from the spec: the sessions the reaper takes (section
    4.2): active, with [now - last_heartbeat > staleness_threshold]. *)
Definition stale (now staleness_threshold : Z) (s : timer_session_row)
  : bool :=
  ts_is_active s && bool_decide (now - ts_last_heartbeat s > staleness_threshold).

(** Modelled from the spec: reaping one session (sections 4.2 and 5),
    with [end_time = last_heartbeat]; a session that is gone, already
    inactive or not stale is left alone, and that is a success. *)
Definition reap_session (d : db) (sid : uuid) (now staleness_threshold : Z)
  : result error db :=
  match timer_sessions d !! sid with
  | Some s =>
      if stale now staleness_threshold s
      then terminate d sid s (ts_last_heartbeat s)
      else Ok d
  | None => Ok d
  end.

Fixpoint reap_all (d : db) (sids : list uuid) (now staleness_threshold : Z)
  : result error db :=
  match sids with
  | [] => Ok d
  | sid :: sids =>
      let* d' := reap_session d sid now staleness_threshold in
      reap_all d' sids now staleness_threshold
  end.

(** Modelled from the spec: one pass of the HeartbeatReaper (section
    4.2) over the sessions that are stale when it starts. *)
Definition reaper_pass (d : db) (now staleness_threshold : Z)
  : result error db :=
  reap_all d
    (map fst (map_to_list
       (filter (λ kv, stale now staleness_threshold kv.2 = true)
          (timer_sessions d))))
    now staleness_threshold.

(** ** 4.4 TimesheetAggregator *)

Definition in_window (user : uuid) (week_start week_end : date)
    (e : time_entry_row) : bool :=
  bool_decide (te_user_id e = user ∧ week_start ≤ te_date e ≤ week_end).

Definition sum_durations (d : db) (user : uuid) (week_start week_end : date)
  : Z :=
  map_fold (λ _ e acc,
      if in_window user week_start week_end e then acc + te_duration e
      else acc)
    0 (time_entries d).

(** Modelled from the spec: [total_hours] (section 3): decimal hours
    [sum(duration) / 3600] rounded to two decimals (half up), held as
    hundredths of an hour. *)
Definition total_hours (d : db) (user : uuid) (week_start week_end : date)
  : decimal_10_2 :=
  (sum_durations d user week_start week_end + 18) `div` 36.

Definition with_total_hours (s : timesheet_row) (h : decimal_10_2)
  : timesheet_row :=
  {| sh_user_id := sh_user_id s; sh_week_start := sh_week_start s;
     sh_week_end := sh_week_end s; sh_total_hours := h;
     sh_status := sh_status s; sh_submitted_at := sh_submitted_at s;
     sh_reviewed_at := sh_reviewed_at s; sh_reviewed_by := sh_reviewed_by s;
     sh_admin_comment := sh_admin_comment s;
     sh_created_at := sh_created_at s |}.

(** Lookup of a timesheet by (user, week_start). *)
Definition find_timesheet (d : db) (user : uuid) (week_start : date)
  : option (uuid * timesheet_row) :=
  first_row (filter (sheet_of user week_start) (timesheets d)).

(** Modelled from the spec: the recompute rule (section 4.4): re-sums
    the entries in the window; nothing happens unless the timesheet is a
    draft. *)
Definition recompute_row (d : db) (id : uuid) (s : timesheet_row)
  : result error db :=
  if bool_decide (sh_status s = "draft") then
    store (update_timesheet d id
             (with_total_hours s
                (total_hours d (sh_user_id s) (sh_week_start s)
                   (sh_week_end s))))
  else Ok d.

(** Modelled from the spec: [recompute] of the TimesheetAggregator
    (section 4.4). *)
Definition recompute (d : db) (timesheet : uuid) : result error db :=
  match timesheets d !! timesheet with
  | None => Err NotFoundError
  | Some s => recompute_row d timesheet s
  end.

Definition new_draft (user : uuid) (week_start week_end : date)
    (hours : decimal_10_2) : timesheet_row :=
  {| sh_user_id := user; sh_week_start := week_start;
     sh_week_end := week_end; sh_total_hours := hours;
     sh_status := "draft"; sh_submitted_at := None;
     sh_reviewed_at := None; sh_reviewed_by := None;
     sh_admin_comment := None; sh_created_at := clock |}.

(** Modelled from the spec: [ensureDraft] (section 4.4): with
    [week_end = week_start + 6], creates the draft of (user, week_start)
    if there is no timesheet for it, recomputes it if it is a draft and
    leaves a submitted, approved or denied one alone. *)
Definition ensureDraft (d : db) (user : uuid) (week_start : date)
  : result error db :=
  let week_end := week_start + 6 in
  match find_timesheet d user week_start with
  | None =>
      store (insert_timesheet d (new_id (timesheets d))
               (new_draft user week_start week_end
                  (total_hours d user week_start week_end)))
  | Some (id, s) => recompute_row d id s
  end.

(** ** 4.3 TimeEntryRecorder, the public entry points *)

Definition project_active (d : db) (project : uuid) : bool :=
  match projects d !! project with
  | Some p => bool_decide (p_status p = "active")
  | None => false
  end.

Definition task_active (d : db) (task : uuid) : bool :=
  match tasks d !! task with
  | Some k => bool_decide (k_status k = "active")
  | None => false
  end.

Definition task_in_project (d : db) (task project : uuid) : bool :=
  match tasks d !! task with
  | Some k => bool_decide (k_project_id k = project)
  | None => false
  end.

Definition manual_entry (user project task : uuid)
    (start_time end_time : timestamptz) (notes : option string)
  : time_entry_row :=
  {| te_user_id := user; te_project_id := project; te_task_id := task;
     te_start_time := start_time; te_end_time := Some end_time;
     te_duration := end_time - start_time;
     te_entry_type := "manual"; te_date := date_of start_time;
     te_notes := notes; te_created_at := clock |}.

(** Modelled from the spec: [recordManual] (section 4.3):
    ValidationError if the end is before the start, if the project or
    the task is not active (a missing one is not active), or if the task
    is not of the project; no overlap check. *)
Definition recordManual (d : db) (user project task : uuid)
    (start_time end_time : timestamptz) (notes : option string)
  : result error db :=
  check negb (bool_decide (end_time < start_time)) or ValidationError ;;
  check project_active d project or ValidationError ;;
  check task_active d task or ValidationError ;;
  check task_in_project d task project or ValidationError ;;
  store (insert_time_entry d (new_id (time_entries d))
           (manual_entry user project task start_time end_time notes)).

Definition is_admin (d : db) (user : uuid) : bool :=
  match users d !! user with
  | Some u => bool_decide (u_role u = "admin")
  | None => false
  end.

Fixpoint recompute_all (d : db) (sheets : list (uuid * timesheet_row))
  : result error db :=
  match sheets with
  | [] => Ok d
  | (id, s) :: sheets =>
      let* d' := recompute_row d id s in recompute_all d' sheets
  end.

(** Modelled from the spec: [delete] of the TimeEntryRecorder (section
    4.3): NotFoundError if the entry is absent, AuthorizationError unless
    the requester owns it or is an admin; then every timesheet of the
    owner whose week window contains the entry's date is recomputed. *)
Definition delete (d : db) (entry_id requester : uuid) : result error db :=
  match time_entries d !! entry_id with
  | None => Err NotFoundError
  | Some e =>
      check bool_decide (requester = te_user_id e) || is_admin d requester
        or AuthorizationError ;;
      let* d1 := store (delete_time_entry d entry_id) in
      recompute_all d1
        (map_to_list
           (filter (λ kv, sh_user_id kv.2 = te_user_id e
                          ∧ sh_week_start kv.2 ≤ te_date e ≤ sh_week_end kv.2)
              (timesheets d1)))
  end.

(** ** 4.5 ApprovalWorkflow *)

Inductive decision := approve | deny.

Definition submitted (s : timesheet_row) (now : timestamptz) : timesheet_row :=
  {| sh_user_id := sh_user_id s; sh_week_start := sh_week_start s;
     sh_week_end := sh_week_end s; sh_total_hours := sh_total_hours s;
     sh_status := "submitted"; sh_submitted_at := Some now;
     sh_reviewed_at := sh_reviewed_at s; sh_reviewed_by := sh_reviewed_by s;
     sh_admin_comment := sh_admin_comment s;
     sh_created_at := sh_created_at s |}.

Definition reviewed (s : timesheet_row) (reviewer : uuid) (dec : decision)
    (comment : option string) (now : timestamptz) : timesheet_row :=
  {| sh_user_id := sh_user_id s; sh_week_start := sh_week_start s;
     sh_week_end := sh_week_end s; sh_total_hours := sh_total_hours s;
     sh_status := match dec with approve => "approved" | deny => "denied" end;
     sh_submitted_at := sh_submitted_at s;
     sh_reviewed_at := Some now; sh_reviewed_by := Some reviewer;
     sh_admin_comment := comment;
     sh_created_at := sh_created_at s |}.

(** A comment is required when denying, optional when approving. *)
Definition denies_without_comment (dec : decision) (comment : option string)
  : bool :=
  match dec, comment with
  | deny, None => true
  | _, _ => false
  end.

Definition reopened (s : timesheet_row) : timesheet_row :=
  {| sh_user_id := sh_user_id s; sh_week_start := sh_week_start s;
     sh_week_end := sh_week_end s; sh_total_hours := sh_total_hours s;
     sh_status := "draft"; sh_submitted_at := None;
     sh_reviewed_at := None; sh_reviewed_by := None;
     sh_admin_comment := None;
     sh_created_at := sh_created_at s |}.

(** Modelled from the spec: [submit] of the ApprovalWorkflow (section
    4.5): requires status draft, ConflictError otherwise; one
    timesheet_submitted notification for the admins. *)
Definition submit (d : db) (timesheet : uuid) (now : timestamptz)
  : result error (db * list notification_event) :=
  match timesheets d !! timesheet with
  | None => Err NotFoundError
  | Some s =>
      check bool_decide (sh_status s = "draft") or ConflictError ;;
      let* d' := store (update_timesheet d timesheet (submitted s now)) in
      Ok (d', [ {| ev_recipient := to_admins;
                   ev_type := "timesheet_submitted";
                   ev_related_timesheet := timesheet |} ])
  end.

(** Modelled from the spec: [review] (section 4.5): requires status
    submitted, ConflictError otherwise; ValidationError when denying
    without a comment; one notification for the owner. *)
Definition review (d : db) (timesheet reviewer : uuid) (dec : decision)
    (comment : option string) (now : timestamptz)
  : result error (db * list notification_event) :=
  match timesheets d !! timesheet with
  | None => Err NotFoundError
  | Some s =>
      check bool_decide (sh_status s = "submitted") or ConflictError ;;
      check negb (denies_without_comment dec comment) or ValidationError ;;
      let* d' := store (update_timesheet d timesheet
                          (reviewed s reviewer dec comment now)) in
      Ok (d', [ {| ev_recipient := to_user (sh_user_id s);
                   ev_type := match dec with
                              | approve => "timesheet_approved"
                              | deny => "timesheet_denied"
                              end;
                   ev_related_timesheet := timesheet |} ])
  end.

(** Modelled from the spec: [reopen] (section 4.5): requires status
    denied, clears the submission and review fields, back to draft. *)
Definition reopen (d : db) (timesheet : uuid)
  : result error (db * list notification_event) :=
  match timesheets d !! timesheet with
  | None => Err NotFoundError
  | Some s =>
      check bool_decide (sh_status s = "denied") or ConflictError ;;
      let* d' := store (update_timesheet d timesheet (reopened s)) in
      Ok (d', [])
  end.

(** ** The operations of the core as one step function *)

Inductive op :=
| Start (user project task : uuid) (now : timestamptz)
| Heartbeat (user : uuid) (now : timestamptz)
| Stop (user : uuid) (now : timestamptz)
| ReapSession (sid : uuid) (now staleness_threshold : Z)
| ReaperPass (now staleness_threshold : Z)
| RecordManual (user project task : uuid) (start_time end_time : timestamptz)
    (notes : option string)
| Delete (entry_id requester : uuid)
| EnsureDraft (user : uuid) (week_start : date)
| Recompute (timesheet : uuid)
| Submit (timesheet : uuid) (now : timestamptz)
| Review (timesheet reviewer : uuid) (dec : decision)
    (comment : option string) (now : timestamptz)
| Reopen (timesheet : uuid).

Definition quiet (r : result error db)
  : result error (db * list notification_event) :=
  let* d := r in Ok (d, []).

Definition step (d : db) (o : op)
  : result error (db * list notification_event) :=
  match o with
  | Start user project task now => quiet (start d user project task now)
  | Heartbeat user now => quiet (heartbeat d user now)
  | Stop user now => quiet (stop d user now)
  | ReapSession sid now th => quiet (reap_session d sid now th)
  | ReaperPass now th => quiet (reaper_pass d now th)
  | RecordManual user project task start_time end_time notes =>
      quiet (recordManual d user project task start_time end_time notes)
  | Delete entry_id requester => quiet (delete d entry_id requester)
  | EnsureDraft user week_start => quiet (ensureDraft d user week_start)
  | Recompute timesheet => quiet (recompute d timesheet)
  | Submit timesheet now => submit d timesheet now
  | Review timesheet reviewer dec comment now =>
      review d timesheet reviewer dec comment now
  | Reopen timesheet => reopen d timesheet
  end.

(** A run performs its operations in order, stops at the first error and
    collects the notifications handed to the dispatcher. *)
Fixpoint run (d : db) (ops : list op)
  : result error (db * list notification_event) :=
  match ops with
  | [] => Ok (d, [])
  | o :: ops =>
      let* r := step d o in
      let* r' := run r.1 ops in
      Ok (r'.1, (r.2 ++ r'.2)%list)
  end.

End Engine.

End Core.

(** * The login form

    [LoginPage] keeps three pieces of state ([email], [password],
    [loading]); its form calls [handleSubmit] on submit and its submit
    button is rendered with [disabled={loading}]. [handleSubmit] is an
    async function: it runs up to [await login(email, password)], and the
    rest runs when the promise settles. *)
Module LoginPage.

(** What [login] resolves to: [{ success, error }]. *)
Record login_result := {
  success : bool;
  error : string
}.

(** The calls the handler makes on its surroundings. *)
Inductive call :=
| preventDefault
| setLoading (b : bool)
| login (email password : string)
| toast_success (message : string)
| toast_error (message : string)
| navigate (path : string).

#[export] Instance call_eq_dec : EqDecision call.
Proof. solve_decision. Defined.

(** An async function body: a call followed by the rest, or an awaited
    [login] whose result the rest receives. *)
Inductive async :=
| Return
| Do (c : call) (k : async)
| Await_login (email password : string) (k : login_result → async).

Definition handleSubmit (email password : string) : async :=
  Do preventDefault
    (Do (setLoading true)
       (Await_login email password (λ result,
          Do (setLoading false)
            (if success result then
               Do (toast_success "Login successful!")
                 (Do (navigate "/dashboard") Return)
             else
               Do (toast_error (error result)) Return)))).

(** All the calls of a body, in order, when [login] resolves to
    [answer]. *)
Fixpoint calls (p : async) (answer : login_result) : list call :=
  match p with
  | Return => []
  | Do c k => c :: calls k answer
  | Await_login email password k =>
      login email password :: calls (k answer) answer
  end.

Definition is_login (c : call) : bool :=
  match c with login _ _ => true | _ => false end.

(** The component: its three state variables, the [login] promises that
    have not settled yet (each with the rest of its handler), and the log
    of the calls made so far. *)
Record state := {
  email : string;
  password : string;
  loading : bool;
  in_flight : list (login_result → async);
  log : list call
}.

Definition initial : state :=
  {| email := ""; password := ""; loading := false; in_flight := [];
     log := [] |}.

(** The rendered submit button: [disabled={loading}] and its label. *)
Definition submit_disabled (st : state) : bool := loading st.

Definition submit_label (st : state) : string :=
  if loading st then "Logging in..." else "Login".

Definition perform (c : call) (st : state) : state :=
  {| email := email st; password := password st;
     loading := match c with setLoading b => b | _ => loading st end;
     in_flight := in_flight st;
     log := log st ++ [c] |}.

(** Runs a body until it returns or awaits. *)
Fixpoint run (p : async) (st : state) : state :=
  match p with
  | Return => st
  | Do c k => run k (perform c st)
  | Await_login e pw k =>
      {| email := email st; password := password st; loading := loading st;
         in_flight := in_flight st ++ [k];
         log := log st ++ [login e pw] |}
  end.

Definition setEmail (v : string) (st : state) : state :=
  {| email := v; password := password st; loading := loading st;
     in_flight := in_flight st; log := log st |}.

Definition setPassword (v : string) (st : state) : state :=
  {| email := email st; password := v; loading := loading st;
     in_flight := in_flight st; log := log st |}.

Definition settled (i : nat) (st : state) : state :=
  {| email := email st; password := password st; loading := loading st;
     in_flight := delete i (in_flight st); log := log st |}.

(** What can happen to the page: typing in a field, submitting the form
    (a disabled submit button submits nothing), and the settling of an
    awaited [login], by a result or by a rejection. *)
Inductive event :=
| onChange_email (value : string)
| onChange_password (value : string)
| onSubmit
| login_resolves (i : nat) (result : login_result)
| login_rejects (i : nat).

Definition handle (st : state) (ev : event) : option state :=
  match ev with
  | onChange_email v => Some (setEmail v st)
  | onChange_password v => Some (setPassword v st)
  | onSubmit =>
      if submit_disabled st then None
      else Some (run (handleSubmit (email st) (password st)) st)
  | login_resolves i result =>
      match in_flight st !! i with
      | Some k => Some (run (k result) (settled i st))
      | None => None
      end
  | login_rejects i =>
      match in_flight st !! i with
      | Some _ => Some (settled i st)
      | None => None
      end
  end.

Fixpoint handle_all (st : state) (evs : list event) : option state :=
  match evs with
  | [] => Some st
  | ev :: evs =>
      match handle st ev with
      | Some st' => handle_all st' evs
      | None => None
      end
  end.

End LoginPage.

(** * What is stated about the store, the engine and the form *)

Module SchemaProps.
Import Schema.

(** UNIQUE (email): two user rows with the same email are one row. *)
Definition emails_unique (d : db) : Prop :=
  ∀ i j ri rj,
    users d !! i = Some ri → users d !! j = Some rj →
    u_email ri = u_email rj → i = j.

(** The listed values of the enumerated columns, table by table. *)
Definition user_enums (u : user_row) : Prop :=
  (u_role u = "admin" ∨ u_role u = "employee")
  ∧ (u_status u = "active" ∨ u_status u = "inactive").

Definition time_entry_enums (e : time_entry_row) : Prop :=
  te_entry_type e = "timer" ∨ te_entry_type e = "manual".

Definition timesheet_enums (s : timesheet_row) : Prop :=
  sh_status s = "draft" ∨ sh_status s = "submitted"
  ∨ sh_status s = "approved" ∨ sh_status s = "denied".

Definition notification_enums (n : notification_row) : Prop :=
  n_type n = "timesheet_submitted" ∨ n_type n = "timesheet_approved"
  ∨ n_type n = "timesheet_denied".

(** Every row of the database holds listed values only. *)
Record enums_ok (d : db) : Prop := {
  enums_users : map_Forall (λ _, user_enums) (users d);
  enums_time_entries : map_Forall (λ _, time_entry_enums) (time_entries d);
  enums_timesheets : map_Forall (λ _, timesheet_enums) (timesheets d);
  enums_notifications : map_Forall (λ _, notification_enums) (notifications d)
}.

(** [after] is [before] without the rows owned by [u]: none of them is
    left, the rows of other owners are as they were, and no row is new. *)
Definition owned_rows_removed {A} (owner : A → uuid) (u : uuid)
    (before after : gmap uuid A) : Prop :=
  (∀ id r, after !! id = Some r → owner r ≠ u)
  ∧ (∀ id r, before !! id = Some r → owner r ≠ u → after !! id = Some r)
  ∧ (∀ id r, after !! id = Some r → before !! id = Some r).

(** Two notification rows agree on every column but
    [related_timesheet_id]. *)
Definition same_but_related (n n' : notification_row) : Prop :=
  n_user_id n' = n_user_id n ∧ n_type n' = n_type n
  ∧ n_title n' = n_title n ∧ n_message n' = n_message n
  ∧ n_read n' = n_read n ∧ n_created_at n' = n_created_at n.

End SchemaProps.

Module CoreProps.
Import Schema Core.

(** Two timesheet rows that differ at most in [total_hours]. *)
Definition sheet_sim (s s' : timesheet_row) : Prop :=
  with_total_hours s 0 = with_total_hours s' 0.

(** An operation that at most recomputed totals: sessions and entries are
    as before and each timesheet is the same row up to [total_hours]. *)
Definition totals_only (d d' : db) : Prop :=
  time_entries d' = time_entries d
  ∧ timer_sessions d' = timer_sessions d
  ∧ ∀ id, option_Forall2 sheet_sim (timesheets d !! id) (timesheets d' !! id).

Section Effects.
Variable clock : timestamptz.

(** Every operation of the engine is a sequence of a few elementary
    effects on the store. *)
Inductive effect : db → db → Prop :=
| effect_start d user project task now :
    getActive d user = None →
    effect d
      (set_timer_sessions d
         (<[new_id (timer_sessions d) := new_session user project task now]>
            (timer_sessions d)))
| effect_heartbeat d sid s now :
    timer_sessions d !! sid = Some s →
    effect d
      (set_timer_sessions d
         (<[sid := with_last_heartbeat s now]> (timer_sessions d)))
| effect_terminate d sid s end_time :
    timer_sessions d !! sid = Some s → ts_is_active s = true →
    effect d
      (set_time_entries
         (set_timer_sessions d (<[sid := deactivated s]> (timer_sessions d)))
         (<[new_id (time_entries d) :=
              timer_entry clock s (clamp_end s end_time)]> (time_entries d)))
| effect_manual d user project task start_time end_time notes :
    start_time ≤ end_time →
    effect d
      (set_time_entries d
         (<[new_id (time_entries d) :=
              manual_entry clock user project task start_time end_time notes]>
            (time_entries d)))
| effect_delete d entry_id :
    effect d (set_time_entries d (base.delete entry_id (time_entries d)))
| effect_totals d d' :
    totals_only d d' → effect d d'
| effect_draft d user week_start h :
    find_timesheet d user week_start = None →
    effect d
      (set_timesheets d
         (<[new_id (timesheets d) :=
              new_draft clock user week_start (week_start + 6) h]>
            (timesheets d))).

End Effects.

(** The three moves of the approval workflow. *)
Inductive transition : db → db → Prop :=
| transition_submit d timesheet s now :
    timesheets d !! timesheet = Some s → sh_status s = "draft" →
    transition d
      (set_timesheets d (<[timesheet := submitted s now]> (timesheets d)))
| transition_review d timesheet s reviewer dec comment now :
    timesheets d !! timesheet = Some s → sh_status s = "submitted" →
    transition d
      (set_timesheets d
         (<[timesheet := reviewed s reviewer dec comment now]> (timesheets d)))
| transition_reopen d timesheet s :
    timesheets d !! timesheet = Some s → sh_status s = "denied" →
    transition d
      (set_timesheets d (<[timesheet := reopened s]> (timesheets d))).

(** The operations of the approval workflow. *)
Definition is_workflow (o : op) : bool :=
  match o with
  | Submit _ _ | Review _ _ _ _ _ | Reopen _ => true
  | _ => false
  end.

(** At most one active session per user. *)
Definition one_active_in (m : gmap uuid timer_session_row) : Prop :=
  ∀ i j si sj,
    m !! i = Some si → m !! j = Some sj →
    ts_user_id si = ts_user_id sj →
    ts_is_active si = true → ts_is_active sj = true → i = j.

Definition one_active (d : db) : Prop := one_active_in (timer_sessions d).

(** A closed time entry: [end_time] is there and not before
    [start_time], and [duration] is their difference. *)
Definition entry_ok (e : time_entry_row) : Prop :=
  ∃ end_time,
    te_end_time e = Some end_time ∧ te_start_time e ≤ end_time
    ∧ te_duration e = end_time - te_start_time e ∧ 0 ≤ te_duration e.

Definition entries_ok (d : db) : Prop :=
  map_Forall (λ _, entry_ok) (time_entries d).

(** At most one timesheet per (user, week_start). *)
Definition sheets_unique_in (m : gmap uuid timesheet_row) : Prop :=
  ∀ i j si sj,
    m !! i = Some si → m !! j = Some sj →
    sh_user_id si = sh_user_id sj → sh_week_start si = sh_week_start sj →
    i = j.

Definition sheets_unique (d : db) : Prop := sheets_unique_in (timesheets d).

(** The edges of the approval state machine. *)
Inductive status_edge : string → string → Prop :=
| edge_submit : status_edge "draft" "submitted"
| edge_approve : status_edge "submitted" "approved"
| edge_deny : status_edge "submitted" "denied"
| edge_reopen : status_edge "denied" "draft".

(** Every timesheet of [d] is still in [d'], with the status it had. *)
Definition status_kept (d d' : db) : Prop :=
  ∀ id s, timesheets d !! id = Some s →
    ∃ s', timesheets d' !! id = Some s' ∧ sh_status s' = sh_status s.

(** Every timesheet of [d] is still in [d'], and its status is the one
    it had or the target of an edge from it. *)
Definition status_moved (d d' : db) : Prop :=
  ∀ id s, timesheets d !! id = Some s →
    ∃ s', timesheets d' !! id = Some s'
      ∧ (sh_status s' = sh_status s
         ∨ status_edge (sh_status s) (sh_status s')).

End CoreProps.

Module LoginProps.
Import LoginPage.

(** The part of [handleSubmit] after the await. *)
Definition after_login (result : login_result) : async :=
  Do (setLoading false)
    (if success result then
       Do (toast_success "Login successful!")
         (Do (navigate "/dashboard") Return)
     else
       Do (toast_error (error result)) Return).

(** The page between events: at most one [login] is in flight, it is a
    suspended [handleSubmit], and the button is disabled meanwhile. *)
Definition page_ok (st : state) : Prop :=
  in_flight st = [] ∨ (in_flight st = [after_login] ∧ loading st = true).

End LoginProps.

(** * Sample data *)
Module Samples.
Import Schema Core.

Definition from_ok {E} (r : result E db) : db :=
  match r with Ok d => d | Err _ => empty_db end.

Definition admin_id : uuid := 1%N.
Definition employee_id : uuid := 2%N.

(** The database right after the schema script. *)
Definition seeded : db :=
  from_ok (exec_all empty_db (schema_script admin_id employee_id 0)).

Definition sample_project : project_row :=
  {| p_name := "Website"; p_description := None; p_created_by := admin_id;
     p_status := "active"; p_created_at := 0 |}.

Definition sample_task : task_row :=
  {| k_name := "Design"; k_description := None; k_project_id := 10%N;
     k_status := "active"; k_created_at := 0 |}.

Definition provisioning : list stmt :=
  [INSERT_projects 10%N sample_project; INSERT_tasks 20%N sample_task].

(** One project with one task, no time logged yet. *)
Definition provisioned : db := from_ok (exec_all seeded provisioning).

Definition running_session : timer_session_row :=
  {| ts_user_id := employee_id; ts_project_id := 10%N; ts_task_id := 20%N;
     ts_start_time := 10; ts_last_heartbeat := 10; ts_is_active := true;
     ts_date := 0 |}.

(** What two [start] calls that both saw no active session send to the
    store. *)
Definition racing_inserts : list stmt :=
  [INSERT_timer_sessions 5%N running_session;
   INSERT_timer_sessions 6%N running_session].

Definition two_active : db := from_ok (exec_all provisioned racing_inserts).

Definition submitted_sheet : timesheet_row :=
  {| sh_user_id := employee_id; sh_week_start := 0; sh_week_end := 6;
     sh_total_hours := 150; sh_status := "submitted";
     sh_submitted_at := Some 100; sh_reviewed_at := None;
     sh_reviewed_by := None; sh_admin_comment := None; sh_created_at := 0 |}.

Definition admin_notice : notification_row :=
  {| n_user_id := admin_id; n_type := "timesheet_submitted";
     n_title := "Timesheet submitted";
     n_message := "John Employee submitted a timesheet";
     n_read := false; n_related_timesheet_id := Some 30%N;
     n_created_at := 100 |}.

Definition submission : list stmt :=
  [INSERT_timesheets 30%N submitted_sheet;
   INSERT_notifications 40%N admin_notice].

(** The employee has submitted a timesheet and the admin holds the
    notification that points to it. *)
Definition with_submission : db := from_ok (exec_all provisioned submission).

Definition logged_entry : time_entry_row :=
  {| te_user_id := employee_id; te_project_id := 10%N; te_task_id := 20%N;
     te_start_time := 10; te_end_time := Some 40; te_duration := 30;
     te_entry_type := "timer"; te_date := 0; te_notes := None;
     te_created_at := 40 |}.

Definition with_entry : db :=
  from_ok (exec provisioned (INSERT_time_entries 50%N logged_entry)).

(** The workflow scenario: two manual entries of 3600 s and 1800 s in one
    week, then ensureDraft, submit, a denying review and reopen. *)
Definition scenario : list op :=
  [RecordManual employee_id 10%N 20%N 0 3600 None;
   RecordManual employee_id 10%N 20%N 86400 88200 None;
   EnsureDraft employee_id 0;
   Submit 0%N 100;
   Review 0%N admin_id deny (Some "fix dates") 200;
   Reopen 0%N].

(** The database and the notifications a run ended with. *)
Definition outcome (r : result error (db * list notification_event))
  : db * list notification_event :=
  match r with Ok x => x | Err _ => (empty_db, []) end.

Definition timer_ops : list op :=
  [Start employee_id 10%N 20%N 10; Heartbeat employee_id 20;
   Stop employee_id 40; Start employee_id 10%N 20%N 50].

Definition status_after (ops : list op) : option string :=
  sh_status <$> timesheets (outcome (run 0 provisioned ops)).1 !! 0%N.

End Samples.

Module LoginSamples.
Import LoginPage.

(** Typing credentials, submitting, and the request failing. *)
Definition failed_login : list event :=
  [onChange_email "admin@omnigratum.com"; onChange_password "wrong";
   onSubmit;
   login_resolves 0 {| success := false; error := "Invalid credentials" |}].

End LoginSamples.

(** * Further statements about the store *)

Module StoreProps.
Import Schema SchemaProps.

(** Referential integrity: every foreign key of every row names a row of
    the referenced table; a nullable one may be NULL. *)
Record ref_integrity (d : db) : Prop := {
  ri_projects_created_by :
    map_Forall (λ _ p, is_Some (users d !! p_created_by p)) (projects d);
  ri_tasks_project_id :
    map_Forall (λ _ k, is_Some (projects d !! k_project_id k)) (tasks d);
  ri_time_entries_user_id :
    map_Forall (λ _ e, is_Some (users d !! te_user_id e)) (time_entries d);
  ri_time_entries_project_id :
    map_Forall (λ _ e, is_Some (projects d !! te_project_id e))
      (time_entries d);
  ri_time_entries_task_id :
    map_Forall (λ _ e, is_Some (tasks d !! te_task_id e)) (time_entries d);
  ri_timer_sessions_user_id :
    map_Forall (λ _ s, is_Some (users d !! ts_user_id s)) (timer_sessions d);
  ri_timer_sessions_project_id :
    map_Forall (λ _ s, is_Some (projects d !! ts_project_id s))
      (timer_sessions d);
  ri_timer_sessions_task_id :
    map_Forall (λ _ s, is_Some (tasks d !! ts_task_id s)) (timer_sessions d);
  ri_timesheets_user_id :
    map_Forall (λ _ s, is_Some (users d !! sh_user_id s)) (timesheets d);
  ri_timesheets_reviewed_by :
    map_Forall (λ _ s, ∀ u, sh_reviewed_by s = Some u → is_Some (users d !! u))
      (timesheets d);
  ri_notifications_user_id :
    map_Forall (λ _ n, is_Some (users d !! n_user_id n)) (notifications d);
  ri_notifications_related_timesheet_id :
    map_Forall (λ _ n, ∀ t, n_related_timesheet_id n = Some t →
                        is_Some (timesheets d !! t))
      (notifications d)
}.

(** [k] spaces. *)
Fixpoint spaces (k : nat) : string :=
  match k with
  | O => EmptyString
  | S k => String " "%char (spaces k)
  end.

(** The sizes the column types allow, VARCHAR lengths in characters. *)
Definition user_sizes (u : user_row) : Prop :=
  (char_length (u_email u) ≤ 255 ∧ char_length (u_name u) ≤ 255
   ∧ char_length (u_password u) ≤ 255 ∧ char_length (u_role u) ≤ 50
   ∧ char_length (u_status u) ≤ 50)%nat.

Definition project_sizes (p : project_row) : Prop :=
  (char_length (p_name p) ≤ 255 ∧ char_length (p_status p) ≤ 50)%nat.

Definition task_sizes (k : task_row) : Prop :=
  (char_length (k_name k) ≤ 255 ∧ char_length (k_status k) ≤ 50)%nat.

Definition time_entry_sizes (e : time_entry_row) : Prop :=
  -2147483648 ≤ te_duration e ≤ 2147483647
  ∧ (char_length (te_entry_type e) ≤ 50)%nat.

Definition timesheet_sizes (s : timesheet_row) : Prop :=
  -10000000000 < sh_total_hours s < 10000000000
  ∧ (char_length (sh_status s) ≤ 50)%nat.

Definition notification_sizes (n : notification_row) : Prop :=
  (char_length (n_type n) ≤ 50 ∧ char_length (n_title n) ≤ 255)%nat.

Record sizes_ok (d : db) : Prop := {
  sizes_users : map_Forall (λ _, user_sizes) (users d);
  sizes_projects : map_Forall (λ _, project_sizes) (projects d);
  sizes_tasks : map_Forall (λ _, task_sizes) (tasks d);
  sizes_time_entries : map_Forall (λ _, time_entry_sizes) (time_entries d);
  sizes_timesheets : map_Forall (λ _, timesheet_sizes) (timesheets d);
  sizes_notifications : map_Forall (λ _, notification_sizes) (notifications d)
}.

(** The facts that hold of every database the statements can build. *)
Record consistent (d : db) : Prop := {
  consistent_refs : ref_integrity d;
  consistent_sizes : sizes_ok d;
  consistent_enums : enums_ok d;
  consistent_emails : emails_unique d
}.

(** The kinds of statement. *)
Definition is_insert (s : stmt) : bool :=
  match s with
  | INSERT_users _ _ | INSERT_projects _ _ | INSERT_tasks _ _
  | INSERT_time_entries _ _ | INSERT_timer_sessions _ _
  | INSERT_timesheets _ _ | INSERT_notifications _ _ => true
  | _ => false
  end.

Definition is_update (s : stmt) : bool :=
  match s with
  | UPDATE_users _ _ | UPDATE_projects _ _ | UPDATE_tasks _ _
  | UPDATE_time_entries _ _ | UPDATE_timer_sessions _ _
  | UPDATE_timesheets _ _ | UPDATE_notifications _ _ => true
  | _ => false
  end.

Definition is_delete (s : stmt) : bool :=
  match s with
  | DELETE_users _ | DELETE_projects _ | DELETE_tasks _
  | DELETE_time_entries _ | DELETE_timer_sessions _
  | DELETE_timesheets _ | DELETE_notifications _ => true
  | _ => false
  end.

(** The DELETE that names the row an INSERT wrote. *)
Definition undo (s : stmt) : option stmt :=
  match s with
  | INSERT_users id _ => Some (DELETE_users id)
  | INSERT_projects id _ => Some (DELETE_projects id)
  | INSERT_tasks id _ => Some (DELETE_tasks id)
  | INSERT_time_entries id _ => Some (DELETE_time_entries id)
  | INSERT_timer_sessions id _ => Some (DELETE_timer_sessions id)
  | INSERT_timesheets id _ => Some (DELETE_timesheets id)
  | INSERT_notifications id _ => Some (DELETE_notifications id)
  | _ => None
  end.

(** The UPDATE that writes a stored row back as it is. *)
Definition rewrite_of (d : db) (s : stmt) : Prop :=
  match s with
  | UPDATE_users id r => users d !! id = Some r
  | UPDATE_projects id r => projects d !! id = Some r
  | UPDATE_tasks id r => tasks d !! id = Some r
  | UPDATE_time_entries id r => time_entries d !! id = Some r
  | UPDATE_timer_sessions id r => timer_sessions d !! id = Some r
  | UPDATE_timesheets id r => timesheets d !! id = Some r
  | UPDATE_notifications id r => notifications d !! id = Some r
  | _ => False
  end.

(** The number of rows of each table, in the order of the schema. *)
Definition row_counts (d : db) : list nat :=
  [size (users d); size (projects d); size (tasks d);
   size (time_entries d); size (timer_sessions d); size (timesheets d);
   size (notifications d)].

End StoreProps.

(** * Further statements about the login form *)

Module PageProps.
Import LoginPage.

(** The events that only type into a field. *)
Definition is_typing (ev : event) : bool :=
  match ev with
  | onChange_email _ | onChange_password _ => true
  | _ => false
  end.

Definition is_onSubmit (ev : event) : bool :=
  match ev with onSubmit => true | _ => false end.

(** A [login] that resolves with [success] true. *)
Definition is_success (ev : event) : bool :=
  match ev with login_resolves _ r => success r | _ => false end.

(** A [login] that resolves with [success] false. *)
Definition is_failure (ev : event) : bool :=
  match ev with login_resolves _ r => negb (success r) | _ => false end.

(** The fields (email, password) after some typing. *)
Fixpoint typed (evs : list event) (fields : string * string)
  : string * string :=
  match evs with
  | [] => fields
  | onChange_email v :: evs => typed evs (v, fields.2)
  | onChange_password v :: evs => typed evs (fields.1, v)
  | _ :: evs => typed evs fields
  end.

Definition is_navigate (c : call) : bool :=
  match c with navigate _ => true | _ => false end.

Definition is_toast_error (c : call) : bool :=
  match c with toast_error _ => true | _ => false end.

(** How many calls of a log pass a test. *)
Definition count (test : call → bool) (l : list call) : nat :=
  length (List.filter test l).

Definition count_events (test : event → bool) (evs : list event) : nat :=
  length (List.filter test evs).

(** The calls of a submission up to its await. *)
Definition started (e pw : string) : list call :=
  [preventDefault; setLoading true; login e pw].

(** Logs made of whole submissions, one after the other: each one
    started and then resolved, or started and then rejected, in which
    case nothing follows the [login]. *)
Inductive submissions : list call → Prop :=
| submissions_nil : submissions []
| submissions_resolved l e pw r :
    submissions l → submissions (l ++ calls (handleSubmit e pw) r)
| submissions_rejected l e pw :
    submissions l → submissions (l ++ started e pw).

(** The log of a page: whole submissions, then the started one if a
    [login] is in flight. *)
Definition log_ok (st : state) : Prop :=
  match in_flight st with
  | [] => submissions (log st)
  | _ :: _ => ∃ l e pw, submissions l ∧ log st = (l ++ started e pw)%list
  end.

End PageProps.

(** * More sample data *)

Module StoreSamples.
Import Schema Samples StoreProps.

(** Everything that builds [with_submission], from the empty database. *)
Definition full_script : list stmt :=
  schema_script admin_id employee_id 0 ++ provisioning ++ submission.

(** A second user like the seeded admin, under another email. *)
Definition default_admin_as (email : string) : user_row :=
  {| u_email := email; u_name := u_name (default_admin 0);
     u_password := u_password (default_admin 0);
     u_role := u_role (default_admin 0);
     u_status := u_status (default_admin 0);
     u_default_project := Some 10%N; u_default_task := None;
     u_created_at := 0 |}.

(** [k] copies of U+00E9, which UTF-8 writes in the two bytes 195 169. *)
Fixpoint accented (k : nat) : string :=
  match k with
  | O => EmptyString
  | S k => String "195"%char (String "169"%char (accented k))
  end.

(** A user whose name fills its column with 255 two-byte characters and
    whose password is typed with 300 spaces after it. *)
Definition wide_user : user_row :=
  {| u_email := "wide@omnigratum.com"; u_name := accented 255;
     u_password := String.append "secret" (spaces 300);
     u_role := "employee"; u_status := "active";
     u_default_project := None; u_default_task := None;
     u_created_at := 0 |}.

(** The same user as the column keeps it: 255 characters of password. *)
Definition wide_user_stored : user_row :=
  {| u_email := "wide@omnigratum.com"; u_name := accented 255;
     u_password := String.append "secret" (spaces 249);
     u_role := "employee"; u_status := "active";
     u_default_project := None; u_default_task := None;
     u_created_at := 0 |}.

End StoreSamples.

Module PageSamples.
Import LoginPage.

(** Credentials are typed and the form is submitted; the request is
    still in flight. *)
Definition pending_login : list event :=
  [onChange_email "admin@omnigratum.com"; onChange_password "admin123";
   onSubmit].

(** Corrections typed while the request is in flight. *)
Definition retyping : list event :=
  [onChange_password "admin1234"; onChange_email "employee@omnigratum.com"].

(** A failed login followed by a successful one. *)
Definition two_logins : list event :=
  [onChange_email "admin@omnigratum.com"; onChange_password "wrong";
   onSubmit;
   login_resolves 0 {| success := false; error := "Invalid credentials" |};
   onChange_password "admin123";
   onSubmit;
   login_resolves 0 {| success := true; error := "" |}].

Definition state_after (evs : list event) : state :=
  match handle_all initial evs with Some st => st | None => initial end.

End PageSamples.

(** * Properties of the store *)

(** ** Reading a successful result backwards *)

Lemma bind_Ok {E A B} (r : result E A) (k : A → result E B) (b : B) :
  bind r k = Ok b → ∃ a, r = Ok a ∧ k a = Ok b.
Proof. destruct r as [a|e]; simpl; [eauto | discriminate]. Qed.

Lemma require_Ok {E} (b : bool) (e : E) (u : unit) :
  require b e = Ok u → b = true.
Proof. destruct b; simpl; [done | discriminate]. Qed.

Lemma require_true {E} (b : bool) (e : E) : b = true → require b e = Ok tt.
Proof. by intros ->. Qed.

Lemma store_Ok {A} (r : result Schema.sql_error A) (a : A) :
  Core.store r = Ok a → r = Ok a.
Proof. destruct r; simpl; [congruence | discriminate]. Qed.

Ltac inv_ok :=
  repeat match goal with
  | H : Ok _ = Ok _ |- _ => injection H as H
  | H : Err _ = Ok _ |- _ => discriminate H
  | H : Core.store _ = Ok _ |- _ => apply store_Ok in H
  | H : require _ _ = Ok _ |- _ => apply require_Ok in H
  | H : bind _ _ = Ok _ |- _ =>
      let a := fresh "a" in
      let Ha := fresh "Hstep" in
      apply bind_Ok in H as (a & Ha & H)
  | u : unit |- _ => destruct u
  end.

Module SchemaFacts.
Import Schema SchemaProps StoreProps.

Lemma has_key_true {A} (m : gmap uuid A) k : has_key m k = true ↔ is_Some (m !! k).
Proof. unfold has_key. apply bool_decide_eq_true. Qed.

Lemma has_key_false {A} (m : gmap uuid A) k : has_key m k = false ↔ m !! k = None.
Proof.
  unfold has_key. rewrite bool_decide_eq_false, eq_None_not_Some. done.
Qed.

Lemma email_taken_false d self email :
  email_taken d self email = false ↔
  ∀ id r, users d !! id = Some r → id ≠ self → u_email r ≠ email.
Proof.
  unfold email_taken. rewrite bool_decide_eq_false, map_not_Exists.
  unfold map_Forall. split; intros H id r Hr; specialize (H id r Hr); tauto.
Qed.

(** ** VARCHAR(n): what is stored fits, and what fits is stored as it is *)

Lemma char_length_le s : (char_length s ≤ String.length s)%nat.
Proof. induction s as [|a s IH]; simpl; [done|]. destruct (is_continuation a); lia. Qed.

Lemma first_bytes_all s : first_bytes (String.length s) s = s.
Proof. induction s as [|a s IH]; simpl; [done | by rewrite IH]. Qed.

Lemma skip_bytes_all s : skip_bytes (String.length s) s = EmptyString.
Proof. induction s as [|a s IH]; simpl; done. Qed.

Lemma char_length_split k s :
  (char_length (first_bytes k s) + char_length (skip_bytes k s))%nat
  = char_length s.
Proof.
  revert k. induction s as [|a s IH]; intros [|k]; simpl; try done.
  rewrite <- (IH k). lia.
Qed.

Lemma skip_bytes_length k s :
  String.length (skip_bytes k s) = (String.length s - k)%nat.
Proof. revert k. induction s as [|a s IH]; intros [|k]; simpl; done. Qed.

Lemma all_spaces_length s :
  all_spaces s = true → char_length s = String.length s.
Proof.
  induction s as [|a s IH]; simpl; [done|].
  intros [->%bool_decide_eq_true Hs]%andb_true_iff. simpl. by rewrite IH.
Qed.

Lemma varchar_fits n column s :
  (char_length s ≤ n)%nat → varchar n column s = Ok s.
Proof.
  intros Hn. unfold varchar.
  replace (char_length s - n)%nat with O by lia. rewrite Nat.sub_0_r.
  by rewrite skip_bytes_all, first_bytes_all.
Qed.

Lemma varchar_Ok n column s s' :
  varchar n column s = Ok s' → (char_length s' ≤ n)%nat.
Proof.
  unfold varchar.
  destruct (all_spaces _) eqn:Hsp; [|discriminate]. intros [= <-].
  apply all_spaces_length in Hsp. rewrite skip_bytes_length in Hsp.
  pose proof (char_length_le s).
  pose proof (char_length_split
                (String.length s - (char_length s - n)) s).
  lia.
Qed.

(** What is stored is what was given, less some spaces at its end,
    and spaces are cut only from a value that then fills the column. *)
Lemma first_skip_bytes k s :
  String.append (first_bytes k s) (skip_bytes k s) = s.
Proof.
  revert k. induction s as [|a s IH]; intros [|k]; try done.
  change (String a (String.append (first_bytes k s) (skip_bytes k s))
          = String a s).
  by rewrite IH.
Qed.

Lemma all_spaces_spaces s :
  all_spaces s = true → s = spaces (String.length s).
Proof.
  induction s as [|a s IH]; simpl; [done|].
  intros [->%bool_decide_eq_true Hs]%andb_true_iff. by rewrite <- IH.
Qed.

Lemma varchar_cut n column s s' :
  varchar n column s = Ok s' →
  ∃ k, s = String.append s' (spaces k) ∧ (k = 0 ∨ char_length s' = n)%nat.
Proof.
  unfold varchar.
  destruct (all_spaces _) eqn:Hsp; [|discriminate]. intros [= <-].
  pose proof (all_spaces_length _ Hsp) as Hlen.
  apply all_spaces_spaces in Hsp.
  exists (String.length (skip_bytes (String.length s - (char_length s - n)) s)).
  split; [by rewrite <- Hsp, first_skip_bytes|].
  rewrite skip_bytes_length in *.
  pose proof (char_length_le s).
  pose proof (char_length_split
                (String.length s - (char_length s - n)) s).
  lia.
Qed.

Lemma varchar_Err n column s e :
  varchar n column s = Err e →
  (n < char_length s)%nat ∧ e = string_data_right_truncation column.
Proof.
  intros H. split.
  - destruct (decide (char_length s ≤ n)%nat) as [Hfit|]; [|lia].
    by rewrite (varchar_fits _ column _ Hfit) in H.
  - unfold varchar in H. destruct (all_spaces _); by simplify_eq.
Qed.

Ltac open_varchar :=
  repeat match goal with
  | H : varchar _ _ _ = Ok _ |- _ => apply varchar_Ok in H
  end.

Lemma users_assign_Ok r r' : users_assign r = Ok r' → user_sizes r'.
Proof.
  unfold users_assign, user_sizes. intros H. inv_ok. open_varchar.
  subst r'. simpl. done.
Qed.

Lemma projects_assign_Ok r r' : projects_assign r = Ok r' → project_sizes r'.
Proof.
  unfold projects_assign, project_sizes. intros H. inv_ok. open_varchar.
  subst r'. simpl. done.
Qed.

Lemma tasks_assign_Ok r r' : tasks_assign r = Ok r' → task_sizes r'.
Proof.
  unfold tasks_assign, task_sizes. intros H. inv_ok. open_varchar.
  subst r'. simpl. done.
Qed.

Lemma time_entries_assign_Ok r r' :
  time_entries_assign r = Ok r' → (char_length (te_entry_type r') ≤ 50)%nat.
Proof.
  unfold time_entries_assign. intros H. inv_ok. open_varchar.
  subst r'. simpl. done.
Qed.

Lemma timesheets_assign_Ok r r' :
  timesheets_assign r = Ok r' → (char_length (sh_status r') ≤ 50)%nat.
Proof.
  unfold timesheets_assign. intros H. inv_ok. open_varchar.
  subst r'. simpl. done.
Qed.

Lemma notifications_assign_Ok r r' :
  notifications_assign r = Ok r' → notification_sizes r'.
Proof.
  unfold notifications_assign, notification_sizes. intros H. inv_ok.
  open_varchar. subst r'. simpl. done.
Qed.

Lemma users_assign_fits r : user_sizes r → users_assign r = Ok r.
Proof.
  intros (? & ? & ? & ? & ?). unfold users_assign.
  rewrite !varchar_fits by done. by destruct r.
Qed.

Lemma projects_assign_fits r : project_sizes r → projects_assign r = Ok r.
Proof.
  intros (? & ?). unfold projects_assign.
  rewrite !varchar_fits by done. by destruct r.
Qed.

Lemma tasks_assign_fits r : task_sizes r → tasks_assign r = Ok r.
Proof.
  intros (? & ?). unfold tasks_assign.
  rewrite !varchar_fits by done. by destruct r.
Qed.

Lemma time_entries_assign_fits r :
  (char_length (te_entry_type r) ≤ 50)%nat → time_entries_assign r = Ok r.
Proof.
  intros ?. unfold time_entries_assign.
  rewrite !varchar_fits by done. by destruct r.
Qed.

Lemma timesheets_assign_fits r :
  (char_length (sh_status r) ≤ 50)%nat → timesheets_assign r = Ok r.
Proof.
  intros ?. unfold timesheets_assign.
  rewrite !varchar_fits by done. by destruct r.
Qed.

Lemma notifications_assign_fits r :
  notification_sizes r → notifications_assign r = Ok r.
Proof.
  intros (? & ?). unfold notifications_assign.
  rewrite !varchar_fits by done. by destruct r.
Qed.

(** ** What a successful INSERT or UPDATE did *)

Lemma insert_user_Ok d id r d' :
  insert_user d id r = Ok d' →
  ∃ r', users_assign r = Ok r' ∧ users d !! id = None
    ∧ users_constraints d id r' = Ok tt
    ∧ d' = set_users d (<[id := r']> (users d)).
Proof.
  unfold insert_user. intros H. inv_ok.
  match goal with H : negb _ = true |- _ =>
    apply negb_true_iff, has_key_false in H end.
  eexists. by subst.
Qed.

Lemma update_user_Ok d id r d' :
  update_user d id r = Ok d' →
  (users d !! id = None ∧ d' = d)
  ∨ (is_Some (users d !! id)
     ∧ ∃ r', users_assign r = Ok r' ∧ users_constraints d id r' = Ok tt
         ∧ d' = set_users d (<[id := r']> (users d))).
Proof.
  unfold update_user. destruct (has_key (users d) id) eqn:Hk; intros H.
  - right. inv_ok. apply has_key_true in Hk. split; [done|].
    eexists. by subst.
  - left. inv_ok. by apply has_key_false in Hk.
Qed.

Lemma users_constraints_Ok d id r :
  users_constraints d id r = Ok tt →
  users_role_check (u_role r) = true
  ∧ users_status_check (u_status r) = true
  ∧ email_taken d id (u_email r) = false.
Proof.
  unfold users_constraints. intros H. inv_ok.
  repeat split; try done. by apply negb_true_iff.
Qed.

(** A statement on another table leaves a table as it was; [exec_cases]
    opens a successful statement up to the point where this shows. *)
Ltac exec_cases H :=
  unfold exec, insert_user, insert_project, insert_task, insert_time_entry,
    insert_timer_session, insert_timesheet, insert_notification,
    update_user, update_project, update_task, update_time_entry,
    update_timer_session, update_timesheet, update_notification,
    delete_user, delete_project, delete_task, delete_time_entry,
    delete_timer_session, delete_timesheet, delete_notification in H;
  repeat case_match; inv_ok; subst; simpl in *.

(** ** UNIQUE (email) *)

Lemma emails_unique_insert d id r :
  emails_unique d → email_taken d id (u_email r) = false →
  emails_unique (set_users d (<[id := r]> (users d))).
Proof.
  intros Hu Hfree i j ri rj. simpl.
  pose proof (proj1 (email_taken_false _ _ _) Hfree) as Hother.
  clear Hfree. rename Hother into Hfree.
  destruct (decide (i = id)) as [->|Hi], (decide (j = id)) as [->|Hj];
    [done | | | ].
  - rewrite lookup_insert_eq, lookup_insert_ne by done.
    intros [= <-] Hj' Heq. by destruct (Hfree j rj Hj' Hj).
  - rewrite lookup_insert_eq, lookup_insert_ne by done.
    intros Hi' [= <-] Heq. by destruct (Hfree i ri Hi' Hi).
  - rewrite !lookup_insert_ne by done. apply Hu.
Qed.

Lemma emails_unique_exec d s d' :
  emails_unique d → exec d s = Ok d' → emails_unique d'.
Proof.
  intros Hu H. destruct s; exec_cases H; try done.
  - apply emails_unique_insert; [done|].
    by match goal with H : users_constraints _ _ _ = _ |- _ =>
      apply users_constraints_Ok in H as (_ & _ & ?) end.
  - apply emails_unique_insert; [done|].
    by match goal with H : users_constraints _ _ _ = _ |- _ =>
      apply users_constraints_Ok in H as (_ & _ & ?) end.
  - intros i j ri rj. simpl.
    intros Hi%lookup_delete_Some Hj%lookup_delete_Some.
    apply Hu; tauto.
Qed.

Lemma exec_all_reachable ss d d' :
  reachable d → exec_all d ss = Ok d' → reachable d'.
Proof.
  revert d. induction ss as [|s ss IH]; simpl; intros d Hd H.
  - by inv_ok; subst.
  - inv_ok. eapply IH; [|done]. by eapply reachable_exec.
Qed.

Lemma emails_unique_reachable d : reachable d → emails_unique d.
Proof.
  induction 1 as [|d s d' _ IH H].
  - intros i j ri rj Hi. simpl in Hi. by rewrite lookup_empty in Hi.
  - by eapply emails_unique_exec.
Qed.

(** The emails compared are the stored ones: the new row's after its
    assignment, which leaves an email as long as a stored one alone. *)
Lemma insert_user_email_taken d id r id' r' :
  users d !! id' = Some r' → (char_length (u_email r') ≤ 255)%nat →
  u_email r' = u_email r →
  ∃ e, insert_user d id r = Err e.
Proof.
  intros Hr' Hfit Heq.
  destruct (insert_user d id r) as [d'|e] eqn:H; [|by eauto].
  apply insert_user_Ok in H as (r1 & Ha & Hfresh & Hc & _).
  apply users_constraints_Ok in Hc as (_ & _ & Hfree).
  pose proof (proj1 (email_taken_false _ _ _) Hfree id' r' Hr') as Hne.
  unfold users_assign in Ha.
  rewrite (varchar_fits 255 "email" (u_email r)) in Ha by by rewrite <- Heq.
  simpl in Ha. inv_ok. subst r1. simpl in Hne.
  destruct Hne; [congruence | done].
Qed.

(** ** CHECK constraints on the enumerated columns *)

Lemma users_checks_enums r :
  users_role_check (u_role r) = true → users_status_check (u_status r) = true →
  user_enums r.
Proof.
  unfold users_role_check, users_status_check, user_enums.
  rewrite !bool_decide_eq_true, !elem_of_cons, !elem_of_nil. tauto.
Qed.

Lemma time_entries_constraints_enums d r :
  time_entries_constraints d r = Ok tt → time_entry_enums r.
Proof.
  unfold time_entries_constraints. intros H. inv_ok.
  match goal with H : time_entries_entry_type_check _ = true |- _ =>
    unfold time_entries_entry_type_check in H;
    rewrite bool_decide_eq_true, !elem_of_cons, elem_of_nil in H end.
  unfold time_entry_enums. tauto.
Qed.

Lemma timesheets_constraints_enums d r :
  timesheets_constraints d r = Ok tt → timesheet_enums r.
Proof.
  unfold timesheets_constraints. intros H. inv_ok.
  match goal with H : timesheets_status_check _ = true |- _ =>
    unfold timesheets_status_check in H;
    rewrite bool_decide_eq_true, !elem_of_cons, elem_of_nil in H end.
  unfold timesheet_enums. tauto.
Qed.

Lemma notifications_constraints_enums d r :
  notifications_constraints d r = Ok tt → notification_enums r.
Proof.
  unfold notifications_constraints. intros H. inv_ok.
  match goal with H : notifications_type_check _ = true |- _ =>
    unfold notifications_type_check in H;
    rewrite bool_decide_eq_true, !elem_of_cons, elem_of_nil in H end.
  unfold notification_enums. tauto.
Qed.

Lemma map_Forall_filter_keep {A} (P : A → Prop) (Q : uuid * A → Prop)
    `{!∀ kv, Decision (Q kv)} (m : gmap uuid A) :
  map_Forall (λ _, P) m → map_Forall (λ _, P) (filter Q m).
Proof.
  intros Hall i x [Hx _]%map_lookup_filter_Some. by eapply Hall.
Qed.

Lemma related_timesheet_set_null_type gone n :
  n_type (related_timesheet_set_null gone n) = n_type n.
Proof. unfold related_timesheet_set_null. by repeat case_match. Qed.

Lemma enums_ok_exec d s d' : enums_ok d → exec d s = Ok d' → enums_ok d'.
Proof.
  intros [Hu He Hs Hn] H.
  destruct s; exec_cases H; try (by split);
    split; simpl; try done;
    try (apply map_Forall_insert_2; [|done]);
    try (apply map_Forall_delete; done);
    try (by apply map_Forall_filter_keep);
    try (by eapply time_entries_constraints_enums);
    try (by eapply timesheets_constraints_enums);
    try (by eapply notifications_constraints_enums);
    try (match goal with H : users_constraints _ _ _ = _ |- _ =>
           apply users_constraints_Ok in H as (? & ? & _) end;
         by apply users_checks_enums).
  - intros i n (n0 & <- & Hn0)%lookup_fmap_Some.
    apply map_lookup_filter_Some in Hn0 as [Hn0 _].
    unfold notification_enums. rewrite related_timesheet_set_null_type.
    by eapply Hn.
  - intros i n (n0 & <- & Hn0)%lookup_fmap_Some.
    unfold notification_enums. rewrite related_timesheet_set_null_type.
    by eapply Hn.
Qed.

Lemma enums_ok_reachable d : reachable d → enums_ok d.
Proof.
  induction 1 as [|d s d' _ IH H].
  - split; apply map_Forall_empty.
  - by eapply enums_ok_exec.
Qed.

(** ** ON DELETE actions *)

Lemma owned_rows_removed_filter {A} (owner : A → uuid) u (m : gmap uuid A) :
  owned_rows_removed owner u m (filter (λ kv, owner kv.2 ≠ u) m).
Proof.
  repeat split.
  - by intros id r [_ ?]%map_lookup_filter_Some.
  - intros id r Hr Hne. by apply map_lookup_filter_Some.
  - by intros id r [? _]%map_lookup_filter_Some.
Qed.

Lemma related_timesheet_set_null_spec gone n :
  same_but_related n (related_timesheet_set_null gone n)
  ∧ n_related_timesheet_id (related_timesheet_set_null gone n) =
      match n_related_timesheet_id n with
      | Some t => if gone t then None else Some t
      | None => None
      end.
Proof.
  unfold related_timesheet_set_null, same_but_related.
  destruct (n_related_timesheet_id n) as [t|] eqn:Hrel; [|by rewrite Hrel].
  destruct (gone t); simpl; [done | by rewrite Hrel].
Qed.

Lemma delete_user_Ok d u d' :
  is_Some (users d !! u) → delete_user d u = Ok d' →
  d' = {| users := delete u (users d);
          projects := projects d;
          tasks := tasks d;
          time_entries :=
            filter (λ kv, te_user_id kv.2 ≠ u) (time_entries d);
          timer_sessions :=
            filter (λ kv, ts_user_id kv.2 ≠ u) (timer_sessions d);
          timesheets :=
            filter (λ kv, sh_user_id kv.2 ≠ u) (timesheets d);
          notifications :=
            related_timesheet_set_null (timesheet_of_user d u) <$>
              filter (λ kv, n_user_id kv.2 ≠ u) (notifications d) |}
  ∧ (∀ id p, projects d !! id = Some p → p_created_by p ≠ u)
  ∧ (∀ id s, timesheets d !! id = Some s → sh_user_id s ≠ u →
       sh_reviewed_by s ≠ Some u).
Proof.
  intros Hu%has_key_true H. unfold delete_user in H. rewrite Hu in H.
  simpl in H. inv_ok. subst d'. split; [done|].
  repeat match goal with H : bool_decide _ = true |- _ =>
    apply bool_decide_eq_true in H end.
  split.
  - intros id p Hp. by eapply (Hstep id p).
  - intros id s Hs Hne.
    match goal with H : map_Forall _ (filter _ _) |- _ =>
      apply (H id s) end.
    by apply map_lookup_filter_Some.
Qed.

Lemma delete_user_blocked_by_project d u id p :
  is_Some (users d !! u) → projects d !! id = Some p → p_created_by p = u →
  delete_user d u = Err (foreign_key_violation "projects_created_by_fkey").
Proof.
  intros Hu%has_key_true Hp Hby. unfold delete_user. rewrite Hu. simpl.
  rewrite bool_decide_eq_false_2; [done|].
  intros Hall. by apply (Hall id p Hp).
Qed.

Lemma delete_user_blocked_by_review d u id s :
  is_Some (users d !! u) → timesheets d !! id = Some s →
  sh_user_id s ≠ u → sh_reviewed_by s = Some u →
  ∃ e, delete_user d u = Err e.
Proof.
  intros Hu Hs Hne Hby.
  destruct (delete_user d u) as [d'|e] eqn:H; [|by eauto].
  apply delete_user_Ok in H as (_ & _ & Hrev); [|done].
  by destruct (Hrev id s Hs Hne).
Qed.

Lemma delete_project_Ok d p d' :
  is_Some (projects d !! p) → delete_project d p = Ok d' →
  d' = set_tasks (set_projects d (delete p (projects d)))
         (filter (λ kv, k_project_id kv.2 ≠ p) (tasks d))
  ∧ (∀ id e, time_entries d !! id = Some e → te_project_id e ≠ p).
Proof.
  intros Hp%has_key_true H. unfold delete_project in H. rewrite Hp in H.
  simpl in H. inv_ok. subst d'. split; [done|].
  repeat match goal with H : bool_decide _ = true |- _ =>
    apply bool_decide_eq_true in H end.
  intros id e He. by eapply (Hstep id e).
Qed.

Lemma delete_project_blocked d p id e :
  is_Some (projects d !! p) → time_entries d !! id = Some e →
  te_project_id e = p →
  delete_project d p =
    Err (foreign_key_violation "time_entries_project_id_fkey").
Proof.
  intros Hp%has_key_true He Hby. unfold delete_project. rewrite Hp. simpl.
  rewrite bool_decide_eq_false_2; [done|].
  intros Hall. by apply (Hall id e He).
Qed.

Lemma delete_timesheet_Ok d t :
  is_Some (timesheets d !! t) →
  delete_timesheet d t =
    Ok {| users := users d; projects := projects d; tasks := tasks d;
          time_entries := time_entries d;
          timer_sessions := timer_sessions d;
          timesheets := delete t (timesheets d);
          notifications :=
            related_timesheet_set_null (λ t', bool_decide (t' = t)) <$>
              notifications d |}.
Proof. intros Ht%has_key_true. unfold delete_timesheet. by rewrite Ht. Qed.

(** ** The only uniqueness on [timer_sessions] is its primary key *)

Lemma insert_timer_session_accepts d id r :
  timer_sessions d !! id = None →
  is_Some (users d !! ts_user_id r) →
  is_Some (projects d !! ts_project_id r) →
  is_Some (tasks d !! ts_task_id r) →
  insert_timer_session d id r =
    Ok (set_timer_sessions d (<[id := r]> (timer_sessions d))).
Proof.
  intros Hid%has_key_false Hu%has_key_true Hp%has_key_true Ht%has_key_true.
  unfold insert_timer_session, timer_sessions_constraints.
  by rewrite Hid, Hu, Hp, Ht.
Qed.

End SchemaFacts.

(** * Further properties of the store *)

Module StoreFacts.
Import Schema SchemaProps StoreProps SchemaFacts.

(** ** What the row constraints check, and what passes them *)

Lemma has_key_opt_true {A} (m : gmap uuid A) k :
  has_key_opt m k = true ↔ ∀ k', k = Some k' → is_Some (m !! k').
Proof.
  destruct k as [k|]; simpl.
  - rewrite has_key_true. split; [by intros ? ? [= <-] | eauto].
  - split; [by intros | done].
Qed.

Ltac open_checks :=
  repeat match goal with
  | H : has_key _ _ = true |- _ => apply has_key_true in H
  | H : has_key_opt ?m ?k = true |- _ =>
      let H' := fresh "Href" in
      pose proof (proj1 (has_key_opt_true m k) H) as H'; clear H
  | H : integer_ok _ = true |- _ =>
      unfold integer_ok in H; apply bool_decide_eq_true in H
  | H : decimal_10_2_ok _ = true |- _ =>
      unfold decimal_10_2_ok in H; apply bool_decide_eq_true in H
  end.

Lemma users_stored d id r r' :
  users_assign r = Ok r' → users_constraints d id r' = Ok tt →
  user_sizes r' ∧ users_role_check (u_role r') = true
  ∧ users_status_check (u_status r') = true
  ∧ email_taken d id (u_email r') = false.
Proof.
  intros Ha%users_assign_Ok Hc%users_constraints_Ok. done.
Qed.

Lemma projects_stored d r r' :
  projects_assign r = Ok r' → projects_constraints d r' = Ok tt →
  project_sizes r' ∧ is_Some (users d !! p_created_by r').
Proof.
  intros Ha%projects_assign_Ok. unfold projects_constraints. intros H.
  inv_ok. open_checks. done.
Qed.

Lemma tasks_stored d r r' :
  tasks_assign r = Ok r' → tasks_constraints d r' = Ok tt →
  task_sizes r' ∧ is_Some (projects d !! k_project_id r').
Proof.
  intros Ha%tasks_assign_Ok. unfold tasks_constraints. intros H.
  inv_ok. open_checks. done.
Qed.

Lemma time_entries_stored d r r' :
  time_entries_assign r = Ok r' → time_entries_constraints d r' = Ok tt →
  time_entry_sizes r' ∧ is_Some (users d !! te_user_id r')
  ∧ is_Some (projects d !! te_project_id r')
  ∧ is_Some (tasks d !! te_task_id r').
Proof.
  intros Ha%time_entries_assign_Ok.
  unfold time_entries_constraints, time_entry_sizes. intros H.
  inv_ok. open_checks. split_and!; first [assumption | lia].
Qed.

Lemma timer_sessions_constraints_Ok d r :
  timer_sessions_constraints d r = Ok tt →
  is_Some (users d !! ts_user_id r)
  ∧ is_Some (projects d !! ts_project_id r)
  ∧ is_Some (tasks d !! ts_task_id r).
Proof.
  unfold timer_sessions_constraints. intros H. inv_ok. open_checks.
  split_and!; first [assumption | lia].
Qed.

Lemma timesheets_stored d r r' :
  timesheets_assign r = Ok r' → timesheets_constraints d r' = Ok tt →
  timesheet_sizes r' ∧ is_Some (users d !! sh_user_id r')
  ∧ ∀ u, sh_reviewed_by r' = Some u → is_Some (users d !! u).
Proof.
  intros Ha%timesheets_assign_Ok.
  unfold timesheets_constraints, timesheet_sizes. intros H.
  inv_ok. open_checks. split_and!; first [assumption | lia].
Qed.

Lemma notifications_stored d r r' :
  notifications_assign r = Ok r' → notifications_constraints d r' = Ok tt →
  notification_sizes r' ∧ is_Some (users d !! n_user_id r')
  ∧ ∀ t, n_related_timesheet_id r' = Some t → is_Some (timesheets d !! t).
Proof.
  intros Ha%notifications_assign_Ok.
  unfold notifications_constraints. intros H.
  inv_ok. open_checks. split_and!; first [assumption | lia].
Qed.

(** Turns every assignment and constraint result in the context into
    its facts. *)
Ltac open_constraints :=
  repeat match goal with
  | Ha : users_assign _ = Ok ?a, H : users_constraints _ _ ?a = Ok tt |- _ =>
      pose proof (users_stored _ _ _ _ Ha H) as (? & ? & ? & ?); clear Ha H
  | Ha : projects_assign _ = Ok ?a, H : projects_constraints _ ?a = Ok tt
    |- _ =>
      pose proof (projects_stored _ _ _ Ha H) as (? & ?); clear Ha H
  | Ha : tasks_assign _ = Ok ?a, H : tasks_constraints _ ?a = Ok tt |- _ =>
      pose proof (tasks_stored _ _ _ Ha H) as (? & ?); clear Ha H
  | Ha : time_entries_assign _ = Ok ?a,
    H : time_entries_constraints _ ?a = Ok tt |- _ =>
      let He := fresh "Henum" in
      pose proof (time_entries_constraints_enums _ _ H) as He;
      pose proof (time_entries_stored _ _ _ Ha H) as (? & ? & ? & ?);
      clear Ha H
  | H : timer_sessions_constraints _ _ = Ok tt |- _ =>
      apply timer_sessions_constraints_Ok in H as (? & ? & ?)
  | Ha : timesheets_assign _ = Ok ?a,
    H : timesheets_constraints _ ?a = Ok tt |- _ =>
      let He := fresh "Henum" in
      pose proof (timesheets_constraints_enums _ _ H) as He;
      pose proof (timesheets_stored _ _ _ Ha H) as (? & ? & ?);
      clear Ha H
  | Ha : notifications_assign _ = Ok ?a,
    H : notifications_constraints _ ?a = Ok tt |- _ =>
      let He := fresh "Henum" in
      pose proof (notifications_constraints_enums _ _ H) as He;
      pose proof (notifications_stored _ _ _ Ha H) as (? & ? & ?);
      clear Ha H
  end.

(** ** Referential integrity *)

(** A table that keeps its keys keeps the references into it. *)
Lemma refs_insert {A B} (f : A → uuid) (m : gmap uuid A)
    (t : gmap uuid B) id x :
  map_Forall (λ _ r, is_Some (t !! f r)) m →
  map_Forall (λ _ r, is_Some (<[id := x]> t !! f r)) m.
Proof.
  intros H i r Hr. apply lookup_insert_is_Some'. right. by eapply H.
Qed.

Lemma refs_opt_insert {A B} (f : A → option uuid) (m : gmap uuid A)
    (t : gmap uuid B) id x :
  map_Forall (λ _ r, ∀ k, f r = Some k → is_Some (t !! k)) m →
  map_Forall (λ _ r, ∀ k, f r = Some k → is_Some (<[id := x]> t !! k)) m.
Proof.
  intros H i r Hr k Hk. apply lookup_insert_is_Some'. right.
  by eapply (H i r Hr).
Qed.

Lemma map_Forall_filter_both {A} (P : A → Prop) (Q : uuid * A → Prop)
    `{!∀ kv, Decision (Q kv)} (m : gmap uuid A) :
  (∀ i x, m !! i = Some x → Q (i, x) → P x) →
  map_Forall (λ _, P) (filter Q m).
Proof.
  intros Hall i x [Hx HQ]%map_lookup_filter_Some. by eapply Hall.
Qed.

Lemma related_timesheet_set_null_Some gone n t :
  n_related_timesheet_id (related_timesheet_set_null gone n) = Some t →
  n_related_timesheet_id n = Some t ∧ gone t = false.
Proof.
  destruct (related_timesheet_set_null_spec gone n) as [_ ->].
  destruct (n_related_timesheet_id n) as [t'|]; [|done].
  destruct (gone t') eqn:Hgone; [done|]. by intros [= <-].
Qed.

Lemma related_timesheet_set_null_user gone n :
  n_user_id (related_timesheet_set_null gone n) = n_user_id n.
Proof. by destruct (related_timesheet_set_null_spec gone n) as [[-> _] _]. Qed.

Lemma delete_some {A} (m : gmap uuid A) i j :
  i ≠ j → is_Some (m !! j) → is_Some (base.delete i m !! j).
Proof. intros. by apply lookup_delete_is_Some. Qed.

Lemma ref_integrity_delete_user d id d' :
  ref_integrity d → delete_user d id = Ok d' → ref_integrity d'.
Proof.
  intros [R1 R2 R3 R4 R5 R6 R7 R8 R9 R10 R11 R12] H.
  destruct (users d !! id) as [u|] eqn:Hu.
  2: { unfold delete_user in H.
       rewrite (proj2 (has_key_false _ _) Hu) in H. by inv_ok; subst. }
  apply delete_user_Ok in H as (-> & Hproj & Hrev); [|by eauto].
  split; simpl; try done.
  - intros i p Hp. apply delete_some; [|by eapply R1].
    intros ->. by eapply Hproj.
  - apply map_Forall_filter_both. intros i e He Hne.
    apply delete_some; [done | by eapply R3].
  - by apply map_Forall_filter_keep.
  - by apply map_Forall_filter_keep.
  - apply map_Forall_filter_both. intros i e He Hne.
    apply delete_some; [done | by eapply R6].
  - by apply map_Forall_filter_keep.
  - by apply map_Forall_filter_keep.
  - apply map_Forall_filter_both. intros i e He Hne.
    apply delete_some; [done | by eapply R9].
  - apply map_Forall_filter_both. intros i e He Hne u' Hu'.
    apply delete_some; [|by eapply (R10 i e He)].
    intros ->. by eapply Hrev.
  - intros i n' (n & <- & [Hn Hne]%map_lookup_filter_Some)%lookup_fmap_Some.
    rewrite related_timesheet_set_null_user.
    apply delete_some; [done | by eapply R11].
  - intros i n' (n & <- & [Hn Hne]%map_lookup_filter_Some)%lookup_fmap_Some.
    intros t [Hrel Hgone]%related_timesheet_set_null_Some.
    destruct (R12 i n Hn t Hrel) as [s Hs]. exists s.
    apply map_lookup_filter_Some. split; [done|]. simpl.
    unfold timesheet_of_user in Hgone. rewrite Hs in Hgone.
    by apply bool_decide_eq_false in Hgone.
Qed.

Lemma delete_project_checks d id d' :
  is_Some (projects d !! id) → delete_project d id = Ok d' →
  d' = set_tasks (set_projects d (base.delete id (projects d)))
         (filter (λ kv, k_project_id kv.2 ≠ id) (tasks d))
  ∧ (∀ i e, time_entries d !! i = Some e →
       te_project_id e ≠ id ∧ task_of_project d id (te_task_id e) = false)
  ∧ (∀ i s, timer_sessions d !! i = Some s →
       ts_project_id s ≠ id ∧ task_of_project d id (ts_task_id s) = false).
Proof.
  intros Hp%has_key_true H. unfold delete_project in H. rewrite Hp in H.
  simpl in H. inv_ok. subst d'. split; [done|].
  repeat match goal with H : bool_decide _ = true |- _ =>
    apply bool_decide_eq_true in H end.
  split.
  - intros i e He. split; [by eapply (Hstep i e) | by eapply (Hstep1 i e)].
  - intros i e He. split; [by eapply (Hstep0 i e) | by eapply (Hstep2 i e)].
Qed.

Lemma task_of_project_false d id t k :
  tasks d !! t = Some k → task_of_project d id t = false →
  k_project_id k ≠ id.
Proof.
  unfold task_of_project. intros ->. by intros ?%bool_decide_eq_false.
Qed.

Lemma ref_integrity_delete_project d id d' :
  ref_integrity d → delete_project d id = Ok d' → ref_integrity d'.
Proof.
  intros [R1 R2 R3 R4 R5 R6 R7 R8 R9 R10 R11 R12] H.
  destruct (projects d !! id) as [p|] eqn:Hp.
  2: { unfold delete_project in H.
       rewrite (proj2 (has_key_false _ _) Hp) in H. by inv_ok; subst. }
  apply delete_project_checks in H as (-> & Hte & Hts); [|by eauto].
  split; simpl; try done; try (by apply map_Forall_delete).
  - apply map_Forall_filter_both. intros i k Hk Hne.
    apply delete_some; [done | by eapply R2].
  - intros i e He. apply delete_some; [|by eapply R4].
    intros ->. by destruct (Hte i e He).
  - intros i e He. destruct (R5 i e He) as [k Hk]. exists k.
    apply map_lookup_filter_Some. split; [done|]. simpl.
    eapply task_of_project_false; [done|]. by destruct (Hte i e He).
  - intros i e He. apply delete_some; [|by eapply R7].
    intros ->. by destruct (Hts i e He).
  - intros i e He. destruct (R8 i e He) as [k Hk]. exists k.
    apply map_lookup_filter_Some. split; [done|]. simpl.
    eapply task_of_project_false; [done|]. by destruct (Hts i e He).
Qed.

Lemma delete_task_checks d id d' :
  is_Some (tasks d !! id) → delete_task d id = Ok d' →
  d' = set_tasks d (base.delete id (tasks d))
  ∧ (∀ i e, time_entries d !! i = Some e → te_task_id e ≠ id)
  ∧ (∀ i s, timer_sessions d !! i = Some s → ts_task_id s ≠ id).
Proof.
  intros Hp%has_key_true H. unfold delete_task in H. rewrite Hp in H.
  simpl in H. inv_ok. subst d'. split; [done|].
  repeat match goal with H : bool_decide _ = true |- _ =>
    apply bool_decide_eq_true in H end.
  split; [intros i e He; by eapply (Hstep i e)
         | intros i e He; by eapply (Hstep0 i e)].
Qed.

Lemma ref_integrity_delete_task d id d' :
  ref_integrity d → delete_task d id = Ok d' → ref_integrity d'.
Proof.
  intros [R1 R2 R3 R4 R5 R6 R7 R8 R9 R10 R11 R12] H.
  destruct (tasks d !! id) as [p|] eqn:Hp.
  2: { unfold delete_task in H.
       rewrite (proj2 (has_key_false _ _) Hp) in H. by inv_ok; subst. }
  apply delete_task_checks in H as (-> & Hte & Hts); [|by eauto].
  split; simpl; try done; try (by apply map_Forall_delete).
  - intros i e He. apply delete_some; [|by eapply R5].
    intros ->. by eapply Hte.
  - intros i e He. apply delete_some; [|by eapply R8].
    intros ->. by eapply Hts.
Qed.

Lemma ref_integrity_delete_timesheet d id d' :
  ref_integrity d → delete_timesheet d id = Ok d' → ref_integrity d'.
Proof.
  intros [R1 R2 R3 R4 R5 R6 R7 R8 R9 R10 R11 R12] H.
  destruct (timesheets d !! id) as [p|] eqn:Hp.
  2: { unfold delete_timesheet in H.
       rewrite (proj2 (has_key_false _ _) Hp) in H. by inv_ok; subst. }
  rewrite delete_timesheet_Ok in H by eauto. inv_ok. subst d'.
  split; simpl; try done; try (by apply map_Forall_delete).
  - intros i n' (n & <- & Hn)%lookup_fmap_Some.
    rewrite related_timesheet_set_null_user. by eapply R11.
  - intros i n' (n & <- & Hn)%lookup_fmap_Some.
    intros t [Hrel Hgone]%related_timesheet_set_null_Some.
    apply delete_some; [|by eapply (R12 i n Hn)].
    intros ->. by rewrite bool_decide_eq_true_2 in Hgone.
Qed.

Lemma ref_integrity_exec d s d' :
  ref_integrity d → exec d s = Ok d' → ref_integrity d'.
Proof.
  intros Hd H. destruct s;
    try (by eapply ref_integrity_delete_user);
    try (by eapply ref_integrity_delete_project);
    try (by eapply ref_integrity_delete_task);
    try (by eapply ref_integrity_delete_timesheet);
    destruct Hd as [R1 R2 R3 R4 R5 R6 R7 R8 R9 R10 R11 R12];
    exec_cases H; open_checks; open_constraints;
    try (by split);
    split; simpl; try done;
    try (by apply refs_insert);
    try (by apply refs_opt_insert);
    try (by apply map_Forall_insert_2);
    try (by apply map_Forall_delete).
Qed.

Lemma ref_integrity_reachable d : reachable d → ref_integrity d.
Proof.
  induction 1 as [|d s d' _ IH H].
  - split; apply map_Forall_empty.
  - by eapply ref_integrity_exec.
Qed.

(** ** Column sizes *)

Lemma related_timesheet_set_null_sizes gone n :
  notification_sizes n →
  notification_sizes (related_timesheet_set_null gone n).
Proof.
  unfold notification_sizes.
  by destruct (related_timesheet_set_null_spec gone n)
    as [(_ & -> & -> & _) _].
Qed.

Lemma sizes_ok_exec d s d' : sizes_ok d → exec d s = Ok d' → sizes_ok d'.
Proof.
  intros [S1 S2 S3 S4 S5 S6] H.
  destruct s; exec_cases H; open_constraints;
    try (by split);
    split; simpl; try done;
    try (by apply map_Forall_insert_2);
    try (by apply map_Forall_delete);
    try (by apply map_Forall_filter_keep).
  - intros i n' (n & <- & [Hn _]%map_lookup_filter_Some)%lookup_fmap_Some.
    apply related_timesheet_set_null_sizes. by eapply S6.
  - intros i n' (n & <- & Hn)%lookup_fmap_Some.
    apply related_timesheet_set_null_sizes. by eapply S6.
Qed.

Lemma sizes_ok_reachable d : reachable d → sizes_ok d.
Proof.
  induction 1 as [|d s d' _ IH H].
  - split; apply map_Forall_empty.
  - by eapply sizes_ok_exec.
Qed.

(** ** Stored rows pass their constraints again *)

Lemma users_constraints_pass d id r :
  user_enums r → email_taken d id (u_email r) = false →
  users_constraints d id r = Ok tt.
Proof.
  intros [Hrole Hstatus] Hfree.
  assert (users_role_check (u_role r) = true) as Hr.
  { apply bool_decide_eq_true. rewrite !elem_of_cons. tauto. }
  assert (users_status_check (u_status r) = true) as Hs.
  { apply bool_decide_eq_true. rewrite !elem_of_cons. tauto. }
  unfold users_constraints.
  repeat (rewrite require_true by (done || by rewrite Hfree); simpl). done.
Qed.

Lemma projects_constraints_pass d r :
  is_Some (users d !! p_created_by r) →
  projects_constraints d r = Ok tt.
Proof.
  intros ?%has_key_true.
  unfold projects_constraints.
  repeat (rewrite require_true by done; simpl). done.
Qed.

Lemma tasks_constraints_pass d r :
  is_Some (projects d !! k_project_id r) →
  tasks_constraints d r = Ok tt.
Proof.
  intros ?%has_key_true.
  unfold tasks_constraints.
  repeat (rewrite require_true by done; simpl). done.
Qed.

Lemma time_entries_constraints_pass d r :
  time_entry_sizes r → time_entry_enums r →
  is_Some (users d !! te_user_id r) →
  is_Some (projects d !! te_project_id r) →
  is_Some (tasks d !! te_task_id r) →
  time_entries_constraints d r = Ok tt.
Proof.
  intros (Hdur & _) Henum ?%has_key_true ?%has_key_true ?%has_key_true.
  assert (integer_ok (te_duration r) = true) by by apply bool_decide_eq_true.
  assert (time_entries_entry_type_check (te_entry_type r) = true).
  { apply bool_decide_eq_true. rewrite !elem_of_cons.
    unfold time_entry_enums in Henum. tauto. }
  unfold time_entries_constraints.
  repeat (rewrite require_true by done; simpl). done.
Qed.

Lemma timer_sessions_constraints_pass d r :
  is_Some (users d !! ts_user_id r) →
  is_Some (projects d !! ts_project_id r) →
  is_Some (tasks d !! ts_task_id r) →
  timer_sessions_constraints d r = Ok tt.
Proof.
  intros ?%has_key_true ?%has_key_true ?%has_key_true.
  unfold timer_sessions_constraints.
  repeat (rewrite require_true by done; simpl). done.
Qed.

Lemma timesheets_constraints_pass d r :
  timesheet_sizes r → timesheet_enums r →
  is_Some (users d !! sh_user_id r) →
  (∀ u, sh_reviewed_by r = Some u → is_Some (users d !! u)) →
  timesheets_constraints d r = Ok tt.
Proof.
  intros (Htot & _) Henum ?%has_key_true Hrev.
  apply has_key_opt_true in Hrev.
  assert (decimal_10_2_ok (sh_total_hours r) = true)
    by by apply bool_decide_eq_true.
  assert (timesheets_status_check (sh_status r) = true).
  { apply bool_decide_eq_true. rewrite !elem_of_cons.
    unfold timesheet_enums in Henum. tauto. }
  unfold timesheets_constraints.
  repeat (rewrite require_true by done; simpl). done.
Qed.

Lemma notifications_constraints_pass d r :
  notification_enums r →
  is_Some (users d !! n_user_id r) →
  (∀ t, n_related_timesheet_id r = Some t → is_Some (timesheets d !! t)) →
  notifications_constraints d r = Ok tt.
Proof.
  intros Henum ?%has_key_true Hrel.
  apply has_key_opt_true in Hrel.
  assert (notifications_type_check (n_type r) = true).
  { apply bool_decide_eq_true. rewrite !elem_of_cons.
    unfold notification_enums in Henum. tauto. }
  unfold notifications_constraints.
  repeat (rewrite require_true by done; simpl). done.
Qed.

Lemma consistent_reachable d : reachable d → consistent d.
Proof.
  intros Hd. split.
  - by apply ref_integrity_reachable.
  - by apply sizes_ok_reachable.
  - by apply enums_ok_reachable.
  - by apply emails_unique_reachable.
Qed.

Lemma email_free_of_unique d id r :
  emails_unique d → users d !! id = Some r →
  email_taken d id (u_email r) = false.
Proof.
  intros Hu Hr. apply email_taken_false. intros id' r' Hr' Hne Heq.
  apply Hne. by apply (Hu id' id r' r).
Qed.

(** ** Writing a stored row back *)

Lemma db_eta d :
  {| users := users d; projects := projects d; tasks := tasks d;
     time_entries := time_entries d; timer_sessions := timer_sessions d;
     timesheets := timesheets d; notifications := notifications d |} = d.
Proof. by destruct d. Qed.

Lemma rewrite_succeeds d s :
  consistent d → rewrite_of d s → exec d s = Ok d.
Proof.
  intros [[R1 R2 R3 R4 R5 R6 R7 R8 R9 R10 R11 R12] [S1 S2 S3 S4 S5 S6]
          [E1 E2 E3 E4] Hu] Hs.
  destruct s; try done; simpl in Hs; simpl.
  - unfold update_user. rewrite (proj2 (has_key_true _ _)) by eauto.
    rewrite users_assign_fits by by eapply S1. simpl.
    rewrite users_constraints_pass;
      [|by eapply E1|by apply email_free_of_unique]. simpl.
    unfold set_users. rewrite insert_id by done. by rewrite db_eta.
  - unfold update_project. rewrite (proj2 (has_key_true _ _)) by eauto.
    rewrite projects_assign_fits by by eapply S2. simpl.
    rewrite projects_constraints_pass; [|by eapply R1]. simpl.
    unfold set_projects. rewrite insert_id by done. by rewrite db_eta.
  - unfold update_task. rewrite (proj2 (has_key_true _ _)) by eauto.
    rewrite tasks_assign_fits by by eapply S3. simpl.
    rewrite tasks_constraints_pass; [|by eapply R2]. simpl.
    unfold set_tasks. rewrite insert_id by done. by rewrite db_eta.
  - unfold update_time_entry. rewrite (proj2 (has_key_true _ _)) by eauto.
    rewrite time_entries_assign_fits by by eapply S4. simpl.
    rewrite time_entries_constraints_pass;
      [|by eapply S4|by eapply E2|by eapply R3|by eapply R4|by eapply R5].
    simpl. unfold set_time_entries. rewrite insert_id by done.
    by rewrite db_eta.
  - unfold update_timer_session. rewrite (proj2 (has_key_true _ _)) by eauto.
    rewrite timer_sessions_constraints_pass;
      [|by eapply R6|by eapply R7|by eapply R8].
    simpl. unfold set_timer_sessions. rewrite insert_id by done.
    by rewrite db_eta.
  - unfold update_timesheet. rewrite (proj2 (has_key_true _ _)) by eauto.
    rewrite timesheets_assign_fits by by eapply S5. simpl.
    rewrite timesheets_constraints_pass;
      [|by eapply S5|by eapply E3|by eapply R9|by eapply R10].
    simpl. unfold set_timesheets. rewrite insert_id by done.
    by rewrite db_eta.
  - unfold update_notification. rewrite (proj2 (has_key_true _ _)) by eauto.
    rewrite notifications_assign_fits by by eapply S6. simpl.
    rewrite notifications_constraints_pass;
      [|by eapply E4|by eapply R11|by eapply R12].
    simpl. unfold set_notifications. rewrite insert_id by done.
    by rewrite db_eta.
Qed.

(** ** An INSERT undone by the DELETE of its key *)

(** No row refers to a key the referenced table does not have. *)
Lemma filter_owner_all {A B} (f : A → uuid) (m : gmap uuid A)
    (t : gmap uuid B) id :
  map_Forall (λ _ r, is_Some (t !! f r)) m → t !! id = None →
  filter (λ kv, f kv.2 ≠ id) m = m.
Proof.
  intros Hrefs Hid. apply map_filter_id. intros i r Hr Heq. simpl in Heq.
  destruct (Hrefs i r Hr) as [x Hx]. congruence.
Qed.

Lemma no_owner {A B} (f : A → uuid) (m : gmap uuid A) (t : gmap uuid B) id :
  map_Forall (λ _ r, is_Some (t !! f r)) m → t !! id = None →
  map_Forall (λ _ r, f r ≠ id) m.
Proof.
  intros Hrefs Hid i r Hr Heq. destruct (Hrefs i r Hr) as [x Hx]. congruence.
Qed.

Lemma no_owner_opt {A B} (f : A → option uuid) (m : gmap uuid A)
    (t : gmap uuid B) id :
  map_Forall (λ _ r, ∀ k, f r = Some k → is_Some (t !! k)) m →
  t !! id = None →
  map_Forall (λ _ r, f r ≠ Some id) m.
Proof.
  intros Hrefs Hid i r Hr Heq. destruct (Hrefs i r Hr id Heq) as [x Hx].
  congruence.
Qed.

Lemma related_timesheet_set_null_none gone n :
  (∀ t, n_related_timesheet_id n = Some t → gone t = false) →
  related_timesheet_set_null gone n = n.
Proof.
  unfold related_timesheet_set_null. intros Hgone.
  destruct (n_related_timesheet_id n) as [t|] eqn:Hrel; [|done].
  by rewrite (Hgone t).
Qed.

Lemma set_null_all (gone : uuid → bool) (m : gmap uuid notification_row) :
  map_Forall (λ _ n, ∀ t, n_related_timesheet_id n = Some t → gone t = false)
    m →
  related_timesheet_set_null gone <$> m = m.
Proof.
  intros Hm. rewrite <- (map_fmap_id m) at 2. apply map_fmap_ext.
  intros i n Hn. apply related_timesheet_set_null_none. by eapply Hm.
Qed.

Lemma insert_then_delete d s s' d1 :
  ref_integrity d → exec d s = Ok d1 → undo s = Some s' → exec d1 s' = Ok d.
Proof.
  intros [R1 R2 R3 R4 R5 R6 R7 R8 R9 R10 R11 R12] H Hundo.
  destruct s; simplify_eq/=.
  - (* users *)
    apply insert_user_Ok in H as (r' & _ & Hid & _ & ->).
    unfold delete_user. simpl.
    rewrite (proj2 (has_key_true _ _)) by (rewrite lookup_insert_eq; eauto).
    rewrite delete_insert_id by done.
    rewrite !(filter_owner_all _ _ (users d) id) by done.
    rewrite set_null_all.
    2: { intros i n Hn t Ht. unfold timesheet_of_user. simpl.
         destruct (timesheets d !! t) as [s|] eqn:Hs; [|done].
         apply bool_decide_eq_false. by eapply (no_owner _ _ _ _ R9 Hid). }
    rewrite require_true.
    2: { apply bool_decide_eq_true. by eapply no_owner. }
    simpl. rewrite require_true.
    2: { apply bool_decide_eq_true. by eapply no_owner_opt. }
    simpl. by rewrite db_eta.
  - (* projects *)
    unfold insert_project in H. inv_ok.
    match goal with H : negb _ = true |- _ =>
      apply negb_true_iff, has_key_false in H; rename H into Hid end.
    subst d1. unfold delete_project. simpl.
    rewrite (proj2 (has_key_true _ _)) by (rewrite lookup_insert_eq; eauto).
    unfold set_tasks, set_projects. simpl.
    rewrite delete_insert_id by done.
    rewrite (filter_owner_all _ _ (projects d) id) by done.
    assert (∀ t, task_of_project
                   {| users := users d; projects := <[id:=r]> (projects d);
                      tasks := tasks d; time_entries := time_entries d;
                      timer_sessions := timer_sessions d;
                      timesheets := timesheets d;
                      notifications := notifications d |} id t = false)
      as Hnone.
    { intros t. unfold task_of_project. simpl.
      destruct (tasks d !! t) as [k|] eqn:Hk; [|done].
      apply bool_decide_eq_false. by eapply (no_owner _ _ _ _ R2 Hid). }
    rewrite require_true.
    2: { apply bool_decide_eq_true. by eapply no_owner. }
    simpl. rewrite require_true.
    2: { apply bool_decide_eq_true. by eapply no_owner. }
    simpl. rewrite require_true.
    2: { apply bool_decide_eq_true. intros i e He. apply Hnone. }
    simpl. rewrite require_true.
    2: { apply bool_decide_eq_true. intros i e He. apply Hnone. }
    simpl. by rewrite db_eta.
  - (* tasks *)
    unfold insert_task in H. inv_ok.
    match goal with H : negb _ = true |- _ =>
      apply negb_true_iff, has_key_false in H; rename H into Hid end.
    subst d1. unfold delete_task. simpl.
    rewrite (proj2 (has_key_true _ _)) by (rewrite lookup_insert_eq; eauto).
    rewrite require_true.
    2: { apply bool_decide_eq_true. by eapply no_owner. }
    simpl. rewrite require_true.
    2: { apply bool_decide_eq_true. by eapply no_owner. }
    simpl. unfold set_tasks. simpl. rewrite delete_insert_id by done.
    by rewrite db_eta.
  - (* time_entries *)
    unfold insert_time_entry in H. inv_ok.
    match goal with H : negb _ = true |- _ =>
      apply negb_true_iff, has_key_false in H; rename H into Hid end.
    subst d1. unfold delete_time_entry, set_time_entries. simpl.
    rewrite delete_insert_id by done. by rewrite db_eta.
  - (* timer_sessions *)
    unfold insert_timer_session in H. inv_ok.
    match goal with H : negb _ = true |- _ =>
      apply negb_true_iff, has_key_false in H; rename H into Hid end.
    subst d1. unfold delete_timer_session, set_timer_sessions. simpl.
    rewrite delete_insert_id by done. by rewrite db_eta.
  - (* timesheets *)
    unfold insert_timesheet in H. inv_ok.
    match goal with H : negb _ = true |- _ =>
      apply negb_true_iff, has_key_false in H; rename H into Hid end.
    subst d1. unfold delete_timesheet. simpl.
    rewrite (proj2 (has_key_true _ _)) by (rewrite lookup_insert_eq; eauto).
    rewrite delete_insert_id by done.
    rewrite set_null_all; [by rewrite db_eta|].
    intros i n Hn t Ht. apply bool_decide_eq_false.
    intros ->. destruct (R12 i n Hn id Ht) as [x Hx]. congruence.
  - (* notifications *)
    unfold insert_notification in H. inv_ok.
    match goal with H : negb _ = true |- _ =>
      apply negb_true_iff, has_key_false in H; rename H into Hid end.
    subst d1. unfold delete_notification, set_notifications. simpl.
    rewrite delete_insert_id by done. by rewrite db_eta.
Qed.

(** ** Deleting what is already gone *)

Lemma delete_twice d s d1 :
  is_delete s = true → exec d s = Ok d1 → exec d1 s = Ok d1.
Proof.
  intros Hs H. destruct s; try done; simpl in *.
  - destruct (users d !! id) as [u|] eqn:Hu.
    + apply delete_user_Ok in H as (-> & _); [|by eauto].
      unfold delete_user. simpl.
      by rewrite (proj2 (has_key_false _ _)) by apply lookup_delete_eq.
    + unfold delete_user in *.
      rewrite (proj2 (has_key_false _ _) Hu) in H. inv_ok. subst.
      by rewrite (proj2 (has_key_false _ _) Hu).
  - destruct (projects d !! id) as [u|] eqn:Hu.
    + apply delete_project_checks in H as (-> & _); [|by eauto].
      unfold delete_project. simpl.
      by rewrite (proj2 (has_key_false _ _)) by apply lookup_delete_eq.
    + unfold delete_project in *.
      rewrite (proj2 (has_key_false _ _) Hu) in H. inv_ok. subst.
      by rewrite (proj2 (has_key_false _ _) Hu).
  - destruct (tasks d !! id) as [u|] eqn:Hu.
    + apply delete_task_checks in H as (-> & _); [|by eauto].
      unfold delete_task. simpl.
      by rewrite (proj2 (has_key_false _ _)) by apply lookup_delete_eq.
    + unfold delete_task in *.
      rewrite (proj2 (has_key_false _ _) Hu) in H. inv_ok. subst.
      by rewrite (proj2 (has_key_false _ _) Hu).
  - unfold delete_time_entry in *. inv_ok. subst. unfold set_time_entries.
    simpl. by rewrite delete_delete_eq.
  - unfold delete_timer_session in *. inv_ok. subst.
    unfold set_timer_sessions. simpl. by rewrite delete_delete_eq.
  - destruct (timesheets d !! id) as [u|] eqn:Hu.
    + rewrite delete_timesheet_Ok in H by eauto. inv_ok. subst.
      unfold delete_timesheet. simpl.
      by rewrite (proj2 (has_key_false _ _)) by apply lookup_delete_eq.
    + unfold delete_timesheet in *.
      rewrite (proj2 (has_key_false _ _) Hu) in H. inv_ok. subst.
      by rewrite (proj2 (has_key_false _ _) Hu).
  - unfold delete_notification in *. inv_ok. subst.
    unfold set_notifications. simpl. by rewrite delete_delete_eq.
Qed.

(** ** When a DELETE goes through *)

Lemma delete_task_passes d id :
  is_Some (tasks d !! id) →
  (∀ i e, time_entries d !! i = Some e → te_task_id e ≠ id) →
  (∀ i s, timer_sessions d !! i = Some s → ts_task_id s ≠ id) →
  delete_task d id = Ok (set_tasks d (base.delete id (tasks d))).
Proof.
  intros Hk%has_key_true Hte Hts. unfold delete_task. rewrite Hk.
  rewrite require_true by by apply bool_decide_eq_true.
  simpl. by rewrite require_true by by apply bool_decide_eq_true.
Qed.

Lemma task_of_project_spec d p t :
  task_of_project d p t = false ↔
  ∀ k, tasks d !! t = Some k → k_project_id k ≠ p.
Proof.
  unfold task_of_project. destruct (tasks d !! t) as [k|].
  - rewrite bool_decide_eq_false. split; [by intros ? ? [= <-] | eauto].
  - split; [by intros | done].
Qed.

Lemma delete_project_passes d id :
  is_Some (projects d !! id) →
  (∀ i e, time_entries d !! i = Some e →
     te_project_id e ≠ id ∧ task_of_project d id (te_task_id e) = false) →
  (∀ i s, timer_sessions d !! i = Some s →
     ts_project_id s ≠ id ∧ task_of_project d id (ts_task_id s) = false) →
  delete_project d id =
    Ok (set_tasks (set_projects d (base.delete id (projects d)))
          (filter (λ kv, k_project_id kv.2 ≠ id) (tasks d))).
Proof.
  intros Hk%has_key_true Hte Hts. unfold delete_project. rewrite Hk. simpl.
  rewrite require_true
    by (apply bool_decide_eq_true; intros i e He; by destruct (Hte i e He)).
  simpl. rewrite require_true
    by (apply bool_decide_eq_true; intros i e He; by destruct (Hts i e He)).
  simpl. rewrite require_true
    by (apply bool_decide_eq_true; intros i e He; by destruct (Hte i e He)).
  simpl. by rewrite require_true
    by (apply bool_decide_eq_true; intros i e He; by destruct (Hts i e He)).
Qed.

Lemma delete_user_passes d id :
  is_Some (users d !! id) →
  (∀ i p, projects d !! i = Some p → p_created_by p ≠ id) →
  (∀ i s, timesheets d !! i = Some s → sh_user_id s ≠ id →
     sh_reviewed_by s ≠ Some id) →
  is_ok (delete_user d id) = true.
Proof.
  intros Hk%has_key_true Hp Hs. unfold delete_user. rewrite Hk. simpl.
  rewrite require_true by by apply bool_decide_eq_true.
  simpl. rewrite require_true; [done|].
  apply bool_decide_eq_true.
  intros i s [Hin Hne]%map_lookup_filter_Some. by eapply Hs.
Qed.

(** ** Row counts *)

Lemma size_filter_le {A} (P : uuid * A → Prop) `{!∀ kv, Decision (P kv)}
    (m : gmap uuid A) : (size (filter P m) ≤ size m)%nat.
Proof. apply map_subseteq_size, map_filter_subseteq. Qed.

Lemma size_delete_le {A} (m : gmap uuid A) i :
  (size (base.delete i m) ≤ size m)%nat.
Proof. apply map_subseteq_size, delete_subseteq. Qed.

Lemma size_update {A} (m : gmap uuid A) i x :
  is_Some (m !! i) → size (<[i := x]> m) = size m.
Proof. intros [y Hy]. by eapply map_size_insert_Some. Qed.

End StoreFacts.

(** * Properties of the engine *)

Module CoreFacts.
Import Schema Core SchemaFacts CoreProps.

(** ** Selections and generated keys *)

Lemma first_row_None {A} (m : gmap uuid A) : first_row m = None → m = ∅.
Proof.
  unfold first_row. intros H. apply map_to_list_empty_iff.
  by destruct (map_to_list m).
Qed.

Lemma first_row_Some {A} (m : gmap uuid A) k v :
  first_row m = Some (k, v) → m !! k = Some v.
Proof.
  unfold first_row. intros H. apply elem_of_map_to_list.
  destruct (map_to_list m) as [|kv l]; simplify_eq/=. left.
Qed.

Lemma new_id_fresh {A} (m : gmap uuid A) : m !! new_id m = None.
Proof. apply not_elem_of_dom. unfold new_id. apply is_fresh. Qed.

Lemma getActive_None d user :
  getActive d user = None →
  ∀ id s, timer_sessions d !! id = Some s →
    ts_user_id s = user → ts_is_active s = false.
Proof.
  intros H%first_row_None id s Hs Hu.
  destruct (ts_is_active s) eqn:Hact; [|done].
  assert (filter (active_of user) (timer_sessions d) !! id = Some s) as Hin
    by by apply map_lookup_filter_Some.
  by rewrite H, lookup_empty in Hin.
Qed.

Lemma getActive_Some d user sid s :
  getActive d user = Some (sid, s) →
  timer_sessions d !! sid = Some s
  ∧ ts_user_id s = user ∧ ts_is_active s = true.
Proof.
  intros H%first_row_Some. by apply map_lookup_filter_Some in H as [? [? ?]].
Qed.

Lemma find_timesheet_None d user week_start :
  find_timesheet d user week_start = None →
  ∀ id s, timesheets d !! id = Some s →
    sh_user_id s = user → sh_week_start s ≠ week_start.
Proof.
  intros H%first_row_None id s Hs Hu Hw.
  assert (filter (sheet_of user week_start) (timesheets d) !! id = Some s)
    as Hin by by apply map_lookup_filter_Some.
  by rewrite H, lookup_empty in Hin.
Qed.

Lemma find_timesheet_Some d user week_start id s :
  find_timesheet d user week_start = Some (id, s) →
  timesheets d !! id = Some s.
Proof.
  intros H%first_row_Some. by apply map_lookup_filter_Some in H as [? _].
Qed.

(** ** What the store statements used by the engine did *)

Lemma insert_timer_session_Ok d id r d' :
  insert_timer_session d id r = Ok d' →
  d' = set_timer_sessions d (<[id := r]> (timer_sessions d)).
Proof. unfold insert_timer_session. intros H. by inv_ok. Qed.

Lemma update_timer_session_Ok d id r d' :
  is_Some (timer_sessions d !! id) → update_timer_session d id r = Ok d' →
  d' = set_timer_sessions d (<[id := r]> (timer_sessions d)).
Proof.
  intros Hk%has_key_true. unfold update_timer_session. rewrite Hk.
  intros H. by inv_ok.
Qed.

(** The engine writes its own [entry_type] and [status] values, all
    shorter than their columns: such a row is stored as it is. *)
Lemma insert_time_entry_Ok d id r d' :
  (char_length (te_entry_type r) ≤ 50)%nat →
  insert_time_entry d id r = Ok d' →
  d' = set_time_entries d (<[id := r]> (time_entries d)).
Proof.
  intros Hfit. unfold insert_time_entry.
  rewrite time_entries_assign_fits by done. simpl. intros H. by inv_ok.
Qed.

Lemma insert_timesheet_Ok d id r d' :
  (char_length (sh_status r) ≤ 50)%nat →
  insert_timesheet d id r = Ok d' →
  d' = set_timesheets d (<[id := r]> (timesheets d)).
Proof.
  intros Hfit. unfold insert_timesheet.
  rewrite timesheets_assign_fits by done. simpl. intros H. by inv_ok.
Qed.

Lemma update_timesheet_Ok d id r d' :
  is_Some (timesheets d !! id) → (char_length (sh_status r) ≤ 50)%nat →
  update_timesheet d id r = Ok d' →
  d' = set_timesheets d (<[id := r]> (timesheets d)).
Proof.
  intros Hk%has_key_true Hfit. unfold update_timesheet. rewrite Hk.
  rewrite timesheets_assign_fits by done. simpl. intros H. by inv_ok.
Qed.

(** ** What each successful operation did to the store *)

Section Steps.
Variable clock : timestamptz.

Local Abbreviation effect := (CoreProps.effect clock).

Lemma start_Ok d user project task now d' :
  start d user project task now = Ok d' →
  getActive d user = None
  ∧ d' = set_timer_sessions d
           (<[new_id (timer_sessions d) := new_session user project task now]>
              (timer_sessions d)).
Proof.
  unfold start. destruct (getActive d user); [discriminate|].
  intros H%store_Ok%insert_timer_session_Ok. done.
Qed.

Lemma heartbeat_Ok d user now d' :
  heartbeat d user now = Ok d' →
  ∃ sid s, getActive d user = Some (sid, s)
    ∧ d' = set_timer_sessions d
             (<[sid := with_last_heartbeat s now]> (timer_sessions d)).
Proof.
  unfold heartbeat. destruct (getActive d user) as [[sid s]|] eqn:Hact;
    [|discriminate].
  intros H%store_Ok. exists sid, s. split; [done|].
  apply getActive_Some in Hact as (Hs & _).
  by apply update_timer_session_Ok in H.
Qed.

Lemma terminate_Ok d sid s end_time d' :
  timer_sessions d !! sid = Some s →
  terminate clock d sid s end_time = Ok d' →
  d' = set_time_entries
         (set_timer_sessions d (<[sid := deactivated s]> (timer_sessions d)))
         (<[new_id (time_entries d) :=
              timer_entry clock s (clamp_end s end_time)]> (time_entries d)).
Proof.
  intros Hs H. unfold terminate, recordFromSession in H. inv_ok.
  apply update_timer_session_Ok in Hstep; [|by eauto]. subst a.
  apply insert_time_entry_Ok in H; [done | simpl; lia].
Qed.

Lemma stop_Ok d user now d' :
  stop clock d user now = Ok d' →
  ∃ sid s, getActive d user = Some (sid, s)
    ∧ d' = set_time_entries
             (set_timer_sessions d
                (<[sid := deactivated s]> (timer_sessions d)))
             (<[new_id (time_entries d) :=
                  timer_entry clock s (clamp_end s now)]> (time_entries d)).
Proof.
  unfold stop. destruct (getActive d user) as [[sid s]|] eqn:Hact;
    [|discriminate].
  intros H. exists sid, s. split; [done|].
  apply getActive_Some in Hact as (Hs & _). by eapply terminate_Ok.
Qed.

Lemma reap_session_Ok d sid now th d' :
  reap_session clock d sid now th = Ok d' →
  d' = d
  ∨ ∃ s, timer_sessions d !! sid = Some s ∧ stale now th s = true
      ∧ d' = set_time_entries
               (set_timer_sessions d
                  (<[sid := deactivated s]> (timer_sessions d)))
               (<[new_id (time_entries d) :=
                    timer_entry clock s (clamp_end s (ts_last_heartbeat s))]>
                  (time_entries d)).
Proof.
  unfold reap_session. destruct (timer_sessions d !! sid) as [s|] eqn:Hs;
    [|intros; inv_ok; by left].
  destruct (stale now th s) eqn:Hstale; [|intros; inv_ok; by left].
  intros H. right. exists s. repeat split; [done|]. by eapply terminate_Ok.
Qed.

(** Anything that every reaped session preserves, a whole pass preserves. *)
Lemma reap_all_preserves (P : db → Prop) now th :
  (∀ d sid d', P d → reap_session clock d sid now th = Ok d' → P d') →
  ∀ sids d d', P d → reap_all clock d sids now th = Ok d' → P d'.
Proof.
  intros Hone. induction sids as [|sid sids IH]; simpl; intros d d' HP H.
  - inv_ok. by subst.
  - inv_ok. eapply IH; [|done]. by eapply Hone.
Qed.

Lemma recordManual_Ok d user project task start_time end_time notes d' :
  recordManual clock d user project task start_time end_time notes = Ok d' →
  start_time ≤ end_time
  ∧ d' = set_time_entries d
           (<[new_id (time_entries d) :=
                manual_entry clock user project task start_time end_time notes]>
              (time_entries d)).
Proof.
  unfold recordManual. intros H. inv_ok.
  apply insert_time_entry_Ok in H; [|simpl; lia]. split; [|done].
  match goal with H : negb (bool_decide _) = true |- _ =>
    apply negb_true_iff, bool_decide_eq_false in H end.
  lia.
Qed.

#[local] Instance sheet_sim_equiv : Equivalence sheet_sim.
Proof.
  unfold sheet_sim. split; [by intros ? | by intros ? ? | ].
  intros ? ? ? ? ?. congruence.
Qed.

Lemma sheet_sim_with_total_hours s h : sheet_sim s (with_total_hours s h).
Proof. done. Qed.

Lemma sheet_sim_fields s s' :
  sheet_sim s s' →
  sh_user_id s' = sh_user_id s ∧ sh_week_start s' = sh_week_start s
  ∧ sh_status s' = sh_status s.
Proof.
  unfold sheet_sim. intros H.
  pose proof (f_equal sh_user_id H). pose proof (f_equal sh_week_start H).
  pose proof (f_equal sh_status H). done.
Qed.

Lemma totals_only_refl d : totals_only d d.
Proof.
  repeat split. intros id. destruct (timesheets d !! id); by constructor.
Qed.

Lemma totals_only_trans d1 d2 d3 :
  totals_only d1 d2 → totals_only d2 d3 → totals_only d1 d3.
Proof.
  intros (He1 & Hs1 & Hsim1) (He2 & Hs2 & Hsim2).
  repeat split; [congruence | congruence |].
  intros id. specialize (Hsim1 id). specialize (Hsim2 id).
  destruct Hsim1 as [s1 s2 H12|]; inversion Hsim2; subst; constructor.
  by etrans.
Qed.

Lemma recompute_row_totals d id s d' :
  (∃ s0, timesheets d !! id = Some s0 ∧ sheet_sim s0 s) →
  recompute_row d id s = Ok d' → totals_only d d'.
Proof.
  intros (s0 & Hs0 & Hsim). unfold recompute_row.
  case_bool_decide as Hdraft; [|intros; inv_ok; subst; apply totals_only_refl].
  intros Hup%store_Ok.
  apply update_timesheet_Ok in Hup;
    [|by eauto|simpl; rewrite Hdraft; simpl; lia]. subst d'.
  repeat split. intros id'. simpl.
  destruct (decide (id' = id)) as [->|Hne].
  - rewrite Hs0, lookup_insert_eq. constructor.
    etrans; [done|]. apply sheet_sim_with_total_hours.
  - rewrite lookup_insert_ne by done.
    destruct (timesheets d !! id'); by constructor.
Qed.

Lemma recompute_all_totals sheets d d' :
  (∀ id s, (id, s) ∈ sheets →
     ∃ s0, timesheets d !! id = Some s0 ∧ sheet_sim s0 s) →
  recompute_all d sheets = Ok d' → totals_only d d'.
Proof.
  revert d. induction sheets as [|[id s] sheets IH]; simpl; intros d Hin H.
  - inv_ok. subst. apply totals_only_refl.
  - inv_ok. rename a into d1.
    assert (totals_only d d1) as Hd1.
    { eapply recompute_row_totals; [|done]. apply Hin. left. }
    eapply totals_only_trans; [done|]. apply IH; [|done].
    intros id' s' Hin'.
    destruct (Hin id' s') as (s0 & Hs0 & Hsim); [by right|].
    destruct Hd1 as (_ & _ & Hsheets). specialize (Hsheets id').
    rewrite Hs0 in Hsheets. inversion Hsheets as [? s1 H01 |]; subst.
    exists s1. split; [done|]. etrans; [symmetry|]; done.
Qed.

Lemma recompute_Ok d timesheet d' :
  recompute d timesheet = Ok d' → totals_only d d'.
Proof.
  unfold recompute. destruct (timesheets d !! timesheet) as [s|] eqn:Hs;
    [|discriminate].
  apply recompute_row_totals. by exists s.
Qed.

Lemma delete_Ok d entry_id requester d' :
  delete d entry_id requester = Ok d' →
  is_Some (time_entries d !! entry_id)
  ∧ totals_only
      (set_time_entries d (base.delete entry_id (time_entries d))) d'.
Proof.
  unfold delete. destruct (time_entries d !! entry_id) as [e|] eqn:He;
    [|discriminate].
  intros H. inv_ok. split; [by eauto|].
  unfold delete_time_entry in *. inv_ok. subst.
  eapply recompute_all_totals; [|done].
  intros id s [Hs _]%elem_of_map_to_list%map_lookup_filter_Some.
  by exists s.
Qed.

Lemma ensureDraft_Ok d user week_start d' :
  ensureDraft clock d user week_start = Ok d' →
  totals_only d d'
  ∨ (find_timesheet d user week_start = None
     ∧ ∃ h, d' = set_timesheets d
                  (<[new_id (timesheets d) :=
                       new_draft clock user week_start (week_start + 6) h]>
                     (timesheets d))).
Proof.
  unfold ensureDraft.
  destruct (find_timesheet d user week_start) as [[id s]|] eqn:Hfind.
  - intros H. left. eapply recompute_row_totals; [|done].
    apply find_timesheet_Some in Hfind. by exists s.
  - intros H%store_Ok. apply insert_timesheet_Ok in H; [|simpl; lia].
    right. eauto.
Qed.

Lemma submit_Ok d timesheet now d' evs :
  submit d timesheet now = Ok (d', evs) →
  ∃ s, timesheets d !! timesheet = Some s ∧ sh_status s = "draft"
    ∧ d' = set_timesheets d (<[timesheet := submitted s now]> (timesheets d)).
Proof.
  unfold submit. destruct (timesheets d !! timesheet) as [s|] eqn:Hs;
    [|discriminate].
  intros H. inv_ok. exists s.
  match goal with H : bool_decide _ = true |- _ =>
    apply bool_decide_eq_true in H end.
  apply update_timesheet_Ok in Hstep0; [|by eauto|simpl; lia]. by subst.
Qed.

Lemma review_Ok d timesheet reviewer dec comment now d' evs :
  review d timesheet reviewer dec comment now = Ok (d', evs) →
  ∃ s, timesheets d !! timesheet = Some s ∧ sh_status s = "submitted"
    ∧ d' = set_timesheets d
             (<[timesheet := reviewed s reviewer dec comment now]>
                (timesheets d)).
Proof.
  unfold review. destruct (timesheets d !! timesheet) as [s|] eqn:Hs;
    [|discriminate].
  intros H. inv_ok. exists s.
  match goal with H : bool_decide _ = true |- _ =>
    apply bool_decide_eq_true in H end.
  apply update_timesheet_Ok in Hstep1;
    [|by eauto|destruct dec; simpl; lia]. by subst.
Qed.

Lemma reopen_Ok d timesheet d' evs :
  reopen d timesheet = Ok (d', evs) →
  ∃ s, timesheets d !! timesheet = Some s ∧ sh_status s = "denied"
    ∧ d' = set_timesheets d (<[timesheet := reopened s]> (timesheets d)).
Proof.
  unfold reopen. destruct (timesheets d !! timesheet) as [s|] eqn:Hs;
    [|discriminate].
  intros H. inv_ok. exists s.
  match goal with H : bool_decide _ = true |- _ =>
    apply bool_decide_eq_true in H end.
  apply update_timesheet_Ok in Hstep0; [|by eauto|simpl; lia]. by subst.
Qed.

(** ** Every operation is a sequence of a few elementary effects *)

Lemma quiet_Ok r d' evs : quiet r = Ok (d', evs) → r = Ok d' ∧ evs = [].
Proof. unfold quiet. intros H. inv_ok. by simplify_eq. Qed.

Lemma stale_active now th s : stale now th s = true → ts_is_active s = true.
Proof. unfold stale. by intros [? _]%andb_true_iff. Qed.

Lemma reap_session_effects d sid now th d' :
  reap_session clock d sid now th = Ok d' → rtc effect d d'.
Proof.
  intros [->|(s & Hs & Hstale%stale_active & ->)]%reap_session_Ok; [done|].
  apply rtc_once. by constructor.
Qed.

Lemma step_effects d o d' evs :
  step clock d o = Ok (d', evs) →
  if is_workflow o then transition d d' else rtc effect d d'.
Proof.
  destruct o; simpl; intros H; try apply quiet_Ok in H as [H _].
  - apply start_Ok in H as (Hnone & ->). apply rtc_once. by constructor.
  - apply heartbeat_Ok in H as (sid & s & (Hs & _)%getActive_Some & ->).
    apply rtc_once. by constructor.
  - apply stop_Ok in H as (sid & s & (Hs & _ & Hact)%getActive_Some & ->).
    apply rtc_once. by constructor.
  - by eapply reap_session_effects.
  - unfold reaper_pass in H. revert H.
    apply (reap_all_preserves (rtc effect d)); [|done].
    intros d1 sid0 d2 Hd1 Hd2%reap_session_effects. by etrans.
  - apply recordManual_Ok in H as (Hle & ->). apply rtc_once. by constructor.
  - apply delete_Ok in H as (_ & Htot).
    eapply rtc_l; [apply (effect_delete _ _ entry_id)|].
    apply rtc_once. by constructor.
  - apply ensureDraft_Ok in H as [Htot|(Hnone & h & ->)]; apply rtc_once.
    + by constructor.
    + by constructor.
  - apply recompute_Ok in H. apply rtc_once. by constructor.
  - apply submit_Ok in H as (s & Hs & Hst & ->). by constructor.
  - apply review_Ok in H as (s & Hs & Hst & ->). by constructor.
  - apply reopen_Ok in H as (s & Hs & Hst & ->). by constructor.
Qed.

(** Anything every successful operation preserves, a run preserves. *)
Lemma run_preserves (P : db → Prop) :
  (∀ d o d' evs, P d → step clock d o = Ok (d', evs) → P d') →
  ∀ ops d d' evs, P d → run clock d ops = Ok (d', evs) → P d'.
Proof.
  intros Hone. induction ops as [|o ops IH]; simpl; intros d d' evs HP H.
  - inv_ok. by simplify_eq.
  - inv_ok. destruct a as [d1 evs1], a0 as [d2 evs2]. simplify_eq/=.
    eapply IH; [|done]. by eapply Hone.
Qed.

(** ** At most one active session per user *)

(** Replacing rows without making a new (user, active) pair keeps it. *)
Lemma one_active_in_shrink m m' :
  (∀ id r', m' !! id = Some r' → ts_is_active r' = true →
     ∃ r, m !! id = Some r ∧ ts_user_id r = ts_user_id r'
          ∧ ts_is_active r = true) →
  one_active_in m → one_active_in m'.
Proof.
  intros Hsub Hm i j si sj Hi Hj Hu Hai Haj.
  destruct (Hsub i si Hi Hai) as (ri & Hri & Hui & Hri_act).
  destruct (Hsub j sj Hj Haj) as (rj & Hrj & Huj & Hrj_act).
  apply (Hm i j ri rj); congruence.
Qed.

Lemma one_active_in_replace m sid s s' :
  m !! sid = Some s → ts_user_id s' = ts_user_id s →
  (ts_is_active s' = true → ts_is_active s = true) →
  one_active_in m → one_active_in (<[sid := s']> m).
Proof.
  intros Hs Hu Hact. apply one_active_in_shrink. intros id r'.
  destruct (decide (id = sid)) as [->|Hne].
  - rewrite lookup_insert_eq. intros [= <-] Hr'. exists s. auto.
  - rewrite lookup_insert_ne by done. intros Hr' Hr'act. by exists r'.
Qed.

Lemma one_active_in_start d user project task now :
  getActive d user = None → one_active d →
  one_active_in
    (<[new_id (timer_sessions d) := new_session user project task now]>
       (timer_sessions d)).
Proof.
  intros Hnone Hd i j si sj.
  pose proof (getActive_None _ _ Hnone) as Hidle.
  set (new := new_id (timer_sessions d)).
  destruct (decide (i = new)) as [->|Hi], (decide (j = new)) as [->|Hj];
    [done | | | ].
  - rewrite lookup_insert_eq, lookup_insert_ne by done.
    intros [= <-] Hsj Hu _ Hact. simpl in Hu.
    rewrite (Hidle j sj Hsj) in Hact; done.
  - rewrite lookup_insert_eq, lookup_insert_ne by done.
    intros Hsi [= <-] Hu Hact _. simpl in Hu.
    rewrite (Hidle i si Hsi) in Hact; done.
  - rewrite !lookup_insert_ne by done. apply Hd.
Qed.

Lemma one_active_totals d d' : totals_only d d' → one_active d → one_active d'.
Proof. intros (_ & Heq & _). unfold one_active. by rewrite Heq. Qed.

Lemma one_active_effect d d' : effect d d' → one_active d → one_active d'.
Proof.
  destruct 1; unfold one_active; simpl; try done.
  - by apply one_active_in_start.
  - by eapply one_active_in_replace.
  - by eapply one_active_in_replace.
  - by apply one_active_totals.
Qed.

Lemma one_active_effects d d' : rtc effect d d' → one_active d → one_active d'.
Proof. induction 1; eauto using one_active_effect. Qed.

Lemma one_active_transition d d' :
  transition d d' → one_active d → one_active d'.
Proof. by destruct 1. Qed.

Lemma one_active_step d o d' evs :
  one_active d → step clock d o = Ok (d', evs) → one_active d'.
Proof.
  intros Hd H%step_effects. destruct (is_workflow o).
  - by eapply one_active_transition.
  - by eapply one_active_effects.
Qed.

(** ** Every time entry is closed, with its duration derived *)

Lemma clamp_end_ge s end_time : ts_start_time s ≤ clamp_end s end_time.
Proof. unfold clamp_end. case_bool_decide; lia. Qed.

Lemma timer_entry_ok s end_time :
  entry_ok (timer_entry clock s (clamp_end s end_time)).
Proof.
  pose proof (clamp_end_ge s end_time).
  exists (clamp_end s end_time). simpl. repeat split; [done | lia].
Qed.

Lemma manual_entry_ok user project task start_time end_time notes :
  start_time ≤ end_time →
  entry_ok (manual_entry clock user project task start_time end_time notes).
Proof. intros. exists end_time. simpl. repeat split; [done | lia]. Qed.

Lemma entries_ok_effect d d' : effect d d' → entries_ok d → entries_ok d'.
Proof.
  destruct 1; unfold entries_ok; simpl; try done.
  - intros. apply map_Forall_insert_2; [apply timer_entry_ok | done].
  - intros. apply map_Forall_insert_2; [by apply manual_entry_ok | done].
  - apply map_Forall_delete.
  - destruct H as (-> & _). done.
Qed.

Lemma entries_ok_effects d d' : rtc effect d d' → entries_ok d → entries_ok d'.
Proof. induction 1; eauto using entries_ok_effect. Qed.

Lemma entries_ok_step d o d' evs :
  entries_ok d → step clock d o = Ok (d', evs) → entries_ok d'.
Proof.
  intros Hd H%step_effects. destruct (is_workflow o).
  - by destruct H.
  - by eapply entries_ok_effects.
Qed.

(** ** At most one timesheet per (user, week_start) *)

Lemma sheets_unique_in_shrink m m' :
  (∀ id r', m' !! id = Some r' →
     ∃ r, m !! id = Some r ∧ sh_user_id r = sh_user_id r'
          ∧ sh_week_start r = sh_week_start r') →
  sheets_unique_in m → sheets_unique_in m'.
Proof.
  intros Hsub Hm i j si sj Hi Hj Hu Hw.
  destruct (Hsub i si Hi) as (ri & Hri & Hui & Hwi).
  destruct (Hsub j sj Hj) as (rj & Hrj & Huj & Hwj).
  apply (Hm i j ri rj); congruence.
Qed.

Lemma sheets_unique_in_replace m id s s' :
  m !! id = Some s → sh_user_id s' = sh_user_id s →
  sh_week_start s' = sh_week_start s →
  sheets_unique_in m → sheets_unique_in (<[id := s']> m).
Proof.
  intros Hs Hu Hw. apply sheets_unique_in_shrink. intros id' r'.
  destruct (decide (id' = id)) as [->|Hne].
  - rewrite lookup_insert_eq. intros [= <-]. by exists s.
  - rewrite lookup_insert_ne by done. intros Hr'. by exists r'.
Qed.

Lemma sheets_unique_totals d d' :
  totals_only d d' → sheets_unique d → sheets_unique d'.
Proof.
  intros (_ & _ & Hsim). apply sheets_unique_in_shrink. intros id r' Hr'.
  specialize (Hsim id). rewrite Hr' in Hsim.
  inversion Hsim as [r ? Hrr' Hr |]; subst. exists r.
  apply sheet_sim_fields in Hrr' as (? & ? & _). done.
Qed.

Lemma sheets_unique_in_draft d user week_start week_end h :
  find_timesheet d user week_start = None → sheets_unique d →
  sheets_unique_in
    (<[new_id (timesheets d) := new_draft clock user week_start week_end h]>
       (timesheets d)).
Proof.
  intros Hnone Hd i j si sj.
  pose proof (find_timesheet_None _ _ _ Hnone) as Hfree.
  set (new := new_id (timesheets d)).
  destruct (decide (i = new)) as [->|Hi], (decide (j = new)) as [->|Hj];
    [done | | | ].
  - rewrite lookup_insert_eq, lookup_insert_ne by done.
    intros [= <-] Hsj Hu Hw. simpl in *. by destruct (Hfree j sj Hsj).
  - rewrite lookup_insert_eq, lookup_insert_ne by done.
    intros Hsi [= <-] Hu Hw. simpl in *. by destruct (Hfree i si Hsi).
  - rewrite !lookup_insert_ne by done. apply Hd.
Qed.

Lemma sheets_unique_effect d d' :
  effect d d' → sheets_unique d → sheets_unique d'.
Proof.
  destruct 1; unfold sheets_unique; simpl; try done.
  - by apply sheets_unique_totals.
  - by apply sheets_unique_in_draft.
Qed.

Lemma sheets_unique_effects d d' :
  rtc effect d d' → sheets_unique d → sheets_unique d'.
Proof. induction 1; eauto using sheets_unique_effect. Qed.

Lemma sheets_unique_transition d d' :
  transition d d' → sheets_unique d → sheets_unique d'.
Proof.
  destruct 1; unfold sheets_unique; simpl;
    by eapply sheets_unique_in_replace.
Qed.

Lemma sheets_unique_step d o d' evs :
  sheets_unique d → step clock d o = Ok (d', evs) → sheets_unique d'.
Proof.
  intros Hd H%step_effects. destruct (is_workflow o).
  - by eapply sheets_unique_transition.
  - by eapply sheets_unique_effects.
Qed.

(** ** The approval state machine *)

Lemma status_kept_refl d : status_kept d d.
Proof. intros id s Hs. by exists s. Qed.

Lemma status_kept_trans d1 d2 d3 :
  status_kept d1 d2 → status_kept d2 d3 → status_kept d1 d3.
Proof.
  intros H12 H23 id s Hs.
  destruct (H12 id s Hs) as (s2 & Hs2 & Heq2).
  destruct (H23 id s2 Hs2) as (s3 & Hs3 & Heq3).
  exists s3. split; [done | congruence].
Qed.

Lemma status_kept_effect d d' : effect d d' → status_kept d d'.
Proof.
  destruct 1; try (intros id0 s0 Hs0; exists s0; by split).
  - match goal with Htot : totals_only _ _ |- _ =>
      destruct Htot as (_ & _ & Hsim) end.
    intros id s Hs.
    specialize (Hsim id). rewrite Hs in Hsim.
    inversion Hsim as [? s' Hss' |]; subst. exists s'.
    apply sheet_sim_fields in Hss' as (_ & _ & ?). done.
  - intros id s Hs. exists s. split; [|done]. simpl.
    rewrite lookup_insert_ne; [done|].
    intros <-. by rewrite new_id_fresh in Hs.
Qed.

Lemma status_kept_effects d d' : rtc effect d d' → status_kept d d'.
Proof.
  induction 1 as [|d1 d2 d3 H12 _ IH]; [apply status_kept_refl|].
  eapply status_kept_trans; [by apply status_kept_effect | done].
Qed.

Lemma status_moved_replace d id s s' :
  timesheets d !! id = Some s →
  status_edge (sh_status s) (sh_status s') →
  status_moved d (set_timesheets d (<[id := s']> (timesheets d))).
Proof.
  intros Hs Hedge id0 s0 Hs0. simpl.
  destruct (decide (id0 = id)) as [->|Hne].
  - rewrite lookup_insert_eq. exists s'. split; [done|]. right. congruence.
  - rewrite lookup_insert_ne by done. exists s0. auto.
Qed.

Lemma status_moved_transition d d' : transition d d' → status_moved d d'.
Proof.
  destruct 1 as [d t s now Hs Hst | d t s reviewer dec comment now Hs Hst
                 | d t s Hs Hst];
    (eapply status_moved_replace; [done|]); rewrite Hst; simpl.
  - constructor.
  - destruct dec; constructor.
  - constructor.
Qed.

Lemma status_moved_step d o d' evs :
  step clock d o = Ok (d', evs) → status_moved d d'.
Proof.
  intros H%step_effects. destruct (is_workflow o).
  - by apply status_moved_transition.
  - intros id s Hs.
    destruct (status_kept_effects _ _ H id s Hs) as (s' & ? & ?).
    exists s'. auto.
Qed.

(** A move out of a status other than the one the operation requires is
    a conflict. *)
Lemma review_conflict d timesheet s reviewer dec comment now :
  timesheets d !! timesheet = Some s → sh_status s ≠ "submitted" →
  review d timesheet reviewer dec comment now = Err ConflictError.
Proof.
  intros Hs Hst. unfold review. rewrite Hs.
  by rewrite bool_decide_eq_false_2.
Qed.

Lemma submit_conflict d timesheet s now :
  timesheets d !! timesheet = Some s → sh_status s ≠ "draft" →
  submit d timesheet now = Err ConflictError.
Proof.
  intros Hs Hst. unfold submit. rewrite Hs.
  by rewrite bool_decide_eq_false_2.
Qed.

Lemma reopen_conflict d timesheet s :
  timesheets d !! timesheet = Some s → sh_status s ≠ "denied" →
  reopen d timesheet = Err ConflictError.
Proof.
  intros Hs Hst. unfold reopen. rewrite Hs.
  by rewrite bool_decide_eq_false_2.
Qed.

End Steps.

End CoreFacts.

(** * Properties of the login form *)

Module LoginFacts.
Import LoginPage LoginProps.

Lemma handleSubmit_calls e pw r :
  calls (handleSubmit e pw) r =
    ([preventDefault; setLoading true; login e pw; setLoading false]
     ++ (if success r
         then [toast_success "Login successful!"; navigate "/dashboard"]
         else [toast_error (error r)]))%list.
Proof. simpl. by destruct (success r). Qed.

Lemma page_ok_initial : page_ok initial.
Proof. by left. Qed.

Lemma page_ok_handle st ev st' :
  page_ok st → handle st ev = Some st' → page_ok st'.
Proof.
  intros Hst. destruct ev as [v|v| |i r|i]; simpl.
  - intros [= <-]. exact Hst.
  - intros [= <-]. exact Hst.
  - unfold submit_disabled. destruct (loading st) eqn:Hl; [done|].
    intros [= <-]. right. simpl.
    destruct Hst as [->|[_ ?]]; [done | congruence].
  - destruct Hst as [Hnil|[Hone Hl]].
    + by rewrite Hnil.
    + rewrite Hone. destruct i as [|i]; [|done]. simpl. intros [= <-].
      left. destruct (success r); simpl; by rewrite Hone.
  - destruct Hst as [Hnil|[Hone Hl]].
    + by rewrite Hnil.
    + rewrite Hone. destruct i as [|i]; [|done]. simpl. intros [= <-].
      left. simpl. by rewrite Hone.
Qed.

Lemma page_ok_reachable evs st st' :
  page_ok st → handle_all st evs = Some st' → page_ok st'.
Proof.
  revert st. induction evs as [|ev evs IH]; simpl; intros st Hst.
  - by intros [= <-].
  - destruct (handle st ev) as [st1|] eqn:Hev; [|done].
    apply IH. by eapply page_ok_handle.
Qed.

End LoginFacts.

(** * The claims *)

Module Claims.
Import Schema Core Samples SchemaProps CoreProps SchemaFacts CoreFacts.

(** C9. [users.email] is a unique key: in every database the statements
    of the store can build, two user rows with the same email are the
    same row, and an INSERT of a user whose email some row already
    carries fails. *)
Theorem users_email_unique d :
  reachable d →
  emails_unique d
  ∧ ∀ id r id' r',
      users d !! id' = Some r' → u_email r' = u_email r →
      ∃ e, exec d (INSERT_users id r) = Err e.
Proof.
  intros Hd. split; [by apply emails_unique_reachable|].
  intros id r id' r' Hr'. apply (insert_user_email_taken d id r id' r' Hr').
  pose proof (StoreProps.sizes_users d (StoreFacts.sizes_ok_reachable d Hd))
    as Hsizes.
  by destruct (Hsizes id' r' Hr').
Qed.

Lemma users_email_unique_witness :
  emails_unique seeded
  ∧ ∀ id r id' r',
      users seeded !! id' = Some r' → u_email r' = u_email r →
      ∃ e, exec seeded (INSERT_users id r) = Err e.
Proof.
  apply (users_email_unique seeded).
  apply (exec_all_reachable (schema_script admin_id employee_id 0) empty_db);
    [constructor | by vm_compute].
Defined.

(** C8. The enumerated columns hold only their listed values: in every
    database the statements of the store can build, each user has role
    admin or employee and status active or inactive, each time entry has
    entry_type timer or manual, each timesheet has status draft,
    submitted, approved or denied, and each notification has type
    timesheet_submitted, timesheet_approved or timesheet_denied; and
    whatever statement succeeds next leaves it so. *)
Theorem enumerated_columns d :
  reachable d →
  enums_ok d ∧ ∀ s d', exec d s = Ok d' → enums_ok d'.
Proof.
  intros Hd. split; [by apply enums_ok_reachable|].
  intros s d' H. by eapply enums_ok_exec; [apply enums_ok_reachable|].
Qed.

Lemma enumerated_columns_witness :
  enums_ok provisioned ∧ ∀ s d', exec provisioned s = Ok d' → enums_ok d'.
Proof.
  apply (enumerated_columns provisioned).
  apply (exec_all_reachable provisioning seeded); [|by vm_compute].
  apply (exec_all_reachable (schema_script admin_id employee_id 0) empty_db);
    [constructor | by vm_compute].
Defined.

(** A value outside the lists is refused, on INSERT as on UPDATE. *)
Example role_outside_list_refused :
  exec seeded
    (INSERT_users 3%N
       {| u_email := "m@omnigratum.com"; u_name := "M"; u_password := "x";
          u_role := "manager"; u_status := "active";
          u_default_project := None; u_default_task := None;
          u_created_at := 0 |})
  = Err (check_violation "users_role_check")
  ∧ exec with_submission
      (UPDATE_timesheets 30%N
         {| sh_user_id := employee_id; sh_week_start := 0; sh_week_end := 6;
            sh_total_hours := 150; sh_status := "rejected";
            sh_submitted_at := Some 100; sh_reviewed_at := None;
            sh_reviewed_by := None; sh_admin_comment := None;
            sh_created_at := 0 |})
    = Err (check_violation "timesheets_status_check").
Proof. by vm_compute. Qed.

(** C7. [notifications.related_timesheet_id] is a weak reference:
    deleting a timesheet that exists succeeds, removes no notification,
    and leaves every notification as it was except that a
    [related_timesheet_id] pointing to the deleted timesheet becomes
    NULL. *)
Theorem related_timesheet_weak_reference d t :
  is_Some (timesheets d !! t) →
  ∃ d', exec d (DELETE_timesheets t) = Ok d'
    ∧ timesheets d' !! t = None
    ∧ dom (notifications d') = dom (notifications d)
    ∧ ∀ id n, notifications d !! id = Some n →
        ∃ n', notifications d' !! id = Some n'
          ∧ same_but_related n n'
          ∧ n_related_timesheet_id n' =
              if decide (n_related_timesheet_id n = Some t) then None
              else n_related_timesheet_id n.
Proof.
  intros Ht. eexists. split; [by apply delete_timesheet_Ok|]. simpl.
  split; [apply lookup_delete_eq|]. split; [apply dom_fmap_L|].
  intros id n Hn. eexists. rewrite lookup_fmap, Hn. split; [done|].
  destruct (related_timesheet_set_null_spec
              (λ t', bool_decide (t' = t)) n) as [Hsame ->].
  split; [done|].
  destruct (n_related_timesheet_id n) as [t'|]; [|done].
  case_bool_decide; case_decide; congruence.
Qed.

Lemma related_timesheet_weak_reference_witness :
  ∃ d', exec with_submission (DELETE_timesheets 30%N) = Ok d'
    ∧ timesheets d' !! 30%N = None
    ∧ dom (notifications d') = dom (notifications with_submission)
    ∧ ∀ id n, notifications with_submission !! id = Some n →
        ∃ n', notifications d' !! id = Some n'
          ∧ same_but_related n n'
          ∧ n_related_timesheet_id n' =
              if decide (n_related_timesheet_id n = Some 30%N) then None
              else n_related_timesheet_id n.
Proof.
  apply (related_timesheet_weak_reference with_submission 30%N).
  exists submitted_sheet. by vm_compute.
Defined.

(** C6. Deleting a project cascades to its tasks and is restricted by
    the rows that reference it: while a time entry references the project
    the delete fails with a foreign-key violation; whenever the delete
    succeeds the project is gone together with every task that belonged
    to it, and the tasks of other projects are as they were; and the
    delete does succeed, with that cascade, when no time entry and no
    timer session references the project or one of its tasks. *)
Theorem delete_project_cascade_restrict d p :
  is_Some (projects d !! p) →
  (∀ id e, time_entries d !! id = Some e → te_project_id e = p →
     exec d (DELETE_projects p)
     = Err (foreign_key_violation "time_entries_project_id_fkey"))
  ∧ (∀ d', exec d (DELETE_projects p) = Ok d' →
       projects d' !! p = None
       ∧ owned_rows_removed k_project_id p (tasks d) (tasks d')
       ∧ ∀ id e, time_entries d !! id = Some e → te_project_id e ≠ p)
  ∧ ((∀ id e, time_entries d !! id = Some e →
        te_project_id e ≠ p
        ∧ ∀ k, tasks d !! te_task_id e = Some k → k_project_id k ≠ p) →
     (∀ id s, timer_sessions d !! id = Some s →
        ts_project_id s ≠ p
        ∧ ∀ k, tasks d !! ts_task_id s = Some k → k_project_id k ≠ p) →
     ∃ d', exec d (DELETE_projects p) = Ok d'
       ∧ projects d' !! p = None
       ∧ owned_rows_removed k_project_id p (tasks d) (tasks d')).
Proof.
  intros Hp. split; [|split].
  - intros id e. by apply delete_project_blocked.
  - intros d' H. apply delete_project_Ok in H as (-> & Hfree); [|done].
    simpl. split; [apply lookup_delete_eq|].
    split; [apply owned_rows_removed_filter | done].
  - intros Hte Hts. eexists. split.
    + simpl. apply StoreFacts.delete_project_passes; [done| |].
      * intros i e He. destruct (Hte i e He). split; [done|].
        by apply StoreFacts.task_of_project_spec.
      * intros i s Hs. destruct (Hts i s Hs). split; [done|].
        by apply StoreFacts.task_of_project_spec.
    + simpl. split; [apply lookup_delete_eq|].
      apply owned_rows_removed_filter.
Qed.

Lemma delete_project_cascade_restrict_witness :
  exec with_entry (DELETE_projects 10%N)
  = Err (foreign_key_violation "time_entries_project_id_fkey")
  ∧ ∃ d', exec provisioned (DELETE_projects 10%N) = Ok d'
      ∧ projects d' !! 10%N = None
      ∧ owned_rows_removed k_project_id 10%N (tasks provisioned) (tasks d').
Proof.
  split.
  - destruct (delete_project_cascade_restrict with_entry 10%N)
      as (Hrefused & _ & _).
    + exists sample_project. vm_compute. reflexivity.
    + apply (Hrefused 50%N logged_entry); vm_compute; reflexivity.
  - destruct (delete_project_cascade_restrict provisioned 10%N)
      as (_ & _ & Hpasses).
    + exists sample_project. vm_compute. reflexivity.
    + apply Hpasses; intros i e He; vm_compute in He; discriminate He.
Defined.

(** Both outcomes happen: with the entry logged the delete is refused,
    without it the project goes and takes its task along. *)
Example delete_project_outcomes :
  exec with_entry (DELETE_projects 10%N)
  = Err (foreign_key_violation "time_entries_project_id_fkey")
  ∧ ∃ d', exec provisioned (DELETE_projects 10%N) = Ok d'
      ∧ tasks provisioned !! 20%N = Some sample_task
      ∧ tasks d' !! 20%N = None.
Proof. split; [by vm_compute|]. eexists. by vm_compute. Qed.

(** C5, as amended. Deleting a user that exists, when it succeeds,
    removes the user row and all of that user's time entries, timer
    sessions, timesheets and notifications; projects and tasks and the
    time entries, timer sessions and timesheets of other users are as
    they were; a notification of another user is as it was except that
    its [related_timesheet_id] is NULL when it pointed to a timesheet of
    the deleted user. The delete succeeds only if no project names the
    user as [created_by] and no timesheet of another user names them as
    [reviewed_by]. *)
Theorem delete_user_cascade d u d' :
  is_Some (users d !! u) → exec d (DELETE_users u) = Ok d' →
  users d' !! u = None
  ∧ (∀ id, id ≠ u → users d' !! id = users d !! id)
  ∧ projects d' = projects d ∧ tasks d' = tasks d
  ∧ owned_rows_removed te_user_id u (time_entries d) (time_entries d')
  ∧ owned_rows_removed ts_user_id u (timer_sessions d) (timer_sessions d')
  ∧ owned_rows_removed sh_user_id u (timesheets d) (timesheets d')
  ∧ (∀ id n', notifications d' !! id = Some n' →
       n_user_id n' ≠ u ∧ is_Some (notifications d !! id))
  ∧ (∀ id n, notifications d !! id = Some n → n_user_id n ≠ u →
       ∃ n', notifications d' !! id = Some n'
         ∧ same_but_related n n'
         ∧ n_related_timesheet_id n' =
             match n_related_timesheet_id n with
             | Some t => if timesheet_of_user d u t then None else Some t
             | None => None
             end)
  ∧ (∀ id p, projects d !! id = Some p → p_created_by p ≠ u)
  ∧ (∀ id s, timesheets d !! id = Some s → sh_user_id s ≠ u →
       sh_reviewed_by s ≠ Some u).
Proof.
  intros Hu H. apply delete_user_Ok in H as (-> & Hproj & Hrev); [|done].
  simpl. split; [apply lookup_delete_eq|].
  split; [by intros id Hne; apply lookup_delete_ne|].
  do 2 (split; [done|]).
  do 3 (split; [apply owned_rows_removed_filter|]).
  split; [|split; [|done]].
  - intros id n' (n & <- & [Hn Hne]%map_lookup_filter_Some)%lookup_fmap_Some.
    destruct (related_timesheet_set_null_spec (timesheet_of_user d u) n)
      as [(-> & _) _]. eauto.
  - intros id n Hn Hne. eexists. rewrite lookup_fmap.
    rewrite (proj2 (map_lookup_filter_Some _ _ id n)) by done.
    split; [done|]. apply related_timesheet_set_null_spec.
Qed.

Lemma delete_user_cascade_witness :
  ∃ d', exec with_submission (DELETE_users employee_id) = Ok d'
    ∧ users d' !! employee_id = None
    ∧ owned_rows_removed sh_user_id employee_id
        (timesheets with_submission) (timesheets d').
Proof.
  eexists. split; [by vm_compute|].
  destruct (delete_user_cascade with_submission employee_id
              (from_ok (exec with_submission (DELETE_users employee_id))))
    as (Hgone & _ & _ & _ & _ & _ & Hsheets & _).
  - exists (default_employee 0). by vm_compute.
  - by vm_compute.
  - split; [exact Hgone | exact Hsheets].
Defined.

(** C5, as first stated, fails: deleting the employee changes a
    notification that belongs to the admin, because the timesheet it
    points to is deleted with the employee. *)
Lemma delete_user_changes_foreign_notification :
  ∃ d', exec with_submission (DELETE_users employee_id) = Ok d'
    ∧ notifications with_submission !! 40%N = Some admin_notice
    ∧ n_user_id admin_notice ≠ employee_id
    ∧ notifications d' !! 40%N ≠ Some admin_notice.
Proof.
  eexists. split; [by vm_compute|]. split; [by vm_compute|].
  split; [by vm_compute|]. by vm_compute.
Qed.

(** The delete of a user is refused while a project names them as
    creator. *)
Example delete_admin_refused :
  exec provisioned (DELETE_users admin_id)
  = Err (foreign_key_violation "projects_created_by_fkey").
Proof. by vm_compute. Qed.

(** C1, as first stated, fails: the store has no uniqueness constraint
    on the active sessions of a user. Two starts that both found no
    active session send two inserts, the store accepts both, and the
    user has two active sessions. *)
Lemma store_accepts_two_active_sessions :
  getActive provisioned employee_id = None
  ∧ exec_all provisioned racing_inserts = Ok two_active
  ∧ timer_sessions two_active !! 5%N = Some running_session
  ∧ timer_sessions two_active !! 6%N = Some running_session
  ∧ ts_user_id running_session = employee_id
  ∧ ts_is_active running_session = true
  ∧ ¬ one_active two_active.
Proof.
  do 6 (split; [by vm_compute|]).
  intros Hone.
  assert (5%N = 6%N) as Heq; [|done].
  by apply (Hone 5%N 6%N running_session running_session); vm_compute.
Qed.

Lemma active_session_blocks_start d user project task now sid s :
  timer_sessions d !! sid = Some s → ts_user_id s = user →
  ts_is_active s = true →
  start d user project task now = Err ConflictError.
Proof.
  intros Hs Hu Hact. unfold start.
  destruct (getActive d user) eqn:Hget; [done|].
  pose proof (getActive_None _ _ Hget sid s Hs Hu). congruence.
Qed.

(** C1, as amended. When every operation of the engine runs as one
    atomic step, a run keeps at most one active session per user, and
    [start] answers ConflictError while its user has an active session.
    The store does not enforce this: the only uniqueness on
    [timer_sessions] is the primary key, so an INSERT with a new key and
    existing user, project and task is accepted whatever sessions are
    active. *)
Theorem one_active_session_per_user clock :
  (∀ d ops d' evs,
     one_active d → run clock d ops = Ok (d', evs) → one_active d')
  ∧ (∀ d user project task now sid s,
       timer_sessions d !! sid = Some s → ts_user_id s = user →
       ts_is_active s = true →
       step clock d (Start user project task now) = Err ConflictError)
  ∧ (∀ d id r,
       timer_sessions d !! id = None →
       is_Some (users d !! ts_user_id r) →
       is_Some (projects d !! ts_project_id r) →
       is_Some (tasks d !! ts_task_id r) →
       exec d (INSERT_timer_sessions id r)
       = Ok (set_timer_sessions d (<[id := r]> (timer_sessions d)))).
Proof.
  split; [|split].
  - intros d ops. revert d.
    apply (run_preserves clock one_active), one_active_step.
  - intros d user project task now sid s Hs Hu Hact. simpl.
    by erewrite active_session_blocks_start.
  - intros d id r. apply insert_timer_session_accepts.
Qed.

Lemma one_active_session_per_user_witness :
  one_active (outcome (run 0 provisioned timer_ops)).1
  ∧ step 0 (outcome (run 0 provisioned timer_ops)).1
      (Start employee_id 10%N 20%N 60) = Err ConflictError.
Proof.
  destruct (one_active_session_per_user 0) as (Hrun & Hstart & _). split.
  - apply (Hrun provisioned timer_ops _
             (outcome (run 0 provisioned timer_ops)).2).
    + intros i j si sj Hi. vm_compute in Hi. discriminate Hi.
    + vm_compute. reflexivity.
  - apply (Hstart _ _ _ _ _ 1%N (new_session employee_id 10%N 20%N 50)).
    + vm_compute. reflexivity.
    + reflexivity.
    + reflexivity.
Defined.

(** C2. Every time entry the engine persists is closed: its end_time is
    not NULL and not before its start_time, and its duration is end_time
    minus start_time, so never negative. This holds after any run from a
    database where it holds. The entry written for a session, by [stop]
    or by the reaper, is computed from the session and the end alone:
    no duration is passed in. *)
Theorem time_entries_closed clock d :
  entries_ok d →
  (∀ ops d' evs, run clock d ops = Ok (d', evs) → entries_ok d')
  ∧ (∀ user now d' evs,
       step clock d (Stop user now) = Ok (d', evs) →
       ∃ sid s, getActive d user = Some (sid, s)
         ∧ time_entries d' =
             <[new_id (time_entries d) :=
                 timer_entry clock s (clamp_end s now)]> (time_entries d))
  ∧ (∀ sid now th d' evs,
       step clock d (ReapSession sid now th) = Ok (d', evs) →
       d' = d
       ∨ ∃ s, timer_sessions d !! sid = Some s
           ∧ time_entries d' =
               <[new_id (time_entries d) :=
                   timer_entry clock s (clamp_end s (ts_last_heartbeat s))]>
                 (time_entries d)).
Proof.
  intros Hd. split; [|split].
  - intros ops d' evs. revert Hd.
    apply (run_preserves clock entries_ok), entries_ok_step.
  - intros user now d' evs [H _]%quiet_Ok.
    apply stop_Ok in H as (sid & s & Hget & ->). by exists sid, s.
  - intros sid now th d' evs [H _]%quiet_Ok.
    apply reap_session_Ok in H as [->|(s & Hs & _ & ->)]; [by left|].
    right. by exists s.
Qed.

Lemma time_entries_closed_witness :
  entries_ok (outcome (run 0 provisioned timer_ops)).1
  ∧ time_entries (outcome (run 0 provisioned timer_ops)).1 !! 0%N
    = Some {| te_user_id := employee_id; te_project_id := 10%N;
              te_task_id := 20%N; te_start_time := 10;
              te_end_time := Some 40; te_duration := 30;
              te_entry_type := "timer"; te_date := 0; te_notes := None;
              te_created_at := 0 |}.
Proof.
  split; [|vm_compute; reflexivity].
  destruct (time_entries_closed 0 provisioned) as (Hrun & _ & _).
  - intros i e Hi. vm_compute in Hi. discriminate Hi.
  - apply (Hrun timer_ops _ (outcome (run 0 provisioned timer_ops)).2).
    vm_compute. reflexivity.
Defined.

(** The store by itself would take an entry that is still open; it is
    the engine that never writes one. *)
Example store_accepts_open_entry :
  is_ok (exec provisioned
           (INSERT_time_entries 51%N
              {| te_user_id := employee_id; te_project_id := 10%N;
                 te_task_id := 20%N; te_start_time := 10;
                 te_end_time := None; te_duration := -5;
                 te_entry_type := "manual"; te_date := 0; te_notes := None;
                 te_created_at := 0 |})) = true.
Proof. vm_compute. reflexivity. Qed.

(** Clock skew and reaping: a stop before the start gives a zero-length
    entry, and a reaped session ends at its last heartbeat. *)
Example clamped_and_reaped :
  (∃ d1 d2 evs1 evs2,
     step 0 provisioned (Start employee_id 10%N 20%N 100) = Ok (d1, evs1)
     ∧ step 0 d1 (Stop employee_id 90) = Ok (d2, evs2)
     ∧ te_end_time <$> time_entries d2 !! 0%N = Some (Some 100)
     ∧ te_duration <$> time_entries d2 !! 0%N = Some 0)
  ∧ (∃ d1 d2 d3 evs1 evs2 evs3,
       step 0 provisioned (Start employee_id 10%N 20%N 100) = Ok (d1, evs1)
       ∧ step 0 d1 (Heartbeat employee_id 1000) = Ok (d2, evs2)
       ∧ step 0 d2 (ReaperPass 1301 300) = Ok (d3, evs3)
       ∧ te_end_time <$> time_entries d3 !! 0%N = Some (Some 1000)
       ∧ te_duration <$> time_entries d3 !! 0%N = Some 900
       ∧ getActive d3 employee_id = None).
Proof.
  split.
  - eexists _, _, _, _. split; [vm_compute; reflexivity|].
    split; [vm_compute; reflexivity|]. split; vm_compute; reflexivity.
  - eexists _, _, _, _, _, _. split; [vm_compute; reflexivity|].
    split; [vm_compute; reflexivity|]. split; [vm_compute; reflexivity|].
    repeat split; vm_compute; reflexivity.
Qed.

(** C3. At most one timesheet exists per (user, week_start), and any run
    of operations of the engine from a database where this holds ends in
    one where it holds. *)
Theorem one_timesheet_per_week clock d ops d' evs :
  sheets_unique d → run clock d ops = Ok (d', evs) → sheets_unique d'.
Proof.
  revert d d' evs.
  apply (run_preserves clock sheets_unique), sheets_unique_step.
Qed.

Lemma one_timesheet_per_week_witness :
  sheets_unique
    (outcome (run 0 provisioned (scenario ++ [EnsureDraft employee_id 0]))).1
  ∧ size (timesheets
            (outcome (run 0 provisioned
                        (scenario ++ [EnsureDraft employee_id 0]))).1) = 1%nat.
Proof.
  split; [|vm_compute; reflexivity].
  apply (one_timesheet_per_week 0 provisioned
           (scenario ++ [EnsureDraft employee_id 0]) _
           (outcome (run 0 provisioned
                       (scenario ++ [EnsureDraft employee_id 0]))).2).
  - intros i j si sj Hi. vm_compute in Hi. discriminate Hi.
  - vm_compute. reflexivity.
Defined.

(** The store by itself would take a second timesheet for the same
    user and week; it is [ensureDraft] that looks before it creates. *)
Example store_accepts_second_timesheet :
  is_ok (exec with_submission (INSERT_timesheets 31%N submitted_sheet))
  = true.
Proof. vm_compute. reflexivity. Qed.

(** C4. The status of a timesheet moves only along
    draft -> submitted -> approved | denied and denied -> draft: an
    operation that succeeds leaves each timesheet with the status it had
    or with the target of one of these edges. A review of a timesheet
    that is not submitted fails with ConflictError, and submit, review
    and reopen all fail with ConflictError on an approved one. *)
Theorem approval_state_machine clock d t s :
  timesheets d !! t = Some s →
  (sh_status s ≠ "submitted" →
   ∀ reviewer dec comment now,
     step clock d (Review t reviewer dec comment now) = Err ConflictError)
  ∧ (sh_status s = "approved" →
     (∀ now, step clock d (Submit t now) = Err ConflictError)
     ∧ (∀ reviewer dec comment now,
          step clock d (Review t reviewer dec comment now)
          = Err ConflictError)
     ∧ step clock d (Reopen t) = Err ConflictError)
  ∧ (∀ o d' evs,
       step clock d o = Ok (d', evs) →
       ∃ s', timesheets d' !! t = Some s'
         ∧ (sh_status s' = sh_status s
            ∨ status_edge (sh_status s) (sh_status s'))).
Proof.
  intros Hs. split; [|split].
  - intros Hst reviewer dec comment now. simpl. by eapply review_conflict.
  - intros Hst. simpl. split; [|split].
    + intros now. eapply submit_conflict; [done|]. by rewrite Hst.
    + intros reviewer dec comment now.
      eapply review_conflict; [done|]. by rewrite Hst.
    + eapply reopen_conflict; [done|]. by rewrite Hst.
  - intros o d' evs H. by apply (status_moved_step clock d o d' evs H t s).
Qed.

(** The scenario of the workflow takes every edge but the approving one,
    and a review right after the reopen is a conflict. *)
Example workflow_scenario :
  status_after (take 3 scenario) = Some "draft"
  ∧ sh_total_hours <$>
      timesheets (outcome (run 0 provisioned (take 3 scenario))).1 !! 0%N
    = Some 150
  ∧ status_after (take 4 scenario) = Some "submitted"
  ∧ (outcome (run 0 provisioned (take 4 scenario))).2
    = [ {| ev_recipient := to_admins; ev_type := "timesheet_submitted";
           ev_related_timesheet := 0%N |} ]
  ∧ status_after (take 5 scenario) = Some "denied"
  ∧ status_after scenario = Some "draft"
  ∧ step 0 (outcome (run 0 provisioned scenario)).1
      (Review 0%N admin_id approve None 300) = Err ConflictError
  ∧ status_after
      (take 4 scenario ++ [Review 0%N admin_id approve None 300])
    = Some "approved"
  ∧ step 0 (outcome (run 0 provisioned (take 4 scenario))).1
      (Review 0%N admin_id deny None 300) = Err ValidationError.
Proof. repeat split; vm_compute; reflexivity. Qed.

Lemma approval_state_machine_witness :
  step 0 (outcome (run 0 provisioned scenario)).1
    (Review 0%N admin_id approve None 300) = Err ConflictError.
Proof.
  destruct (approval_state_machine 0
              (outcome (run 0 provisioned scenario)).1 0%N
              (reopened
                 (reviewed (submitted
                    (new_draft 0 employee_id 0 6 150) 100)
                    admin_id deny (Some "fix dates") 200)))
    as (Hreview & _).
  - vm_compute. reflexivity.
  - apply Hreview. vm_compute. discriminate.
Defined.

End Claims.

Module LoginClaims.
Import LoginPage LoginSamples LoginProps LoginFacts.

Ltac elem_cases H :=
  repeat (apply elem_of_cons in H as [H|H]; [by simplify_eq|]);
  by apply elem_of_nil in H.

(** C10. On every page the events can lead to: at most one [login] is in
    flight; while one is in flight the submit button is disabled and a
    submit starts nothing; when the button is enabled, a submit calls
    [login] once, with the email and password entered at that moment,
    and disables the button; when that [login] resolves, the calls of the
    whole submission are those of [handleSubmit], among which there is
    exactly one [login], and a [navigate], always to /dashboard, exactly
    when the result's [success] is true. *)
Theorem login_form_submission evs st :
  handle_all initial evs = Some st →
  (length (in_flight st) ≤ 1)%nat
  ∧ (in_flight st ≠ [] →
       submit_disabled st = true ∧ handle st onSubmit = None)
  ∧ (submit_disabled st = false →
       ∃ st1, handle st onSubmit = Some st1
         ∧ log st1 = (log st ++ [preventDefault; setLoading true;
                                 login (email st) (password st)])%list
         ∧ length (in_flight st1) = 1%nat
         ∧ submit_disabled st1 = true
         ∧ ∀ r, ∃ st2,
             handle st1 (login_resolves 0 r) = Some st2
             ∧ log st2 = (log st ++
                          calls (handleSubmit (email st) (password st)) r)%list
             ∧ in_flight st2 = []
             ∧ submit_disabled st2 = false)
  ∧ (∀ e pw r,
       List.filter is_login (calls (handleSubmit e pw) r) = [login e pw]
       ∧ (navigate "/dashboard" ∈ calls (handleSubmit e pw) r
          ↔ success r = true)
       ∧ (∀ path, navigate path ∈ calls (handleSubmit e pw) r →
            path = "/dashboard")).
Proof.
  intros Hst. apply (page_ok_reachable _ _ _ page_ok_initial) in Hst.
  split; [|split; [|split]].
  - destruct Hst as [->|[-> _]]; simpl; lia.
  - intros Hne. destruct Hst as [Hnil|[_ Hl]]; [done|].
    unfold handle, submit_disabled. by rewrite Hl.
  - unfold submit_disabled. intros Hl.
    destruct Hst as [Hnil|[_ Hl']]; [|congruence].
    eexists. split; [by unfold handle, submit_disabled; rewrite Hl|].
    simpl. split; [by rewrite <- !app_assoc|].
    rewrite Hnil. do 2 (split; [done|]).
    intros [[] err]; (eexists; split; [done|]); simpl;
      by rewrite <- !app_assoc.
  - intros e pw r. rewrite handleSubmit_calls.
    destruct (success r); simpl; (split; [done|]); split.
    + split; [done|]. intros _. do 5 right. left.
    + intros path Hin. by elem_cases Hin.
    + split; [|done]. intros Hin. by elem_cases Hin.
    + intros path Hin. by elem_cases Hin.
Qed.

Lemma login_form_submission_witness :
  handle_all initial (take 3 failed_login ++ [onSubmit]) = None
  ∧ ∃ st, handle_all initial failed_login = Some st
      ∧ log st = [preventDefault; setLoading true;
                  login "admin@omnigratum.com" "wrong";
                  setLoading false; toast_error "Invalid credentials"]
      ∧ (length (in_flight st) ≤ 1)%nat.
Proof.
  split; [reflexivity|]. eexists. split; [reflexivity|].
  split; [reflexivity|].
  apply (login_form_submission failed_login). reflexivity.
Defined.

End LoginClaims.

(** * More about the store *)

Module StoreExtras.
Import Schema Samples StoreSamples SchemaProps StoreProps SchemaFacts
  StoreFacts.

Lemma counts_insert {A} (m : gmap uuid A) id r :
  negb (has_key m id) = true → size (<[id := r]> m) = S (size m).
Proof.
  intros Hid%negb_true_iff%has_key_false. by apply map_size_insert_None.
Qed.

(** X9. An INSERT that succeeds adds exactly one row and removes none, an
    UPDATE that succeeds leaves the number of rows of every table as it
    was, and a DELETE never adds a row to any table. *)
Theorem row_counts_by_kind d s d' :
  exec d s = Ok d' →
  (is_insert s = true →
     sum_list (row_counts d') = S (sum_list (row_counts d))
     ∧ Forall2 le (row_counts d) (row_counts d'))
  ∧ (is_update s = true → row_counts d' = row_counts d)
  ∧ (is_delete s = true → Forall2 ge (row_counts d) (row_counts d')).
Proof.
  intros H. unfold row_counts.
  destruct s; (split; [|split]); try done; intros _; exec_cases H;
    rewrite ?counts_insert by done;
    rewrite ?size_update by (by apply has_key_true);
    rewrite ?map_size_fmap;
    try done; try (split; [lia|]);
    repeat match goal with
           | |- Forall2 _ (_ :: _) (_ :: _) => constructor
           | |- Forall2 _ [] [] => constructor
           end;
    unfold ge; try lia;
    try apply size_filter_le; try apply size_delete_le.
Qed.

Lemma row_counts_by_kind_witness :
  row_counts with_submission = [2; 1; 1; 0; 0; 1; 1]%nat
  ∧ Forall2 ge (row_counts with_submission)
      (row_counts (from_ok (exec with_submission (DELETE_users employee_id)))).
Proof.
  split; [vm_compute; reflexivity|].
  apply (row_counts_by_kind with_submission (DELETE_users employee_id));
    [vm_compute; reflexivity | reflexivity].
Defined.

(** X1. Referential integrity holds in every database the statements of
    the store can build: each project's creator, each task's project,
    each time entry's and timer session's user, project and task, each
    timesheet's user and reviewer, each notification's user and related
    timesheet exists (reviewer and related timesheet may be NULL). *)
Theorem referential_integrity d : reachable d → ref_integrity d.
Proof. apply ref_integrity_reachable. Qed.

Lemma referential_integrity_witness :
  ref_integrity with_submission
  ∧ ref_integrity
      (from_ok (exec with_submission (DELETE_users employee_id))).
Proof.
  split.
  - apply (referential_integrity with_submission).
    apply (exec_all_reachable full_script empty_db);
      [constructor | vm_compute; reflexivity].
  - apply (referential_integrity
             (from_ok (exec with_submission (DELETE_users employee_id)))).
    apply (exec_all_reachable (full_script ++ [DELETE_users employee_id])
             empty_db); [constructor | vm_compute; reflexivity].
Defined.

(** X2. Every stored value fits its column: in every database the
    statements can build, each VARCHAR(n) value has at most [n]
    characters (what an INSERT or UPDATE stores is the value after the
    cut of its surplus spaces), [duration] is a 32-bit integer and
    [total_hours] has at most eight digits before the point. *)
Theorem column_sizes d : reachable d → sizes_ok d.
Proof. apply sizes_ok_reachable. Qed.

Lemma column_sizes_witness :
  exec seeded (INSERT_users 3%N wide_user)
  = Ok (set_users seeded (<[3%N := wide_user_stored]> (users seeded)))
  ∧ String.length (u_name wide_user_stored) = 510%nat
  ∧ sizes_ok (set_users seeded (<[3%N := wide_user_stored]> (users seeded))).
Proof.
  split; [vm_compute; reflexivity|]. split; [vm_compute; reflexivity|].
  apply (column_sizes
           (set_users seeded (<[3%N := wide_user_stored]> (users seeded)))).
  apply (exec_all_reachable
           (schema_script admin_id employee_id 0
              ++ [INSERT_users 3%N wide_user]) empty_db);
    [constructor | vm_compute; reflexivity].
Defined.

(** The cases of an assignment to a VARCHAR(3) column: a value that
    fits, in characters though not in bytes; surplus spaces, which are
    cut; a surplus that is not spaces, which is an error. *)
Example varchar_cases :
  varchar 3 "name" (accented 3) = Ok (accented 3)
  ∧ varchar 3 "name" "ab   " = Ok "ab "
  ∧ varchar 3 "name" "abcd" = Err (string_data_right_truncation "name")
  ∧ varchar 3 "name" (String.append (accented 3) "d")
    = Err (string_data_right_truncation "name").
Proof. by vm_compute. Qed.

(** X3. Writing a stored row back with an UPDATE always succeeds and
    changes nothing: the rows a database holds keep passing the
    constraints of their table (sizes, CHECKs, UNIQUE email, foreign
    keys) whatever statements ran since they were written. *)
Theorem stored_row_rewrites d s :
  reachable d → rewrite_of d s → exec d s = Ok d.
Proof. intros Hd. by apply rewrite_succeeds, consistent_reachable. Qed.

Lemma stored_row_rewrites_witness :
  exec with_submission (UPDATE_notifications 40%N admin_notice)
  = Ok with_submission.
Proof.
  apply (stored_row_rewrites with_submission
           (UPDATE_notifications 40%N admin_notice)).
  - apply (exec_all_reachable full_script empty_db);
      [constructor | vm_compute; reflexivity].
  - vm_compute. reflexivity.
Defined.

(** X4. An INSERT followed by the DELETE of the same key gives back the
    database the INSERT started from, for each of the seven tables: the
    cascades and SET NULL of the DELETE find nothing to touch, and its
    foreign-key checks nothing to object to. *)
Theorem insert_delete_round_trip d s s' d1 :
  reachable d → exec d s = Ok d1 → undo s = Some s' → exec d1 s' = Ok d.
Proof. intros Hd. by apply insert_then_delete, ref_integrity_reachable. Qed.

Lemma insert_delete_round_trip_witness :
  exec (from_ok (exec with_submission
                   (INSERT_users 3%N (default_admin_as "second@omnigratum.com"))))
    (DELETE_users 3%N)
  = Ok with_submission.
Proof.
  apply (insert_delete_round_trip with_submission
           (INSERT_users 3%N (default_admin_as "second@omnigratum.com"))).
  - apply (exec_all_reachable full_script empty_db);
      [constructor | vm_compute; reflexivity].
  - vm_compute. reflexivity.
  - reflexivity.
Defined.

(** X5. A DELETE run a second time succeeds and changes nothing: a
    missing row is never an error. *)
Theorem delete_is_idempotent d s d1 :
  is_delete s = true → exec d s = Ok d1 → exec d1 s = Ok d1.
Proof. apply delete_twice. Qed.

Lemma delete_is_idempotent_witness :
  exec (from_ok (exec with_submission (DELETE_users employee_id)))
    (DELETE_users employee_id)
  = Ok (from_ok (exec with_submission (DELETE_users employee_id))).
Proof.
  apply (delete_is_idempotent with_submission (DELETE_users employee_id));
    [reflexivity | vm_compute; reflexivity].
Defined.

(** X6. A task that exists can be deleted exactly when no time entry and
    no timer session references it; the delete then removes that one
    task row and leaves every other row of every table as it was. *)
Theorem delete_task_restricted d t :
  is_Some (tasks d !! t) →
  (is_ok (exec d (DELETE_tasks t)) = true ↔
     (∀ i e, time_entries d !! i = Some e → te_task_id e ≠ t)
     ∧ (∀ i s, timer_sessions d !! i = Some s → ts_task_id s ≠ t))
  ∧ ∀ d', exec d (DELETE_tasks t) = Ok d' →
      tasks d' !! t = None
      ∧ (∀ k, k ≠ t → tasks d' !! k = tasks d !! k)
      ∧ users d' = users d ∧ projects d' = projects d
      ∧ time_entries d' = time_entries d
      ∧ timer_sessions d' = timer_sessions d
      ∧ timesheets d' = timesheets d
      ∧ notifications d' = notifications d.
Proof.
  intros Ht. split; [split|].
  - simpl. destruct (delete_task d t) as [d'|] eqn:H; [|done]. intros _.
    by apply delete_task_checks in H as (_ & ? & ?).
  - intros [Hte Hts]. simpl. by rewrite delete_task_passes.
  - intros d' H. apply delete_task_checks in H as (-> & _); [|done].
    simpl. split; [apply lookup_delete_eq|].
    split; [by intros; apply lookup_delete_ne|done].
Qed.

Lemma delete_task_restricted_witness :
  is_ok (exec with_entry (DELETE_tasks 20%N)) = false
  ∧ is_ok (exec provisioned (DELETE_tasks 20%N)) = true.
Proof.
  split; [vm_compute; reflexivity|].
  apply (delete_task_restricted provisioned 20%N).
  - exists sample_task. vm_compute. reflexivity.
  - split; intros i e He; vm_compute in He; discriminate He.
Defined.

(** X7. A project that exists can be deleted exactly when no time entry
    and no timer session references it or one of its tasks; the delete
    then leaves the other projects and all users, time entries, timer
    sessions, timesheets and notifications as they were (so a user's
    [default_project], which is no foreign key, may be left dangling). *)
Theorem delete_project_restricted d p :
  is_Some (projects d !! p) →
  (is_ok (exec d (DELETE_projects p)) = true ↔
     (∀ i e, time_entries d !! i = Some e →
        te_project_id e ≠ p
        ∧ ∀ k, tasks d !! te_task_id e = Some k → k_project_id k ≠ p)
     ∧ (∀ i s, timer_sessions d !! i = Some s →
          ts_project_id s ≠ p
          ∧ ∀ k, tasks d !! ts_task_id s = Some k → k_project_id k ≠ p))
  ∧ ∀ d', exec d (DELETE_projects p) = Ok d' →
      (∀ k, k ≠ p → projects d' !! k = projects d !! k)
      ∧ users d' = users d
      ∧ time_entries d' = time_entries d
      ∧ timer_sessions d' = timer_sessions d
      ∧ timesheets d' = timesheets d
      ∧ notifications d' = notifications d.
Proof.
  intros Hp. split; [split|].
  - simpl. destruct (delete_project d p) as [d'|] eqn:H; [|done]. intros _.
    apply delete_project_checks in H as (_ & Hte & Hts); [|done].
    split; intros i e He.
    + destruct (Hte i e He) as [? Hk]. split; [done|].
      by apply task_of_project_spec.
    + destruct (Hts i e He) as [? Hk]. split; [done|].
      by apply task_of_project_spec.
  - intros [Hte Hts]. simpl. rewrite delete_project_passes; [done..| |].
    + intros i e He. destruct (Hte i e He). split; [done|].
      by apply task_of_project_spec.
    + intros i e He. destruct (Hts i e He). split; [done|].
      by apply task_of_project_spec.
  - intros d' H. apply delete_project_checks in H as (-> & _); [|done].
    simpl. split; [by intros; apply lookup_delete_ne|done].
Qed.

Lemma delete_project_restricted_witness :
  is_ok (exec provisioned (DELETE_projects 10%N)) = true.
Proof.
  apply (delete_project_restricted provisioned 10%N).
  - exists sample_project. vm_compute. reflexivity.
  - split; intros i e He; vm_compute in He; discriminate He.
Defined.

(** X8. A user that exists can be deleted exactly when no project names
    them as [created_by] and no timesheet of another user names them as
    [reviewed_by]. *)
Theorem delete_user_restricted d u :
  is_Some (users d !! u) →
  (is_ok (exec d (DELETE_users u)) = true ↔
     (∀ i p, projects d !! i = Some p → p_created_by p ≠ u)
     ∧ (∀ i s, timesheets d !! i = Some s → sh_user_id s ≠ u →
          sh_reviewed_by s ≠ Some u)).
Proof.
  intros Hu. split.
  - simpl. destruct (delete_user d u) as [d'|] eqn:H; [|done]. intros _.
    by apply delete_user_Ok in H as (_ & ? & ?).
  - intros [Hp Hs]. by apply delete_user_passes.
Qed.

Lemma delete_user_restricted_witness :
  is_ok (exec with_submission (DELETE_users employee_id)) = true.
Proof.
  apply (delete_user_restricted with_submission employee_id).
  - exists (default_employee 0). vm_compute. reflexivity.
  - split.
    + intros i p Hp.
      destruct (decide (i = 10%N)) as [->|Hne].
      * vm_compute in Hp. injection Hp as <-. vm_compute. discriminate.
      * assert (projects with_submission !! i = None) as Hnone.
        { change (projects with_submission)
            with (<[10%N := sample_project]> (∅ : gmap uuid project_row)).
          by rewrite lookup_insert_ne, lookup_empty. }
        congruence.
    + intros i s Hs Hne.
      destruct (decide (i = 30%N)) as [->|Hne'].
      * vm_compute in Hs. injection Hs as <-. vm_compute. discriminate.
      * assert (timesheets with_submission !! i = None) as Hnone.
        { change (timesheets with_submission)
            with (<[30%N := submitted_sheet]> (∅ : gmap uuid timesheet_row)).
          by rewrite lookup_insert_ne, lookup_empty. }
        congruence.
Defined.

Lemma default_rows_pass now :
  user_sizes (default_admin now) ∧ user_enums (default_admin now)
  ∧ user_sizes (default_employee now) ∧ user_enums (default_employee now).
Proof.
  unfold user_sizes, user_enums. simpl. split_and!; auto; lia.
Qed.

Lemma users_constraints_email_taken d id r :
  user_enums r → email_taken d id (u_email r) = true →
  users_constraints d id r = Err (unique_violation "users_email_key").
Proof.
  intros [Hrole Hstatus] Htaken.
  assert (users_role_check (u_role r) = true) as Hr.
  { apply bool_decide_eq_true. rewrite !elem_of_cons. tauto. }
  assert (users_status_check (u_status r) = true) as Hs.
  { apply bool_decide_eq_true. rewrite !elem_of_cons. tauto. }
  unfold users_constraints.
  repeat (rewrite require_true by done; simpl). by rewrite Htaken.
Qed.

(** X10. The two INSERTs that end the schema script: on the empty
    database they succeed when the two generated ids differ, and leave
    exactly the admin and the employee; with one id for both, the second
    fails on the primary key; and on a database that already holds a
    user with the admin's email they fail on the UNIQUE email, so the
    script cannot seed a database twice. *)
Theorem schema_script_outcomes a e now :
  (a ≠ e →
     ∃ d, exec_all empty_db (schema_script a e now) = Ok d
       ∧ users d !! a = Some (default_admin now)
       ∧ users d !! e = Some (default_employee now)
       ∧ size (users d) = 2%nat)
  ∧ (a = e →
       exec_all empty_db (schema_script a e now)
       = Err (unique_violation "users_pkey"))
  ∧ (∀ d id r,
       users d !! id = Some r → u_email r = "admin@omnigratum.com" →
       users d !! a = None →
       exec_all d (schema_script a e now)
       = Err (unique_violation "users_email_key")).
Proof.
  destruct (default_rows_pass now) as (Sa & Ea & Se & Ee).
  assert (insert_user empty_db a (default_admin now)
          = Ok (set_users empty_db (<[a := default_admin now]> ∅))) as Hfirst.
  { unfold insert_user. rewrite users_assign_fits by done. simpl.
    rewrite (proj2 (has_key_false _ _)) by done. simpl.
    rewrite users_constraints_pass; [done..|].
    apply email_taken_false. by intros id r Hr. }
  split; [|split].
  - intros Hne. eexists. simpl. rewrite Hfirst. simpl.
    unfold insert_user. rewrite users_assign_fits by done. simpl.
    rewrite (proj2 (has_key_false _ _))
      by by rewrite lookup_insert_ne, lookup_empty.
    simpl. rewrite users_constraints_pass; [|done..|].
    + simpl. split; [done|]. split; [|split].
      * simpl. by rewrite lookup_insert_ne, lookup_insert_eq.
      * simpl. by rewrite lookup_insert_eq.
      * simpl. rewrite map_size_insert_None
          by by rewrite lookup_insert_ne, lookup_empty.
        by rewrite map_size_insert_None, map_size_empty.
    + apply email_taken_false. simpl. intros id r.
      destruct (decide (id = a)) as [->|Hid].
      * rewrite lookup_insert_eq. by intros [= <-].
      * by rewrite lookup_insert_ne, lookup_empty.
  - intros <-. simpl. rewrite Hfirst. simpl. unfold insert_user.
    rewrite users_assign_fits by done. simpl.
    by rewrite (proj2 (has_key_true _ _)) by (rewrite lookup_insert_eq; eauto).
  - intros d id r Hr Hemail Hfresh. simpl. unfold insert_user.
    rewrite users_assign_fits by done. simpl.
    rewrite (proj2 (has_key_false _ _)) by done. simpl.
    rewrite users_constraints_email_taken; [done..|].
    apply bool_decide_eq_true, map_Exists_lookup. exists id, r.
    split; [done|]. split; [congruence | done].
Qed.

Lemma schema_script_outcomes_witness :
  (∃ d, exec_all empty_db (schema_script admin_id employee_id 0) = Ok d
     ∧ users d !! admin_id = Some (default_admin 0)
     ∧ users d !! employee_id = Some (default_employee 0)
     ∧ size (users d) = 2%nat)
  ∧ exec_all seeded (schema_script 7%N 8%N 5)
    = Err (unique_violation "users_email_key").
Proof.
  destruct (schema_script_outcomes admin_id employee_id 0) as (Hrun & _ & _).
  destruct (schema_script_outcomes 7%N 8%N 5) as (_ & _ & Hagain).
  split.
  - apply Hrun. discriminate.
  - apply (Hagain seeded admin_id (default_admin 0)); vm_compute; reflexivity.
Defined.

End StoreExtras.

(** * More about the login form *)

Module PageFacts.
Import LoginPage LoginProps PageProps LoginFacts.

Lemma handle_all_app st evs evs' :
  handle_all st (evs ++ evs') =
    match handle_all st evs with
    | Some st' => handle_all st' evs'
    | None => None
    end.
Proof.
  revert st. induction evs as [|ev evs IH]; simpl; intros st; [done|].
  by destruct (handle st ev).
Qed.

Lemma handle_all_cons st ev evs :
  handle_all st (ev :: evs) =
    match handle st ev with
    | Some st' => handle_all st' evs
    | None => None
    end.
Proof. done. Qed.

Lemma count_app test l l' :
  count test (l ++ l') = (count test l + count test l')%nat.
Proof. unfold count. by rewrite List.filter_app, length_app. Qed.

(** Typing changes the fields and nothing else. *)
Lemma typing_only st typing :
  Forall (λ ev, is_typing ev = true) typing →
  ∃ st', handle_all st typing = Some st'
    ∧ (email st', password st') = typed typing (email st, password st)
    ∧ loading st' = loading st ∧ in_flight st' = in_flight st
    ∧ log st' = log st.
Proof.
  revert st. induction typing as [|ev typing IH]; intros st Hty.
  - by exists st.
  - apply Forall_cons in Hty as [Hev Hty].
    destruct ev as [v|v| | |]; try done; simpl.
    + destruct (IH (setEmail v st) Hty) as (st' & H1 & H2 & H3 & H4 & H5).
      by exists st'.
    + destruct (IH (setPassword v st) Hty) as (st' & H1 & H2 & H3 & H4 & H5).
      by exists st'.
Qed.

(** The form after a rejected [login]: disabled, with nothing in flight. *)
Lemma locked_stays st evs st' :
  loading st = true → in_flight st = [] →
  handle_all st evs = Some st' →
  loading st' = true ∧ in_flight st' = [] ∧ log st' = log st
  ∧ Forall (λ ev, is_typing ev = true) evs.
Proof.
  revert st. induction evs as [|ev evs IH]; simpl; intros st Hl Hf.
  - by intros [= <-].
  - destruct ev as [v|v| |i r|i]; simpl.
    + intros H. destruct (IH (setEmail v st) Hl Hf H) as (? & ? & ? & ?).
      split_and!; try done. by constructor.
    + intros H. destruct (IH (setPassword v st) Hl Hf H) as (? & ? & ? & ?).
      split_and!; try done. by constructor.
    + unfold submit_disabled. by rewrite Hl.
    + by rewrite Hf.
    + by rewrite Hf.
Qed.

Lemma calls_started e pw r :
  calls (handleSubmit e pw) r = (started e pw ++ calls (after_login r) r)%list.
Proof. done. Qed.

Lemma log_ok_handle st ev st' :
  page_ok st → log_ok st → handle st ev = Some st' → log_ok st'.
Proof.
  intros Hpage Hlog. destruct ev as [v|v| |i r|i]; simpl.
  - intros [= <-]. exact Hlog.
  - intros [= <-]. exact Hlog.
  - unfold submit_disabled. destruct (loading st) eqn:Hl; [done|].
    intros [= <-].
    destruct Hpage as [Hnil|[_ ?]]; [|congruence].
    unfold log_ok in *. simpl. rewrite Hnil in *. simpl.
    exists (log st), (email st), (password st). split; [done|].
    by rewrite <- !app_assoc.
  - destruct Hpage as [Hnil|[Hone Hl]]; [by rewrite Hnil|].
    unfold log_ok in Hlog. rewrite Hone in *.
    destruct Hlog as (l & e & pw & Hl' & Hlog).
    destruct i as [|i]; [|done]. destruct r as [[] err]; simpl;
      intros [= <-]; unfold log_ok; simpl; rewrite Hone; simpl; rewrite Hlog.
    + rewrite <- !app_assoc.
      by apply (submissions_resolved l e pw
                  {| success := true; error := err |}).
    + rewrite <- !app_assoc.
      by apply (submissions_resolved l e pw
                  {| success := false; error := err |}).
  - destruct Hpage as [Hnil|[Hone Hl]]; [by rewrite Hnil|].
    unfold log_ok in Hlog. rewrite Hone in *.
    destruct Hlog as (l & e & pw & Hl' & Hlog).
    destruct i as [|i]; [|done]. simpl. intros [= <-].
    unfold log_ok. simpl. rewrite Hone. simpl. rewrite Hlog.
    by constructor.
Qed.

Lemma log_ok_reachable evs st st' :
  page_ok st → log_ok st → handle_all st evs = Some st' → log_ok st'.
Proof.
  revert st. induction evs as [|ev evs IH]; simpl; intros st Hpage Hlog.
  - by intros [= <-].
  - destruct (handle st ev) as [st1|] eqn:Hev; [|done].
    apply IH; [by eapply page_ok_handle | by eapply log_ok_handle].
Qed.

(** Calls counted against events. *)
Lemma counts_handle st ev st' :
  page_ok st → handle st ev = Some st' →
  count is_login (log st')
  = (count is_login (log st) + count_events is_onSubmit [ev])%nat
  ∧ count is_navigate (log st')
    = (count is_navigate (log st) + count_events is_success [ev])%nat
  ∧ count is_toast_error (log st')
    = (count is_toast_error (log st) + count_events is_failure [ev])%nat.
Proof.
  intros Hpage. destruct ev as [v|v| |i r|i]; simpl.
  - intros [= <-]. simpl. unfold count_events. simpl. lia.
  - intros [= <-]. simpl. unfold count_events. simpl. lia.
  - unfold submit_disabled. destruct (loading st); [done|].
    intros [= <-]. simpl. rewrite <- !app_assoc, !count_app.
    unfold count, count_events. simpl. lia.
  - destruct Hpage as [Hnil|[Hone Hl]]; [by rewrite Hnil|].
    rewrite Hone. destruct i as [|i]; [|done]. simpl. intros [= <-].
    unfold count_events. simpl.
    destruct (success r); simpl; rewrite <- ?app_assoc, !count_app;
      unfold count; simpl; lia.
  - destruct Hpage as [Hnil|[Hone Hl]]; [by rewrite Hnil|].
    rewrite Hone. destruct i as [|i]; [|done]. simpl. intros [= <-].
    unfold count_events. simpl. lia.
Qed.

Lemma count_events_cons test ev evs :
  count_events test (ev :: evs)
  = (count_events test [ev] + count_events test evs)%nat.
Proof. unfold count_events. simpl. by destruct (test ev). Qed.

Lemma counts_reachable evs st st' :
  page_ok st → handle_all st evs = Some st' →
  count is_login (log st')
  = (count is_login (log st) + count_events is_onSubmit evs)%nat
  ∧ count is_navigate (log st')
    = (count is_navigate (log st) + count_events is_success evs)%nat
  ∧ count is_toast_error (log st')
    = (count is_toast_error (log st) + count_events is_failure evs)%nat.
Proof.
  revert st. induction evs as [|ev evs IH]; simpl; intros st Hpage.
  - intros [= <-]. unfold count_events. simpl. lia.
  - destruct (handle st ev) as [st1|] eqn:Hev; [|done]. intros H.
    destruct (counts_handle st ev st1 Hpage Hev) as (H1 & H2 & H3).
    destruct (IH st1 (page_ok_handle _ _ _ Hpage Hev) H) as (H4 & H5 & H6).
    rewrite !(count_events_cons _ ev evs). lia.
Qed.

End PageFacts.

Module PageExtras.
Import LoginPage LoginProps PageProps PageSamples LoginFacts PageFacts.

(** X11. [handleSubmit] has no handler for a rejected [login]: when the
    awaited promise rejects, [setLoading(false)] never runs. From then
    on the submit button stays disabled under the label Logging in...,
    no submit is accepted, no call is made any more, and typing is the
    only thing the page still reacts to. *)
Theorem rejected_login_locks_form evs st i st1 evs' st2 :
  handle_all initial evs = Some st →
  handle st (login_rejects i) = Some st1 →
  handle_all st1 evs' = Some st2 →
  submit_disabled st2 = true
  ∧ submit_label st2 = "Logging in..."
  ∧ handle st2 onSubmit = None
  ∧ in_flight st2 = []
  ∧ log st2 = log st
  ∧ Forall (λ ev, is_typing ev = true) evs'.
Proof.
  intros Hst%(page_ok_reachable _ _ _ page_ok_initial) Hrej Hrest.
  simpl in Hrej.
  destruct Hst as [Hnil|[Hone Hl]]; [by rewrite Hnil in Hrej|].
  rewrite Hone in Hrej. destruct i as [|i]; [|done].
  simpl in Hrej. injection Hrej as <-.
  destruct (locked_stays (settled 0 st) evs' st2) as (Hl2 & Hf2 & Hlog & Hty);
    [done | by simpl; rewrite Hone | done |].
  unfold submit_disabled, submit_label, handle, submit_disabled.
  by rewrite Hl2.
Qed.

Lemma rejected_login_locks_form_witness :
  submit_disabled
    (state_after (pending_login ++ [login_rejects 0] ++ retyping)) = true
  ∧ handle_all initial
      (pending_login ++ [login_rejects 0] ++ retyping ++ [onSubmit]) = None.
Proof.
  split; [|reflexivity].
  apply (rejected_login_locks_form pending_login
           (state_after pending_login) 0
           (state_after (pending_login ++ [login_rejects 0])) retyping
           (state_after (pending_login ++ [login_rejects 0] ++ retyping)));
    reflexivity.
Defined.

(** X12. What is typed while a [login] is in flight changes the fields
    but not the request: the calls of the submission are those for the
    email and password entered when the form was submitted, and when
    the [login] resolves, whether it succeeded or not, the fields hold
    what was typed last; the handler never clears or resets them. *)
Theorem typing_while_pending evs st typing r :
  handle_all initial evs = Some st →
  submit_disabled st = false →
  Forall (λ ev, is_typing ev = true) typing →
  ∃ st',
    handle_all st (onSubmit :: typing ++ [login_resolves 0 r]) = Some st'
    ∧ log st'
      = (log st ++ calls (handleSubmit (email st) (password st)) r)%list
    ∧ (email st', password st') = typed typing (email st, password st)
    ∧ submit_disabled st' = false
    ∧ in_flight st' = [].
Proof.
  intros Hst%(page_ok_reachable _ _ _ page_ok_initial) Hl Hty.
  unfold submit_disabled in Hl.
  destruct Hst as [Hnil|[_ ?]]; [|congruence].
  set (st1 := run (handleSubmit (email st) (password st)) st).
  assert (handle st onSubmit = Some st1) as Hsub
    by (unfold handle, submit_disabled; by rewrite Hl).
  destruct (typing_only st1 typing Hty)
    as (st2 & Hrun & Hfields & Hl2 & Hf2 & Hlog2).
  assert (in_flight st2 = [after_login]) as Hone
    by (rewrite Hf2; simpl; by rewrite Hnil).
  rewrite handle_all_cons, Hsub, handle_all_app, Hrun, handle_all_cons.
  unfold handle. rewrite Hone. simpl.
  eexists. split; [done|].
  destruct r as [[] err]; simpl; rewrite Hlog2, Hone; simpl;
    (split; [by rewrite <- !app_assoc|]); done.
Qed.

Lemma typing_while_pending_witness :
  ∃ st',
    handle_all (state_after (take 2 pending_login))
      (onSubmit :: retyping
       ++ [login_resolves 0 {| success := false; error := "no" |}])
    = Some st'
    ∧ log st'
      = [preventDefault; setLoading true;
         login "admin@omnigratum.com" "admin123";
         setLoading false; toast_error "no"]
    ∧ (email st', password st')
      = ("employee@omnigratum.com", "admin1234").
Proof.
  destruct (typing_while_pending (take 2 pending_login)
              (state_after (take 2 pending_login)) retyping
              {| success := false; error := "no" |})
    as (st' & Hrun & Hlog & Hfields & _).
  - reflexivity.
  - reflexivity.
  - repeat constructor.
  - exists st'. split; [exact Hrun|]. split; [exact Hlog | exact Hfields].
Defined.

(** X13. On every page the events can lead to, the log of calls is a
    sequence of whole submissions, each either resolved (all the calls of
    [handleSubmit]) or rejected (the calls up to [login], nothing after),
    followed, when a [login] is in flight, by the calls of the started
    one up to its [login]: calls of two submissions never interleave. *)
Theorem log_of_whole_submissions evs st :
  handle_all initial evs = Some st → log_ok st.
Proof.
  apply log_ok_reachable; [apply page_ok_initial | constructor].
Qed.

Lemma log_of_whole_submissions_witness : log_ok (state_after two_logins).
Proof. apply (log_of_whole_submissions two_logins). reflexivity. Defined.

(** X14. Calls match events one to one: on every page the events can
    lead to, the number of [login] calls is the number of submits, the
    number of [navigate] calls is the number of logins that resolved
    with success, and the number of error toasts is the number of logins
    that resolved without. *)
Theorem calls_match_events evs st :
  handle_all initial evs = Some st →
  count is_login (log st) = count_events is_onSubmit evs
  ∧ count is_navigate (log st) = count_events is_success evs
  ∧ count is_toast_error (log st) = count_events is_failure evs.
Proof.
  intros H.
  by destruct (counts_reachable evs initial st page_ok_initial H)
    as (-> & -> & ->).
Qed.

Lemma calls_match_events_witness :
  count is_login (log (state_after two_logins)) = 2%nat
  ∧ count is_navigate (log (state_after two_logins)) = 1%nat
  ∧ count is_toast_error (log (state_after two_logins)) = 1%nat.
Proof. apply (calls_match_events two_logins). reflexivity. Defined.

End PageExtras.
